(** * Looker Studio reports (Odoo module [looker_studio]): a shallow embedding

    The development follows [looker_studio/models/report.py].  The two
    models [looker_studio.report] (over [crm.lead]) and
    [looker_studio.order_report] (over [sale.order]) are embedded as the
    modules [LookerReport] and [LookerOrderReport].

    The Python code is dynamically typed and leans on three things that are
    not part of the module: the CPython built-ins (floats, [str], [repr],
    [datetime]), the Odoo ORM ([read_group], [search], [search_count],
    [ir.model.fields], [safe_eval], the base [create]/[write]) and the
    request context.  The built-ins are the operations of the class
    [PyRuntime]; the ORM is the record of oracles [Env], every call of which
    may raise.  Exceptions are explicit: fallible code lives in the monad
    [res], and [try ... except Exception] is [try_except].

    Left out: the calls to [_logger], which change no result; and the lookups
    [self.env['crm.lead']] and [self.env['sale.order']], which are taken to
    succeed (the module depends on both models). *)

From stdpp Require Import gmap strings list fin_maps sorting.
From Stdlib Require Import Ascii ZArith QArith Qround DecimalString Permutation Sorted.

Set Warnings "-register-all".

Open Scope string_scope.
Open Scope list_scope.
Open Scope Z_scope.

(** ** Exceptions *)

(** The exception classes the code can meet.  All of them derive from
    [Exception], so every one is caught by [except Exception].
    ([KeyboardInterrupt] and the like, which are not, are outside the model.) *)
Inductive exn :=
| TypeError
| ValueError
| IndexError
| KeyError
| AttributeError
| OverflowError
| ZeroDivisionError
| UserError (msg : string)
| OrmError (msg : string).

Inductive res (A : Type) :=
| Ok (a : A)
| Raise (e : exn).
Arguments Ok {A} a.
Arguments Raise {A} e.

#[global] Instance res_ret : MRet res := fun A a => Ok a.
#[global] Instance res_bind : MBind res :=
  fun A B f m => match m with Ok a => f a | Raise e => Raise e end.

(** [try: body / except Exception: handler] *)
Definition try_except {A} (body : res A) (handler : exn -> res A) : res A :=
  match body with
  | Ok a => Ok a
  | Raise e => handler e
  end.

(** A loop [for x in l: acc = f acc x] whose body may raise. *)
Fixpoint for_each {A B} (f : A -> B -> res A) (acc : A) (l : list B) : res A :=
  match l with
  | [] => Ok acc
  | x :: t => acc' ← f acc x; for_each f acc' t
  end.

Definition is_ok {A} (r : res A) : bool :=
  match r with Ok _ => true | Raise _ => false end.

(** ** The CPython run time *)

(** What the code uses of CPython itself.  [float] is the carrier of Python's
    [float]; nothing is assumed about its arithmetic here (see
    [RuntimeLaws] for the two facts some statements need).  A date, and a
    [datetime] as far as the code looks at it, is its proleptic Gregorian
    ordinal ([date.toordinal()]): the code only subtracts whole days, asks for
    the weekday and formats the date part. *)
Class PyRuntime := {
  float : Type;
  f_zero : float;                               (* 0.0 *)
  f_hundred : float;                            (* 100.0 *)
  f_of_Z : Z -> option float;                   (* float(int); None: OverflowError *)
  f_of_string : string -> option float;         (* float(str); None: ValueError *)
  f_trunc : float -> option Z;                  (* int(float); None: it raises (inf, nan) *)
  f_add : float -> float -> float;
  f_mul : float -> float -> float;
  f_div : float -> float -> float;              (* only called with a divisor != 0.0 *)
  f_round : Z -> float -> float;                (* round(x, ndigits) *)
  f_eqb : float -> float -> bool;               (* == *)
  f_ltb : float -> float -> bool;               (* < *)
  f_eqb_Z : float -> Z -> bool;                 (* float == int *)
  f_ltb_Z : float -> Z -> bool;                 (* float < int *)
  Z_ltb_f : Z -> float -> bool;                 (* int < float *)
  f_repr : float -> string;                     (* repr(float) *)
  str_repr : string -> string;                  (* repr(str) *)
  str_chars : string -> list string;            (* list(str) *)
  int_of_string : string -> option Z;           (* int(str); None: ValueError *)
  strftime_ymd : Z -> string;                   (* d.strftime('%Y-%m-%d') *)
  strptime_ymd : string -> option Z;            (* strptime(s, '%Y-%m-%d') *)
  strptime_ymdhms : string -> option Z;         (* strptime(s, '%Y-%m-%d %H:%M:%S'), date part *)
}.

(** [date.min] and [date.max] as ordinals. *)
Definition ordinal_min : Z := 1.
Definition ordinal_max : Z := 3652059.

(** [d - timedelta(days=k)] (and [d + timedelta(days=-k)]). *)
Definition minus_days (d k : Z) : res Z :=
  if (ordinal_min <=? d - k) && (d - k <=? ordinal_max) then Ok (d - k)
  else Raise OverflowError.

(** [d.weekday()]: Monday is 0.  Ordinal 1 is a Monday. *)
Definition weekday (d : Z) : nat := Z.to_nat ((d + 6) mod 7).

Section PythonValues.
Context `{RT : PyRuntime}.

(** ** Python values *)

Inductive pyval :=
| PNone
| PBool (b : bool)
| PInt (z : Z)
| PFloat (f : float)
| PStr (s : string)
| PTuple (l : list pyval)
| PList (l : list pyval).

(** Truth value of an object. *)
Definition py_truthy (v : pyval) : bool :=
  match v with
  | PNone => false
  | PBool b => b
  | PInt z => negb (z =? 0)
  | PFloat f => negb (f_eqb f f_zero)
  | PStr s => negb (String.eqb s "")
  | PTuple l | PList l => match l with [] => false | _ => true end
  end.

(** [a or b] *)
Definition py_or (a b : pyval) : pyval := if py_truthy a then a else b.

(** The numeric tower: [bool] is an [int], and the two compare with [float]. *)
Inductive num :=
| NZ (z : Z)
| NF (f : float).

Definition as_num (v : pyval) : option num :=
  match v with
  | PBool b => Some (NZ (Z.b2z b))
  | PInt z => Some (NZ z)
  | PFloat f => Some (NF f)
  | _ => None
  end.

Definition num_eqb (a b : num) : bool :=
  match a, b with
  | NZ x, NZ y => x =? y
  | NF x, NF y => f_eqb x y
  | NF x, NZ y => f_eqb_Z x y
  | NZ x, NF y => f_eqb_Z y x
  end.

Definition num_ltb (a b : num) : bool :=
  match a, b with
  | NZ x, NZ y => x <? y
  | NF x, NF y => f_ltb x y
  | NF x, NZ y => f_ltb_Z x y
  | NZ x, NF y => Z_ltb_f x y
  end.

(** [a == b] *)
Fixpoint py_eqb (a b : pyval) : bool :=
  match a, b with
  | PNone, PNone => true
  | PStr s, PStr t => String.eqb s t
  | PTuple l1, PTuple l2 | PList l1, PList l2 =>
      (fix go (l1 l2 : list pyval) : bool :=
         match l1, l2 with
         | [], [] => true
         | x :: xs, y :: ys => py_eqb x y && go xs ys
         | _, _ => false
         end) l1 l2
  | _, _ =>
      match as_num a, as_num b with
      | Some x, Some y => num_eqb x y
      | _, _ => false
      end
  end.

(** [a < b]: numbers with numbers, strings with strings (by code point, which
    is byte order in UTF-8), sequences of one kind lexicographically;
    anything else is a [TypeError]. *)
Fixpoint py_lt (a b : pyval) : res bool :=
  match a, b with
  | PStr s, PStr t => Ok (String.ltb s t)
  | PTuple l1, PTuple l2 | PList l1, PList l2 =>
      (fix go (l1 l2 : list pyval) : res bool :=
         match l1, l2 with
         | [], [] => Ok false
         | [], _ :: _ => Ok true
         | _ :: _, [] => Ok false
         | x :: xs, y :: ys => if py_eqb x y then go xs ys else py_lt x y
         end) l1 l2
  | _, _ =>
      match as_num a, as_num b with
      | Some x, Some y => Ok (num_ltb x y)
      | _, _ => Raise TypeError
      end
  end.

(** Whether [hash(v)] succeeds: lists are unhashable, and so is a tuple
    that holds one. *)
Fixpoint hashable (v : pyval) : bool :=
  match v with
  | PList _ => false
  | PTuple l => forallb hashable l
  | _ => true
  end.

Definition check_hashable (v : pyval) : res unit :=
  if hashable v then Ok tt else Raise TypeError.

Definition Z_to_string (z : Z) : string := NilZero.string_of_int (Z.to_int z).

Fixpoint join (sep : string) (l : list string) : string :=
  match l with
  | [] => ""
  | [x] => x
  | x :: t => x +:+ sep +:+ join sep t
  end.

(** [repr(v)] *)
Fixpoint py_repr (v : pyval) : string :=
  match v with
  | PNone => "None"
  | PBool true => "True"
  | PBool false => "False"
  | PInt z => Z_to_string z
  | PFloat f => f_repr f
  | PStr s => str_repr s
  | PTuple [x] => "(" +:+ py_repr x +:+ ",)"
  | PTuple l => "(" +:+ join ", " (map py_repr l) +:+ ")"
  | PList l => "[" +:+ join ", " (map py_repr l) +:+ "]"
  end.

(** [str(v)] *)
Definition py_str (v : pyval) : string :=
  match v with
  | PStr s => s
  | _ => py_repr v
  end.

(** [float(v)] *)
Definition py_float (v : pyval) : res float :=
  match v with
  | PBool b => match f_of_Z (Z.b2z b) with Some f => Ok f | None => Raise OverflowError end
  | PInt z => match f_of_Z z with Some f => Ok f | None => Raise OverflowError end
  | PFloat f => Ok f
  | PStr s => match f_of_string s with Some f => Ok f | None => Raise ValueError end
  | PNone | PTuple _ | PList _ => Raise TypeError
  end.

(** [int(v)] *)
Definition py_int (v : pyval) : res Z :=
  match v with
  | PBool b => Ok (Z.b2z b)
  | PInt z => Ok z
  | PFloat f => match f_trunc f with Some z => Ok z | None => Raise OverflowError end
  | PStr s => match int_of_string s with Some z => Ok z | None => Raise ValueError end
  | PNone | PTuple _ | PList _ => Raise TypeError
  end.

(** [list(v)] *)
Definition py_list (v : pyval) : res (list pyval) :=
  match v with
  | PList l | PTuple l => Ok l
  | PStr s => Ok (map PStr (str_chars s))
  | _ => Raise TypeError
  end.

(** [isinstance(v, (list, tuple))] and the sequence behind it. *)
Definition as_seq (v : pyval) : option (list pyval) :=
  match v with
  | PTuple l | PList l => Some l
  | _ => None
  end.

(** [key[0] if isinstance(key, (list, tuple)) else key] *)
Definition first_or_self (key : pyval) : res pyval :=
  match as_seq key with
  | Some (x :: _) => Ok x
  | Some [] => Raise IndexError
  | None => Ok key
  end.

(** [key[1] if isinstance(key, (list, tuple)) and len(key) > 1 else (key or 'Undefined')] *)
Definition second_or_self (key : pyval) : pyval :=
  match as_seq key with
  | Some (_ :: y :: _) => y
  | _ => py_or key (PStr "Undefined")
  end.

(** ** Dictionaries *)

(** A [dict] keyed by strings the code itself writes is a [gmap string].
    A row of [read_group] is such a dict. *)
Definition row_get (k : string) (g : gmap string pyval) : pyval :=
  default PNone (g !! k).                       (* g.get(k) *)

Definition row_get_default (k : string) (d : pyval) (g : gmap string pyval) : pyval :=
  default d (g !! k).                           (* g.get(k, d) *)

(** A [dict] keyed by arbitrary objects: keys are compared with [==], and
    iteration is in insertion order, so it is an association list.  Using an
    unhashable key raises. *)
Fixpoint pd_lookup {V} (k : pyval) (d : list (pyval * V)) : option V :=
  match d with
  | [] => None
  | (k', v) :: t => if py_eqb k' k then Some v else pd_lookup k t
  end.

(** [d[k] = v]: an existing key keeps its place (and the key object first
    inserted); a new one goes last. *)
Fixpoint pd_store {V} (k : pyval) (v : V) (d : list (pyval * V)) : list (pyval * V) :=
  match d with
  | [] => [(k, v)]
  | (k', v') :: t => if py_eqb k' k then (k', v) :: t else (k', v') :: pd_store k v t
  end.

(** [d.get(k, dflt)] *)
Definition pd_get {V} (k : pyval) (dflt : V) (d : list (pyval * V)) : res V :=
  _ ← check_hashable k; Ok (default dflt (pd_lookup k d)).

(** [d[k] = v] *)
Definition pd_set {V} (k : pyval) (v : V) (d : list (pyval * V)) : res (list (pyval * V)) :=
  _ ← check_hashable k; Ok (pd_store k v d).

(** [sorted(l, key=..., reverse=True)]: a stable sort into descending order
    that only asks [<], and raises when a comparison does.  (CPython's sort
    asks other pairs than this insertion sort does; the two return the same
    list whenever [<] is a total preorder on the keys, and both raise when the
    keys fall into classes that do not compare.) *)
Fixpoint insert_desc {A} (key : A -> pyval) (x : A) (l : list A) : res (list A) :=
  match l with
  | [] => Ok [x]
  | y :: t =>
      b ← py_lt (key x) (key y);
      if b : bool then t' ← insert_desc key x t; Ok (y :: t')
      else Ok (x :: y :: t)
  end.

Fixpoint sorted_desc {A} (key : A -> pyval) (l : list A) : res (list A) :=
  match l with
  | [] => Ok []
  | x :: t => t' ← sorted_desc key t; insert_desc key x t'
  end.

(** ['pre%spost' % x] with a single [%s]: a tuple on the right is the
    argument list, so it must hold exactly one object. *)
Definition format1 (pre post : string) (x : pyval) : res string :=
  match x with
  | PTuple [y] => Ok (pre +:+ py_str y +:+ post)
  | PTuple _ => Raise TypeError
  | _ => Ok (pre +:+ py_str x +:+ post)
  end.

(** ** The host: ORM and request context *)

(** A row of [ir.model.fields]. *)
Record field_rec := {
  f_name : string;
  f_description : option string;                (* field_description, or False *)
  f_ttype : string;
  f_relation : option string;                   (* relation, or False *)
}.

(** What [fields.Date.context_today] hands back. *)
Inductive today_val :=
| TodayStr (s : string)
| TodayDate (d : Z).

(** [r.date_order] of a [sale.order]: [False], a string, or a [datetime]. *)
Inductive dt_val :=
| DtFalse
| DtStr (s : string)
| DtObj (d : Z).

(** A [sale.order] record as the weekday branch reads it. *)
Record order_row := {
  date_order : dt_val;
  order_fields : gmap string pyval;             (* getattr(r, name) *)
}.

(** [getattr(rel_rec, rel_field, None)]: a recordset (ids with their [name])
    or a plain value ([None] when the attribute is missing). *)
Inductive target :=
| TRecs (l : list (Z * pyval))
| TVal (v : pyval).

(** The calls the module makes on its host.  Each may raise. *)
Record Env := {
  (* safe_eval(text) *)
  safe_eval : string -> res pyval;
  (* env[model].read_group(domain, fields, groupby, lazy=False) *)
  read_group : string -> pyval -> list string -> list string -> res (list (gmap string pyval));
  (* env[model].search_count(domain) *)
  search_count : string -> pyval -> res Z;
  (* env['sale.order'].search(domain) *)
  search : pyval -> res (list order_row);
  (* env['ir.model.fields'].sudo().search([('model','=',m),('name','=',n)], limit=1) *)
  field_search : string -> pyval -> res (option field_rec);
  (* getattr(env[rel_model].sudo().browse(gid), rel_field, None) *)
  related : string -> pyval -> string -> res target;
  (* fields.Date.context_today(self) *)
  context_today : res today_val;
  (* self.exists() on the record with this id *)
  record_exists : Z -> bool;
}.

(** A stored [Char]/[Text]/[Selection] field reads as a string or [False]. *)
Definition of_field (o : option string) : pyval :=
  match o with
  | Some s => PStr s
  | None => PBool false
  end.

Definition field_set (o : option string) : bool := py_truthy (of_field o).

(** What [get_chart_data] returns: the dict with the keys [labels],
    [count_values], [sum_values], [line_labels] and [line_values]. *)
Record chart := {
  labels : list string;
  count_values : list pyval;
  sum_values : list pyval;
  line_labels : list string;
  line_values : list pyval;
}.

Definition empty_chart : chart :=
  {| labels := []; count_values := []; sum_values := [];
     line_labels := []; line_values := [] |}.

(** An element of [group_entries]. *)
Record entry := {
  e_gid : pyval;
  e_label : string;
  e_count : pyval;
  e_sum : float;
}.

(** Lines shared word for word by the two models. *)

(** [_eval_domain] *)
Definition eval_domain_text (env : Env) (domain : option string) : res pyval :=
  if negb (field_set domain) then Ok (PList [])
  else try_except (safe_eval env (default "" domain)) (fun _ => Ok (PList [])).

(** [limit_n = int(self.limit) if getattr(self, 'limit', 0) and int(self.limit) > 0 else 0] *)
Definition limit_n_of (limit : Z) : Z :=
  if negb (limit =? 0) && (limit >? 0) then limit else 0.

(** The [Top-N] lines:
    [if limit_n and len(group_entries) > limit_n: group_entries = sorted(...)[:limit_n]] *)
Definition top_n (limit : Z) (by_sum : bool) (group_entries : list entry) : res (list entry) :=
  let limit_n := limit_n_of limit in
  if negb (limit_n =? 0) && (Z.of_nat (length group_entries) >? limit_n) then
    let sort_key := if by_sum then (fun e => PFloat (e_sum e)) else e_count in
    l ← sorted_desc sort_key group_entries;
    Ok (take (Z.to_nat limit_n) l)
  else Ok group_entries.

(** [today_dt]: midnight of the context's today. *)
Definition today_dt (env : Env) : res Z :=
  today ← context_today env;
  match today with
  | TodayStr s => match strptime_ymd s with Some d => Ok d | None => Raise ValueError end
  | TodayDate d => Ok d
  end.

Definition N_days : Z := 14.

(** [ts_domain]: the domain narrowed to the last [N] days. *)
Definition ts_domain_of (domain : pyval) (today : Z) : res (list pyval) :=
  start ← minus_days today (N_days - 1);
  stop ← minus_days today (-1);
  let start_dt := strftime_ymd start +:+ " 00:00:00" in
  let end_dt := strftime_ymd stop +:+ " 00:00:00" in
  l ← py_list domain;
  Ok (l ++ [PTuple [PStr "create_date"; PStr ">="; PStr start_dt];
            PTuple [PStr "create_date"; PStr "<"; PStr end_dt]]).

(** The time-series [read_group], with its own [try]. *)
Definition read_ts_groups (env : Env) (model : string) (ts_domain : list pyval)
    (value_field : option string) : res (list (gmap string pyval)) :=
  try_except
    (if field_set value_field then
       read_group env model (PList ts_domain) ["create_date"; default "" value_field] ["create_date:day"]
     else
       read_group env model (PList ts_domain) ["create_date"] ["create_date:day"])
    (fun _ => Ok []).

(** [for g in ts_groups: ... ts_map[str(day)] = ...] *)
Definition ts_map_step (value_field : option string)
    (ts_map : gmap string pyval) (g : gmap string pyval) : res (gmap string pyval) :=
  let key := row_get "create_date" g in
  day ← first_or_self key;
  if field_set value_field then
    Ok (<[py_str day := py_or (row_get (default "" value_field) g) (PFloat f_zero)]> ts_map)
  else
    Ok (<[py_str day := row_get_default "__count" (PInt 0) g]> ts_map).

(** The days [today - (N-1) .. today], oldest first. *)
Definition day_offsets : list Z := map Z.of_nat (seq 0 (Z.to_nat N_days)).

(** The last loop: [line_labels] and [line_values], one pair per day;
    [value_of] is what the loop body appends for the day. *)
Definition line_series (today : Z) (value_of : string -> res pyval)
    : res (list string * list pyval) :=
  for_each (fun acc i =>
      day_dt ← minus_days today (N_days - 1 - i);
      let day_str := strftime_ymd day_dt in
      v ← value_of day_str;
      Ok (acc.1 ++ [day_str], acc.2 ++ [v]))
    ([], []) day_offsets.

End PythonValues.

(** A double quote, for messages that hold one. *)
Definition dq : string := String "034"%char EmptyString.

(** The message of the [UserError] raised by [create]. *)
Definition save_error : exn :=
  UserError ("Vui lòng chọn cả " +:+ dq +:+ "Group By Field" +:+ dq +:+ " và " +:+ dq
             +:+ "Value Field" +:+ dq +:+ " trước khi lưu báo cáo.").

(** The three description keys. *)
Definition description_keys : list string :=
  ["pie_description"; "bar_description"; "line_description"].

(** ** [looker_studio.report]: reports over [crm.lead] *)

Module LookerReport.

Record report := {
  report_id : Z;
  domain : option string;
  group_field : option string;
  value_field : option string;
  limit : Z;
  success_domain : option string;
  pie_description : option string;
  line_description : option string;
  bar_description : option string;
}.

(** The argument of [create]: one dict or a list of them. *)
Inductive create_arg `{RT : PyRuntime} :=
| OneVals (v : gmap string pyval)
| ManyVals (l : list (gmap string pyval)).

(** The argument of [write]: a dict, or anything else. *)
Inductive write_arg `{RT : PyRuntime} :=
| WDict (v : gmap string pyval)
| WOther (v : pyval).

(** [super().create] and [super().write] over a store of type [S]. *)
Record BaseModel `{RT : PyRuntime} (S : Type) := {
  base_create : S -> create_arg -> S * res (list Z);
  base_write : S -> list report -> write_arg -> S * res bool;
}.
Arguments base_create {RT S} _ _ _.
Arguments base_write {RT S} _ _ _ _.

Section Model.
Context `{RT : PyRuntime} (env : Env).

Definition model : string := "crm.lead".

(** The inner [label(field)] of [_ensure_auto_descriptions]. *)
Definition label (field : pyval) : res pyval :=
  if negb (py_truthy field) then Ok (PStr "")
  else
    f ← field_search env model field;
    match f with
    | Some fr =>
        if field_set (f_description fr) then Ok (of_field (f_description fr)) else Ok field
    | None => Ok field
    end.

(** The fallback on the record's own value:
    [if not x and len(self) == 1 and self.exists(): x = self.x or x]. *)
Definition or_stored (self : list report) (x : pyval) (stored : report -> option string) : pyval :=
  match self with
  | [r] =>
      if negb (py_truthy x) && record_exists env (report_id r)
      then py_or (of_field (stored r)) x
      else x
  | _ => x
  end.

Definition filter_note (domain : pyval) : string :=
  if py_truthy domain then " (có áp dụng bộ lọc)" else "".

(** The texts [pie], [bar] and [line] of [_ensure_auto_descriptions]. *)
Definition auto_descriptions (self : list report) (vals : gmap string pyval)
    : res (string * string * string) :=
  let group_field := or_stored self (row_get "group_field" vals) group_field in
  let value_field := or_stored self (row_get "value_field" vals) value_field in
  let domain := or_stored self (row_get "domain" vals) domain in
  pie ← (if py_truthy group_field then
           l ← label group_field; format1 "Phân bố khách hàng tiềm năng theo " "." l
         else Ok "Phân bố khách hàng tiềm năng.");
  bar ← (if py_truthy group_field && py_truthy value_field then
           lv ← label value_field; lg ← label group_field;
           Ok ("Tổng " +:+ py_str lv +:+ " theo " +:+ py_str lg +:+ ".")
         else if py_truthy group_field then
           l ← label group_field; format1 "Số lượng khách hàng tiềm năng theo " "." l
         else Ok "Giá trị theo danh mục.");
  line ← (if py_truthy value_field then
            lv ← label value_field;
            Ok ("Xu hướng tổng " +:+ py_str lv +:+ " theo ngày trong 14 ngày gần nhất"
                +:+ filter_note domain +:+ ".")
          else
            Ok ("Xu hướng số lượng khách hàng tiềm năng trong 14 ngày gần nhất"
                +:+ filter_note domain +:+ "."));
  Ok (pie, bar, line).

(** [if k not in vals: vals[k] = text] *)
Definition set_absent (k : string) (text : string) (vals : gmap string pyval)
    : gmap string pyval :=
  match vals !! k with
  | Some _ => vals
  | None => <[k := PStr text]> vals
  end.

Definition _ensure_auto_descriptions (self : list report) (vals : gmap string pyval)
    : res (gmap string pyval) :=
  '(pie, bar, line) ← auto_descriptions self vals;
  Ok (set_absent "line_description" line
        (set_absent "bar_description" bar
           (set_absent "pie_description" pie vals))).

(** The inner [ensure_and_validate(v)] of [create]. *)
Definition ensure_and_validate (self : list report) (v : gmap string pyval)
    : res (gmap string pyval) :=
  if negb (py_truthy (row_get "group_field" v)) || negb (py_truthy (row_get "value_field" v))
  then Raise save_error
  else _ensure_auto_descriptions self v.

(** [[ensure_and_validate(v) for v in vals]] *)
Fixpoint validate_all (self : list report) (l : list (gmap string pyval))
    : res (list (gmap string pyval)) :=
  match l with
  | [] => Ok []
  | v :: t => v' ← ensure_and_validate self v; t' ← validate_all self t; Ok (v' :: t')
  end.

Definition create {S} (base : BaseModel S) (st : S) (self : list report) (vals : create_arg)
    : S * res (list Z) :=
  match vals with
  | ManyVals l =>
      match validate_all self l with
      | Ok l' => base_create base st (ManyVals l')
      | Raise e => (st, Raise e)
      end
  | OneVals v =>
      match ensure_and_validate self v with
      | Ok v' => base_create base st (OneVals v')
      | Raise e => (st, Raise e)
      end
  end.

Definition write {S} (base : BaseModel S) (st : S) (self : list report) (vals : write_arg)
    : S * res bool :=
  match vals with
  | WDict v =>
      match _ensure_auto_descriptions self v with
      | Ok v' => base_write base st self (WDict v')
      | Raise e => (st, Raise e)
      end
  | WOther _ => base_write base st self vals
  end.

Definition _eval_domain (r : report) : res pyval := eval_domain_text env (domain r).

(** [sum_map[gid] = g.get(self.value_field) or 0.0], for one row of [grp_sum]. *)
Definition sum_map_step (gf vf : string) (sum_map : list (pyval * pyval))
    (g : gmap string pyval) : res (list (pyval * pyval)) :=
  let key := row_get gf g in
  gid ← first_or_self key;
  pd_set gid (py_or (row_get vf g) (PFloat f_zero)) sum_map.

(** The body of [for g in groups], giving the entry it appends. *)
Definition entry_of (r : report) (gf : string) (sum_map : list (pyval * pyval))
    (g : gmap string pyval) : res entry :=
  let key := row_get gf g in
  gid ← first_or_self key;
  let lbl := second_or_self key in
  let cnt := row_get_default "__count" (PInt 0) g in
  sval ← pd_get gid (if negb (field_set (value_field r)) then cnt else PFloat f_zero) sum_map;
  s ← py_float sval;
  Ok {| e_gid := gid; e_label := py_str lbl; e_count := cnt; e_sum := s |}.

(** [group_entries] before the limit is applied. *)
Definition group_entries (r : report) (dom : pyval) (gf : string) : res (list entry) :=
  groups ← try_except (read_group env model dom [gf] [gf]) (fun _ => Ok []);
  sum_map ←
    (if field_set (value_field r) then
       let vf := default "" (value_field r) in
       grp_sum ← try_except (read_group env model dom [gf; vf] [gf]) (fun _ => Ok []);
       for_each (sum_map_step gf vf) [] grp_sum
     else Ok []);
  for_each (fun acc g => e ← entry_of r gf sum_map g; Ok (acc ++ [e])) [] groups.

(** The first half of the [try] body: [labels], [count_values], [sum_values]. *)
Definition group_part (r : report) (dom : pyval)
    : res (list string * list pyval * list pyval) :=
  if field_set (group_field r) then
    es ← group_entries r dom (default "" (group_field r));
    es' ← top_n (limit r) (field_set (value_field r)) es;
    Ok (map e_label es', map e_count es', map (fun e => PFloat (e_sum e)) es')
  else
    total ← search_count env model dom;
    if field_set (value_field r) then
      let vf := default "" (value_field r) in
      rows ← read_group env model dom [vf] [];
      let total_sum := match rows with g :: _ => row_get vf g | [] => PFloat f_zero end in
      Ok (["All"], [PInt total], [py_or total_sum (PFloat f_zero)])
    else
      Ok (["All"], [PInt total], [PInt total]).

(** [success_dom] *)
Definition success_dom_of (r : report) : res pyval :=
  if field_set (success_domain r) then
    try_except
      (v ← safe_eval env (default "" (success_domain r)); Ok (py_or v (PList [])))
      (fun _ => Ok (PList []))
  else Ok (PList []).

(** [ts_success_map[str(day)] = g.get('__count', 0)] *)
Definition ts_success_step (m : gmap string pyval) (g : gmap string pyval)
    : res (gmap string pyval) :=
  let key := row_get "create_date" g in
  day ← first_or_self key;
  Ok (<[py_str day := row_get_default "__count" (PInt 0) g]> m).

(** The percentage appended for one day when [success_dom] is set. *)
Definition percentage (ts_map ts_success_map : gmap string pyval) (day_str : string)
    : res pyval :=
  let total := row_get_default day_str (PInt 0) ts_map in
  let succ := row_get_default day_str (PInt 0) ts_success_map in
  perc ←
    (if py_truthy total then
       fs ← py_float succ;
       ft ← py_float total;
       if f_eqb ft f_zero then Raise ZeroDivisionError
       else Ok (f_mul (f_div fs ft) f_hundred)
     else Ok f_zero);
  Ok (PFloat (f_round 1 perc)).

(** The second half of the [try] body: [line_labels] and [line_values]. *)
Definition time_series (r : report) (dom : pyval) : res (list string * list pyval) :=
  today ← today_dt env;
  ts_domain ← ts_domain_of dom today;
  ts_groups ← read_ts_groups env model ts_domain (value_field r);
  success_dom ← success_dom_of r;
  ts_map ← for_each (ts_map_step (value_field r)) ∅ ts_groups;
  ts_success_map ←
    (if py_truthy success_dom then
       ts_groups_success ←
         try_except
           (l ← py_list success_dom;
            read_group env model (PList (ts_domain ++ l)) ["create_date"] ["create_date:day"])
           (fun _ => Ok []);
       for_each ts_success_step ∅ ts_groups_success
     else Ok ∅);
  line_series today (fun day_str =>
    if py_truthy success_dom then percentage ts_map ts_success_map day_str
    else Ok (row_get_default day_str
               (if negb (field_set (value_field r)) then PInt 0 else PFloat f_zero) ts_map)).

(** Everything between [try:] and [except Exception:]. *)
Definition chart_body (r : report) (dom : pyval) : res chart :=
  '(labels, count_values, sum_values) ← group_part r dom;
  '(line_labels, line_values) ← time_series r dom;
  Ok {| labels := labels; count_values := count_values; sum_values := sum_values;
        line_labels := line_labels; line_values := line_values |}.

(** [self.ensure_one()] *)
Definition ensure_one (self : list report) : res report :=
  match self with
  | [r] => Ok r
  | _ => Raise ValueError
  end.

Definition get_chart_data (self : list report) : res chart :=
  r ← ensure_one self;
  dom ← _eval_domain r;
  try_except (chart_body r dom) (fun _ => Ok empty_chart).

End Model.
End LookerReport.

(** ** [looker_studio.order_report]: reports over [sale.order] *)

(** ['.' in s], [s.split('.')] and [s.replace('_', ' ')] *)
Fixpoint has_dot (s : string) : bool :=
  match s with
  | EmptyString => false
  | String c t => Ascii.eqb c "."%char || has_dot t
  end.

Fixpoint split_dot (s : string) : list string :=
  match s with
  | EmptyString => [""]
  | String c t =>
      if Ascii.eqb c "."%char then "" :: split_dot t
      else match split_dot t with
           | h :: r => String c h :: r
           | [] => [String c ""]
           end
  end.

Fixpoint replace_underscores (s : string) : string :=
  match s with
  | EmptyString => ""
  | String c t => String (if Ascii.eqb c "_"%char then " "%char else c) (replace_underscores t)
  end.

(** The labels of the weekday buckets, Monday first. *)
Definition days : list string :=
  ["Thứ 2"; "Thứ 3"; "Thứ 4"; "Thứ 5"; "Thứ 6"; "Thứ 7"; "Chủ Nhật"].

(** [{i: v for i in range(7)}] *)
Definition week_map {V} (v : V) : gmap nat V :=
  list_to_map ((fun i => (i, v)) <$> seq 0 7).

Module LookerOrderReport.

Record report := {
  report_id : Z;
  domain : option string;
  group_field : option string;
  value_field : option string;
  limit : Z;
  pie_description : option string;
  line_description : option string;
  bar_description : option string;
}.

Inductive create_arg `{RT : PyRuntime} :=
| OneVals (v : gmap string pyval)
| ManyVals (l : list (gmap string pyval)).

Inductive write_arg `{RT : PyRuntime} :=
| WDict (v : gmap string pyval)
| WOther (v : pyval).

Record BaseModel `{RT : PyRuntime} (S : Type) := {
  base_create : S -> create_arg -> S * res (list Z);
  base_write : S -> list report -> write_arg -> S * res bool;
}.
Arguments base_create {RT S} _ _ _.
Arguments base_write {RT S} _ _ _ _.

(** A value of [buckets] in the relational branch. *)
Record bucket `{RT : PyRuntime} := {
  b_gid : pyval;
  b_label : string;
  b_count : Z;
  b_sum : float;
}.

Section Model.
Context `{RT : PyRuntime} (env : Env).

Definition model : string := "sale.order".

(** [f.field_description if f and f.field_description else dflt] *)
Definition description_or (f : option field_rec) (dflt : pyval) : pyval :=
  match f with
  | Some fr => if field_set (f_description fr) then of_field (f_description fr) else dflt
  | None => dflt
  end.

Definition _order_field_label (field_name : pyval) : res pyval :=
  if negb (py_truthy field_name) then Ok (PStr "")
  else
    match field_name with
    | PStr s =>
        if has_dot s then
          let parts := split_dot s in
          let top := default "" (head parts) in
          let sub := parts !! 1%nat in
          f_top ← field_search env model (PStr top);
          let top_label := description_or f_top (PStr top) in
          match sub, f_top with
          | Some sb, Some ft =>
              if negb (String.eqb sb "") && String.eqb (f_ttype ft) "many2one"
                 && field_set (f_relation ft)
              then
                f_sub ← field_search env (default "" (f_relation ft)) (PStr sb);
                let sub_label := description_or f_sub (PStr sb) in
                Ok (PStr (py_str sub_label +:+ " (" +:+ py_str top_label +:+ ")"))
              else Ok (PStr (replace_underscores s))
          | _, _ => Ok (PStr (replace_underscores s))
          end
        else
          f ← field_search env model field_name;
          Ok (description_or f (py_or field_name (PStr "")))
    | _ =>
        f ← field_search env model field_name;
        Ok (description_or f (py_or field_name (PStr "")))
    end.

Definition or_stored (self : list report) (x : pyval) (stored : report -> option string) : pyval :=
  match self with
  | [r] =>
      if negb (py_truthy x) && record_exists env (report_id r)
      then py_or (of_field (stored r)) x
      else x
  | _ => x
  end.

Definition filter_note (domain : pyval) : string :=
  if py_truthy domain then " (có áp dụng bộ lọc)" else "".

Definition auto_descriptions (self : list report) (vals : gmap string pyval)
    : res (string * string * string) :=
  let group_field := or_stored self (row_get "group_field" vals) group_field in
  let value_field := or_stored self (row_get "value_field" vals) value_field in
  let domain := or_stored self (row_get "domain" vals) domain in
  pie ← (if py_truthy group_field then
           l ← _order_field_label group_field; format1 "Phân bố đơn hàng theo " "." l
         else Ok "Phân bố đơn hàng.");
  bar ← (if py_truthy group_field && py_truthy value_field then
           lv ← _order_field_label value_field; lg ← _order_field_label group_field;
           Ok ("Tổng " +:+ py_str lv +:+ " theo " +:+ py_str lg +:+ ".")
         else if py_truthy group_field then
           l ← _order_field_label group_field; format1 "Số lượng đơn hàng theo " "." l
         else Ok "Giá trị theo danh mục.");
  line ← (if py_truthy value_field then
            lv ← _order_field_label value_field;
            Ok ("Xu hướng tổng " +:+ py_str lv +:+ " theo ngày trong 14 ngày gần nhất"
                +:+ filter_note domain +:+ ".")
          else
            Ok ("Xu hướng số lượng đơn hàng trong 14 ngày gần nhất"
                +:+ filter_note domain +:+ "."));
  Ok (pie, bar, line).

Definition set_absent (k : string) (text : string) (vals : gmap string pyval)
    : gmap string pyval :=
  match vals !! k with
  | Some _ => vals
  | None => <[k := PStr text]> vals
  end.

Definition _ensure_auto_descriptions (self : list report) (vals : gmap string pyval)
    : res (gmap string pyval) :=
  '(pie, bar, line) ← auto_descriptions self vals;
  Ok (set_absent "line_description" line
        (set_absent "bar_description" bar
           (set_absent "pie_description" pie vals))).

Definition ensure_and_validate (self : list report) (v : gmap string pyval)
    : res (gmap string pyval) :=
  if negb (py_truthy (row_get "group_field" v)) || negb (py_truthy (row_get "value_field" v))
  then Raise save_error
  else _ensure_auto_descriptions self v.

Fixpoint validate_all (self : list report) (l : list (gmap string pyval))
    : res (list (gmap string pyval)) :=
  match l with
  | [] => Ok []
  | v :: t => v' ← ensure_and_validate self v; t' ← validate_all self t; Ok (v' :: t')
  end.

Definition create {S} (base : BaseModel S) (st : S) (self : list report) (vals : create_arg)
    : S * res (list Z) :=
  match vals with
  | ManyVals l =>
      match validate_all self l with
      | Ok l' => base_create base st (ManyVals l')
      | Raise e => (st, Raise e)
      end
  | OneVals v =>
      match ensure_and_validate self v with
      | Ok v' => base_create base st (OneVals v')
      | Raise e => (st, Raise e)
      end
  end.

Definition write {S} (base : BaseModel S) (st : S) (self : list report) (vals : write_arg)
    : S * res bool :=
  match vals with
  | WDict v =>
      match _ensure_auto_descriptions self v with
      | Ok v' => base_write base st self (WDict v')
      | Raise e => (st, Raise e)
      end
  | WOther _ => base_write base st self vals
  end.

Definition _eval_domain (r : report) : res pyval := eval_domain_text env (domain r).

(** *** The weekday branch *)

(** The date a row counts for: none when [date_order] is empty or is a
    string that does not parse. *)
Definition order_day (r : order_row) : option Z :=
  match date_order r with
  | DtFalse => None
  | DtStr s => if String.eqb s "" then None else strptime_ymdhms s
  | DtObj d => Some d
  end.

(** [float(getattr(r, self.value_field) or 0.0)] *)
Definition order_value (vf : string) (r : order_row) : res float :=
  match order_fields r !! vf with
  | Some x => py_float (py_or x (PFloat f_zero))
  | None => Raise AttributeError
  end.

(** The body of [for r in rows]. *)
Definition weekday_step (value_field : option string)
    (acc : gmap nat Z * gmap nat float) (r : order_row)
    : res (gmap nat Z * gmap nat float) :=
  match order_day r with
  | None => Ok acc
  | Some d =>
      let wd := weekday d in
      match acc.1 !! wd with
      | None => Raise KeyError
      | Some c =>
          let weekday_map := <[wd := c + 1]> acc.1 in
          if field_set value_field then
            x ← order_value (default "" value_field) r;
            match acc.2 !! wd with
            | None => Raise KeyError
            | Some s => Ok (weekday_map, <[wd := f_add s x]> acc.2)
            end
          else Ok (weekday_map, acc.2)
      end
  end.

Definition weekday_part (r : report) (dom : pyval)
    : res (list string * list pyval * list pyval) :=
  rows ← search env dom;
  '(weekday_map, sum_map) ← for_each (weekday_step (value_field r))
                              (week_map 0, week_map f_zero) rows;
  Ok (days,
      map (fun i => PInt (default 0 (weekday_map !! i))) (seq 0 7),
      map (fun i => PFloat (f_round 2 (default f_zero (sum_map !! i)))) (seq 0 7)).

(** *** The relational branch *)

Definition sum_map_step (gf vf : string) (sum_map : list (pyval * pyval))
    (g : gmap string pyval) : res (list (pyval * pyval)) :=
  let key := row_get gf g in
  gid ← first_or_self key;
  pd_set gid (py_or (row_get vf g) (PFloat f_zero)) sum_map.

(** [rel_model]: the model behind the top field when it is a many2one. *)
Definition rel_model_of (top : string) : option string :=
  match try_except
          (f_top ← field_search env model (PStr top);
           match f_top with
           | Some ft => if String.eqb (f_ttype ft) "many2one" then Ok (f_relation ft) else Ok None
           | None => Ok None
           end)
          (fun _ => Ok None) with
  | Ok o => if field_set o then o else None
  | Raise _ => None
  end.

(** [rel_id] and [rel_label] out of the related [target]. In a recordset
    the second component is [target.name if hasattr(target, 'name') else
    str(target)]; [target.id] of several records raises. *)
Definition of_target (t : target) : res (pyval * pyval) :=
  match t with
  | TRecs [] => Ok (PNone, PStr "Undefined")
  | TRecs [(i, name)] => Ok (PInt i, py_or name (PStr "Undefined"))
  | TRecs _ => Raise ValueError
  | TVal v =>
      if py_truthy v then Ok (v, py_or (PStr (py_str v)) (PStr "Undefined"))
      else Ok (PNone, PStr "Undefined")
  end.

(** One turn of [for g in groups], up to the bucket it feeds:
    [(rel_id, rel_label, int(cnt or 0), float(rel_sum or 0.0))]. *)
Definition contribution (rel_model : option string) (top rel_field : string)
    (sum_map_per_top : list (pyval * pyval)) (g : gmap string pyval)
    : res (pyval * pyval * Z * float) :=
  let key := row_get top g in
  gid ← first_or_self key;
  let cnt := row_get_default "__count" (PInt 0) g in
  '(rel_id, rel_label, rel_sum) ←
    (if negb (py_truthy gid) then Ok (PNone, PStr "Undefined", PFloat f_zero)
     else
       rel_sum ← pd_get gid (PFloat f_zero) sum_map_per_top;
       match rel_model with
       | Some rm =>
           '(rel_id, rel_label) ←
             try_except (t ← related env rm gid rel_field; of_target t)
                        (fun _ => Ok (PNone, PStr "Undefined"));
           Ok (rel_id, rel_label, rel_sum)
       | None => Ok (gid, second_or_self key, rel_sum)
       end);
  _ ← check_hashable rel_id;
  c ← py_int (py_or cnt (PInt 0));
  s ← py_float (py_or rel_sum (PFloat f_zero));
  Ok (rel_id, rel_label, c, s).

(** The bucket lines: create the bucket of [rel_id] when it is new, then
    add the count and the sum to it. *)
Definition bucket_add (buckets : list (pyval * bucket)) (x : pyval * pyval * Z * float)
    : list (pyval * bucket) :=
  let '(rel_id, rel_label, c, s) := x in
  match pd_lookup rel_id buckets with
  | Some b =>
      pd_store rel_id {| b_gid := b_gid b; b_label := b_label b;
                         b_count := b_count b + c; b_sum := f_add (b_sum b) s |} buckets
  | None =>
      buckets ++ [(rel_id, {| b_gid := rel_id; b_label := py_str rel_label;
                              b_count := 0 + c; b_sum := f_add f_zero s |})]
  end.

Definition entry_of_bucket (b : bucket) : entry :=
  {| e_gid := b_gid b; e_label := b_label b; e_count := PInt (b_count b); e_sum := b_sum b |}.

(** [groups] and [sum_map_per_top] of the relational branch. *)
Definition top_groups (dom : pyval) (top : string) : res (list (gmap string pyval)) :=
  try_except (read_group env model dom [top] [top]) (fun _ => Ok []).

Definition top_sums (r : report) (dom : pyval) (top : string) : res (list (pyval * pyval)) :=
  if field_set (value_field r) then
    let vf := default "" (value_field r) in
    grp_sum ← try_except (read_group env model dom [top; vf] [top]) (fun _ => Ok []);
    for_each (sum_map_step top vf) [] grp_sum
  else Ok [].

Definition relational_entries (r : report) (dom : pyval) (gf : string) : res (list entry) :=
  let parts := split_dot gf in
  let top := default "" (head parts) in
  let rel_field := default "" (parts !! 1%nat) in
  groups ← top_groups dom top;
  sum_map_per_top ← top_sums r dom top;
  let rel_model := rel_model_of top in
  buckets ← for_each (fun b g =>
                         x ← contribution rel_model top rel_field sum_map_per_top g;
                         Ok (bucket_add b x))
                     [] groups;
  Ok (map (fun kb => entry_of_bucket kb.2) buckets).

Definition relational_part (r : report) (dom : pyval) (gf : string)
    : res (list string * list pyval * list pyval) :=
  es ← relational_entries r dom gf;
  es' ← top_n (limit r) (field_set (value_field r)) es;
  Ok (map e_label es', map e_count es', map (fun e => PFloat (e_sum e)) es').

(** *** The plain [group_field] branch *)

Definition plain_row (r : report) (gf : string) (sum_map : list (pyval * pyval))
    (g : gmap string pyval) : res (string * pyval * pyval) :=
  let key := row_get gf g in
  gid ← first_or_self key;
  let lbl := second_or_self key in
  let cnt := row_get_default "__count" (PInt 0) g in
  sval ← pd_get gid (if negb (field_set (value_field r)) then cnt else PFloat f_zero) sum_map;
  s ← py_float (py_or sval (PFloat f_zero));
  Ok (py_str lbl, cnt, PFloat s).

Definition plain_part (r : report) (dom : pyval) (gf : string)
    : res (list string * list pyval * list pyval) :=
  groups ← try_except (read_group env model dom [gf] [gf]) (fun _ => Ok []);
  sum_map ←
    (if field_set (value_field r) then
       let vf := default "" (value_field r) in
       grp_sum ← try_except (read_group env model dom [gf; vf] [gf]) (fun _ => Ok []);
       for_each (sum_map_step gf vf) [] grp_sum
     else Ok []);
  for_each (fun acc g =>
              '(l, c, s) ← plain_row r gf sum_map g;
              Ok (acc.1.1 ++ [l], acc.1.2 ++ [c], acc.2 ++ [s]))
           ([], [], []) groups.

Definition total_part (r : report) (dom : pyval)
    : res (list string * list pyval * list pyval) :=
  total ← search_count env model dom;
  if field_set (value_field r) then
    let vf := default "" (value_field r) in
    rows ← read_group env model dom [vf] [];
    let total_sum := match rows with g :: _ => row_get vf g | [] => PFloat f_zero end in
    Ok (["All"], [PInt total], [py_or total_sum (PFloat f_zero)])
  else
    Ok (["All"], [PInt total], [PInt total]).

(** The first half of the [try] body. *)
Definition group_part (r : report) (dom : pyval)
    : res (list string * list pyval * list pyval) :=
  if bool_decide (group_field r = Some "date_order_weekday") then weekday_part r dom
  else if field_set (group_field r) && has_dot (default "" (group_field r)) then
    relational_part r dom (default "" (group_field r))
  else if field_set (group_field r) then plain_part r dom (default "" (group_field r))
  else total_part r dom.

(** The second half: the last 14 days by [create_date]. *)
Definition time_series (r : report) (dom : pyval) : res (list string * list pyval) :=
  today ← today_dt env;
  ts_domain ← ts_domain_of dom today;
  ts_groups ← read_ts_groups env model ts_domain (value_field r);
  ts_map ← for_each (ts_map_step (value_field r)) ∅ ts_groups;
  line_series today (fun day_str =>
    Ok (row_get_default day_str
          (if negb (field_set (value_field r)) then PInt 0 else PFloat f_zero) ts_map)).

Definition chart_body (r : report) (dom : pyval) : res chart :=
  '(labels, count_values, sum_values) ← group_part r dom;
  '(line_labels, line_values) ← time_series r dom;
  Ok {| labels := labels; count_values := count_values; sum_values := sum_values;
        line_labels := line_labels; line_values := line_values |}.

Definition ensure_one (self : list report) : res report :=
  match self with
  | [r] => Ok r
  | _ => Raise ValueError
  end.

Definition get_chart_data (self : list report) : res chart :=
  r ← ensure_one self;
  dom ← _eval_domain r;
  try_except (chart_body r dom) (fun _ => Ok empty_chart).

End Model.
End LookerOrderReport.

(** ** The form side of the two models *)

(** The helpers behind the form view: the descriptions proposed while a
    report is edited ([_onchange_auto_descriptions] and the [_build_*]
    functions) and the choices offered for the group and the value field
    ([_get_*_fields]).  They read [ir.model.fields] through [field_search]
    and, where the code scans all the fields of a model, through the oracle
    [model_fields] of the sections below:
    [env['ir.model.fields'].sudo().search([('model', '=', m)])]. *)

(** What the order model asks of [str] beyond the built-ins of [PyRuntime].
    Case mapping and slicing go by code point, so they belong to the run
    time. *)
Class TextOps := {
  str_strip : string -> string;                 (* s.strip() *)
  str_lower : string -> string;                 (* s.lower() *)
  str_drop : nat -> string -> string;           (* s[n:] *)
}.

Section Selections.
Context `{RT : PyRuntime}.

(** [(f.name, f.field_description or f.name)] *)
Definition selection_item (f : field_rec) : string * string :=
  (f_name f, if field_set (f_description f) then default "" (f_description f) else f_name f).

(** [f.ttype in ('char', 'selection', 'many2one')] *)
Definition groupable (f : field_rec) : bool :=
  existsb (String.eqb (f_ttype f)) ["char"; "selection"; "many2one"].

(** [f.ttype in ('integer', 'float', 'monetary')] *)
Definition numeric (f : field_rec) : bool :=
  existsb (String.eqb (f_ttype f)) ["integer"; "float"; "monetary"].

End Selections.

Module LookerReportForm.
Import LookerReport.

Section Model.
Context `{RT : PyRuntime} (env : Env) (model_fields : string -> res (list field_rec)).

Definition _crm_field_label (field_name : pyval) : res pyval :=
  if negb (py_truthy field_name) then Ok (PStr "")
  else
    f ← field_search env model field_name;
    match f with
    | Some fr =>
        if field_set (f_description fr) then Ok (of_field (f_description fr))
        else Ok field_name
    | None => Ok field_name
    end.

Definition _build_pie_description (r : report) : res string :=
  if field_set (group_field r) then
    l ← _crm_field_label (of_field (group_field r));
    format1 "Phân bố khách hàng tiềm năng theo " "." l
  else Ok "Phân bố khách hàng tiềm năng.".

Definition _build_bar_description (r : report) : res string :=
  if field_set (group_field r) && field_set (value_field r) then
    lv ← _crm_field_label (of_field (value_field r));
    lg ← _crm_field_label (of_field (group_field r));
    Ok ("Tổng " +:+ py_str lv +:+ " theo " +:+ py_str lg +:+ ".")
  else if field_set (group_field r) then
    l ← _crm_field_label (of_field (group_field r));
    format1 "Số lượng khách hàng tiềm năng theo " "." (PTuple [l])
  else Ok "Giá trị theo danh mục.".

Definition _build_line_description (r : report) : res string :=
  let domain_part := if field_set (domain r) then " (có áp dụng bộ lọc)" else "" in
  if field_set (success_domain r) then
    format1 "Xu hướng tỷ lệ phần trăm khách hàng tiềm năng theo ngày trong 14 ngày gần nhất"
            "." (PStr domain_part)
  else if field_set (value_field r) then
    l ← _crm_field_label (of_field (value_field r));
    Ok ("Xu hướng tổng " +:+ py_str l +:+ " theo ngày trong 14 ngày gần nhất"
        +:+ domain_part +:+ ".")
  else
    format1 "Xu hướng số lượng khách hàng tiềm năng trong 14 ngày gần nhất"
            "." (PStr domain_part).

(** [rec.pie_description = s] and its two siblings. *)
Definition set_pie_description (r : report) (s : string) : report :=
  {| report_id := report_id r; domain := domain r; group_field := group_field r;
     value_field := value_field r; limit := limit r; success_domain := success_domain r;
     pie_description := Some s;
     line_description := line_description r;
     bar_description := bar_description r |}.

Definition set_bar_description (r : report) (s : string) : report :=
  {| report_id := report_id r; domain := domain r; group_field := group_field r;
     value_field := value_field r; limit := limit r; success_domain := success_domain r;
     pie_description := pie_description r;
     line_description := line_description r;
     bar_description := Some s |}.

Definition set_line_description (r : report) (s : string) : report :=
  {| report_id := report_id r; domain := domain r; group_field := group_field r;
     value_field := value_field r; limit := limit r; success_domain := success_domain r;
     pie_description := pie_description r;
     line_description := Some s;
     bar_description := bar_description r |}.

(** The body of [for rec in self]. *)
Definition onchange_record (rec : report) : res report :=
  rec ← (if negb (field_set (pie_description rec))
         then s ← _build_pie_description rec; Ok (set_pie_description rec s)
         else Ok rec);
  rec ← (if negb (field_set (bar_description rec))
         then s ← _build_bar_description rec; Ok (set_bar_description rec s)
         else Ok rec);
  if negb (field_set (line_description rec))
  then s ← _build_line_description rec; Ok (set_line_description rec s)
  else Ok rec.

(** The records of [self] as the handler leaves them. *)
Definition _onchange_auto_descriptions (self : list report) : res (list report) :=
  for_each (fun done rec => rec' ← onchange_record rec; Ok (done ++ [rec'])) [] self.

Definition _get_crm_group_fields : res (list (string * string)) :=
  found ← for_each (fun acc name =>
                      f ← field_search env model (PStr name);
                      match f with
                      | Some fr => Ok (acc ++ [selection_item fr])
                      | None => Ok acc
                      end)
                   [] ["stage_id"; "user_id"; "team_id"; "partner_id"; "company_id"; "country_id"];
  match found with
  | [] => fields ← model_fields model; Ok (map selection_item (List.filter groupable fields))
  | _ => Ok found
  end.

Definition _get_crm_value_fields : res (list (string * string)) :=
  found ← for_each (fun acc name =>
                      f ← field_search env model (PStr name);
                      match f with
                      | Some fr => if numeric fr then Ok (acc ++ [selection_item fr]) else Ok acc
                      | None => Ok acc
                      end)
                   [] ["expected_revenue"; "planned_revenue"; "probability"];
  match found with
  | [] => fields ← model_fields model; Ok (map selection_item (List.filter numeric fields))
  | _ => Ok found
  end.

End Model.
End LookerReportForm.

Module LookerOrderReportForm.
Import LookerOrderReport.

Section Model.
Context `{RT : PyRuntime} `{TO : TextOps} (env : Env)
        (model_fields : string -> res (list field_rec)).

Definition _build_pie_description (r : report) : res string :=
  if field_set (group_field r) then
    l ← _order_field_label env (of_field (group_field r));
    format1 "Phân bố đơn hàng theo " "." l
  else Ok "Phân bố đơn hàng.".

(** The lines the bar and the line text share: [sval], the value label
    without a leading [Tổng]. *)
Definition value_words (val_label : pyval) : res string :=
  match val_label with
  | PStr s =>
      let sval := str_strip s in
      if String.eqb (str_lower sval) "tổng" then Ok "giá trị"
      else if String.prefix "tổng " (str_lower sval) then Ok (str_strip (str_drop 5 sval))
      else Ok sval
  | _ => Raise AttributeError
  end.

Definition _build_bar_description (r : report) : res string :=
  if field_set (group_field r) && field_set (value_field r) then
    val_label ← _order_field_label env (of_field (value_field r));
    sval ← value_words val_label;
    lg ← _order_field_label env (of_field (group_field r));
    Ok ("Tổng " +:+ sval +:+ " theo " +:+ py_str lg +:+ ".")
  else if field_set (group_field r) then
    l ← _order_field_label env (of_field (group_field r));
    format1 "Số lượng đơn hàng theo " "." (PTuple [l])
  else Ok "Giá trị theo danh mục.".

Definition _build_line_description (r : report) : res string :=
  let domain_part := if field_set (domain r) then " (có áp dụng bộ lọc)" else "" in
  if field_set (value_field r) then
    val_label ← _order_field_label env (of_field (value_field r));
    sval ← value_words val_label;
    Ok ("Xu hướng tổng " +:+ sval +:+ " theo ngày trong 14 ngày gần nhất"
        +:+ domain_part +:+ ".")
  else
    format1 "Xu hướng số lượng đơn hàng trong 14 ngày gần nhất" "." (PStr domain_part).

Definition set_pie_description (r : report) (s : string) : report :=
  {| report_id := report_id r; domain := domain r; group_field := group_field r;
     value_field := value_field r; limit := limit r;
     pie_description := Some s;
     line_description := line_description r;
     bar_description := bar_description r |}.

Definition set_bar_description (r : report) (s : string) : report :=
  {| report_id := report_id r; domain := domain r; group_field := group_field r;
     value_field := value_field r; limit := limit r;
     pie_description := pie_description r;
     line_description := line_description r;
     bar_description := Some s |}.

Definition set_line_description (r : report) (s : string) : report :=
  {| report_id := report_id r; domain := domain r; group_field := group_field r;
     value_field := value_field r; limit := limit r;
     pie_description := pie_description r;
     line_description := Some s;
     bar_description := bar_description r |}.

Definition onchange_record (rec : report) : res report :=
  rec ← (if negb (field_set (pie_description rec))
         then s ← _build_pie_description rec; Ok (set_pie_description rec s)
         else Ok rec);
  rec ← (if negb (field_set (bar_description rec))
         then s ← _build_bar_description rec; Ok (set_bar_description rec s)
         else Ok rec);
  if negb (field_set (line_description rec))
  then s ← _build_line_description rec; Ok (set_line_description rec s)
  else Ok rec.

Definition _onchange_auto_descriptions (self : list report) : res (list report) :=
  for_each (fun done rec => rec' ← onchange_record rec; Ok (done ++ [rec'])) [] self.

Definition _get_order_group_fields : res (list (string * string)) :=
  found ← for_each (fun acc name =>
                      if negb (has_dot name) then
                        f ← field_search env model (PStr name);
                        match f with
                        | Some fr => Ok (acc ++ [selection_item fr])
                        | None =>
                            if String.eqb name "date_order_weekday"
                            then Ok (acc ++ [(name, "Ngày trong tuần")])
                            else Ok acc
                        end
                      else if String.eqb name "partner_id.country_id"
                      then Ok (acc ++ [(name, "Quốc gia (Đối tác)")])
                      else if String.eqb name "partner_id.city"
                      then Ok (acc ++ [(name, "Tỉnh/Thành (Đối tác)")])
                      else Ok acc)
                   [] ["partner_id"; "partner_id.country_id"; "partner_id.city"; "user_id";
                       "date_order"; "date_order_weekday"];
  match found with
  | [] => fields ← model_fields model; Ok (map selection_item (List.filter groupable fields))
  | _ => Ok found
  end.

Definition _get_order_value_fields : res (list (string * string)) :=
  found ← for_each (fun acc name =>
                      f ← field_search env model (PStr name);
                      match f with
                      | Some fr => if numeric fr then Ok (acc ++ [selection_item fr]) else Ok acc
                      | None => Ok acc
                      end)
                   [] ["amount_total"; "amount_untaxed"; "amount_tax"];
  match found with
  | [] => fields ← model_fields model; Ok (map selection_item (List.filter numeric fields))
  | _ => Ok found
  end.

End Model.
End LookerOrderReportForm.

(** ** The pages: [controllers/report.py] *)

(** The two routes render a report: they fetch the record, ask it for its
    chart data and add a few figures for the small table of the page.
    Nothing in them is inside a [try] but what is marked below, so an
    exception of [sum], [float], [search_count] or [json.dumps] leaves the
    route.  What is kept of [request.render] is the name of the template and
    the context; of the context, the entries [report] (by its id) and the
    strings and numbers, and not [json], the module handed to the template.
    [json.dumps] is an operation of the run time, and the leads of a
    domain are read through the oracle [lead_probabilities] of the section:
    [lead.probability for lead in env['crm.lead'].sudo().search(domain)],
    floats as the field is a [Float]. *)
Class JsonOps `{RT : PyRuntime} := {
  json_dumps : pyval -> res string;             (* json.dumps(obj) *)
}.

Section Numbers.
Context `{RT : PyRuntime}.

Definition num_float (x : num) : res float :=
  match x with
  | NZ z => match f_of_Z z with Some f => Ok f | None => Raise OverflowError end
  | NF f => Ok f
  end.

(** [a + b] where [a] is a number, as [sum] meets it: two integers add up
    to an integer, an integer next to a float is converted first, and a
    number plus anything else is a [TypeError]. *)
Definition py_add (a b : pyval) : res pyval :=
  match as_num a, as_num b with
  | Some (NZ x), Some (NZ y) => Ok (PInt (x + y))
  | Some x, Some y => fx ← num_float x; fy ← num_float y; Ok (PFloat (f_add fx fy))
  | _, _ => Raise TypeError
  end.

(** [sum(l)] *)
Definition py_sum (l : list pyval) : res pyval := for_each py_add (PInt 0) l.

(** [float(a) / float(b)] *)
Definition float_ratio (a b : pyval) : res float :=
  fa ← py_float a;
  fb ← py_float b;
  if f_eqb fb f_zero then Raise ZeroDivisionError else Ok (f_div fa fb).

(** [total / n] for a float [total] and the length [n] of a recordset.  (Of
    two integers Python rounds the exact quotient; the numerator here is a
    sum of floats.) *)
Definition py_truediv (total : pyval) (n : Z) : res float :=
  match as_num total with
  | Some x =>
      fa ← num_float x;
      fb ← num_float (NZ n);
      if f_eqb fb f_zero then Raise ZeroDivisionError else Ok (f_div fa fb)
  | None => Raise TypeError
  end.

(** [sum(lead.probability or 0.0 for lead in leads) / len(leads)], rounded
    to one digit; [leads] is not empty. *)
Definition average_probability (ps : list float) : res pyval :=
  total ← py_sum (map (fun p => py_or (PFloat p) (PFloat f_zero)) ps);
  avg ← py_truediv total (Z.of_nat (length ps));
  Ok (PFloat (f_round 1 avg)).

(** [round(float(s) / float(t) * 100.0, 1) if t else 0.0] *)
Definition success_pct_of (success_leads total_leads : pyval) : res pyval :=
  if py_truthy total_leads then
    q ← float_ratio success_leads total_leads;
    Ok (PFloat (f_round 1 (f_mul q f_hundred)))
  else Ok (PFloat f_zero).

(** [round(float(v) / float(t), 2) if t and v else 0.0] *)
Definition avg_value_of (total_value total_leads : pyval) : res pyval :=
  if py_truthy total_leads && py_truthy total_value then
    q ← float_ratio total_value total_leads;
    Ok (PFloat (f_round 2 q))
  else Ok (PFloat f_zero).

End Numbers.

(** What a route answers: [request.not_found()], or the rendered template
    with its context. *)
Record page `{RT : PyRuntime} := {
  page_template : string;
  page_report : Z;
  labels_json : string;
  counts_json : string;
  sums_json : string;
  line_labels_json : string;
  line_values_json : string;
  line_is_percentage : Z;
  stat_total_leads : pyval;
  stat_success_leads : pyval;
  stat_success_pct : pyval;
  stat_total_value : pyval;
  stat_avg_value : pyval;
  probability_json : string;
  values_json : string;
}.

Inductive response `{RT : PyRuntime} :=
| NotFound
| Rendered (p : page).

Module LookerReportController.

Section Routes.
Context `{RT : PyRuntime} `{JS : !JsonOps} (env : Env)
        (lead_probabilities : pyval -> res (list float)).

(** [line_is_percentage] and [success_dom] of [render_report]. *)
Definition success_of (report : LookerReport.report) : Z * pyval :=
  if field_set (LookerReport.success_domain report) then
    match safe_eval env (default "" (LookerReport.success_domain report)) with
    | Ok v =>
        let sd := py_or v (PList []) in
        (if py_truthy sd then 1 else 0, sd)
    | Raise _ => (0, PList [])
    end
  else (0, PList []).

(** [total_leads = sum(counts) if counts else Model.search_count(domain)] *)
Definition total_of (model : string) (domain : pyval) (counts : list pyval) : res pyval :=
  match counts with
  | [] => n ← search_count env model domain; Ok (PInt n)
  | _ => py_sum counts
  end.

(** [total_value = sum(sums) if sums else 0.0] *)
Definition total_value_of (sums : list pyval) : res pyval :=
  match sums with
  | [] => Ok (PFloat f_zero)
  | _ => py_sum sums
  end.

(** [success_leads], with its [try]. *)
Definition success_leads_of (domain success_dom : pyval) : Z :=
  match try_except
          (if py_truthy success_dom then
             l1 ← py_list domain;
             l2 ← py_list success_dom;
             search_count env LookerReport.model (PList (l1 ++ l2))
           else Ok 0)
          (fun _ => Ok 0) with
  | Ok n => n
  | Raise _ => 0
  end.

(** [group_id_map[str(label)] = gid], for one group. *)
Definition group_id_map_step (gf : string) (m : gmap string pyval) (g : gmap string pyval)
    : res (gmap string pyval) :=
  let key := row_get gf g in
  gid ← first_or_self key;
  let label := second_or_self key in
  Ok (<[py_str label := gid]> m).

(** The body of [for i, label in enumerate(labels)], giving what it
    appends. *)
Definition category_probability (gf : string) (domain : pyval) (m : gmap string pyval)
    (label : string) : res pyval :=
  let group_id := row_get label m in
  if py_truthy group_id then
    l ← py_list domain;
    ps ← lead_probabilities (PList (l ++ [PTuple [PStr gf; PStr "="; group_id]]));
    match ps with
    | [] => Ok (PFloat f_zero)
    | _ => average_probability ps
    end
  else Ok (PFloat f_zero).

(** [probability_values], with its two [try]. *)
Definition probability_values (report : LookerReport.report) (domain : pyval)
    (labels : list string) : res (list pyval) :=
  if field_set (LookerReport.group_field report) then
    let gf := default "" (LookerReport.group_field report) in
    try_except
      (all_groups ← read_group env LookerReport.model domain [gf] [gf];
       m ← for_each (group_id_map_step gf) ∅ all_groups;
       for_each (fun acc label => p ← category_probability gf domain m label; Ok (acc ++ [p]))
                [] labels)
      (fun _ => Ok (replicate (length labels) (PFloat f_zero)))
  else
    try_except
      (ps ← lead_probabilities domain;
       match ps with
       | [] => Ok [PFloat f_zero]
       | _ => p ← average_probability ps; Ok [p]
       end)
      (fun _ => Ok (match labels with
                    | [] => [PFloat f_zero]
                    | _ => replicate (length labels) (PFloat f_zero)
                    end)).

Definition render_report (report : LookerReport.report) : res response :=
  if negb (record_exists env (LookerReport.report_id report)) then Ok NotFound
  else
    data ← LookerReport.get_chart_data env [report];
    let '(is_percentage, success_dom) := success_of report in
    domain ← LookerReport._eval_domain env report;
    total_leads ← total_of LookerReport.model domain (count_values data);
    total_value ← total_value_of (sum_values data);
    let success_leads := success_leads_of domain success_dom in
    success_pct ← success_pct_of (PInt success_leads) total_leads;
    avg_value ← avg_value_of total_value total_leads;
    probabilities ← probability_values report domain (labels data);
    lj ← json_dumps (PList (map PStr (labels data)));
    cj ← json_dumps (PList (count_values data));
    sj ← json_dumps (PList (sum_values data));
    llj ← json_dumps (PList (map PStr (line_labels data)));
    lvj ← json_dumps (PList (line_values data));
    pj ← json_dumps (PList probabilities);
    vj ← json_dumps (PList (count_values data));
    Ok (Rendered {| page_template := "looker_studio.report_modern_template";
                    page_report := LookerReport.report_id report;
                    labels_json := lj; counts_json := cj; sums_json := sj;
                    line_labels_json := llj; line_values_json := lvj;
                    line_is_percentage := is_percentage;
                    stat_total_leads := total_leads;
                    stat_success_leads := PInt success_leads;
                    stat_success_pct := success_pct;
                    stat_total_value := total_value;
                    stat_avg_value := avg_value;
                    probability_json := pj;
                    values_json := vj |}).

Definition render_order_report (report : LookerOrderReport.report) : res response :=
  if negb (record_exists env (LookerOrderReport.report_id report)) then Ok NotFound
  else
    data ← LookerOrderReport.get_chart_data env [report];
    domain ← LookerOrderReport._eval_domain env report;
    total_orders ← total_of LookerOrderReport.model domain (count_values data);
    total_amount ← total_value_of (sum_values data);
    avg_amount ← avg_value_of total_amount total_orders;
    lj ← json_dumps (PList (map PStr (labels data)));
    cj ← json_dumps (PList (count_values data));
    sj ← json_dumps (PList (sum_values data));
    llj ← json_dumps (PList (map PStr (line_labels data)));
    lvj ← json_dumps (PList (line_values data));
    pj ← json_dumps (PList (line_values data));
    vj ← json_dumps (PList (count_values data));
    Ok (Rendered {| page_template := "looker_studio.report_order_template";
                    page_report := LookerOrderReport.report_id report;
                    labels_json := lj; counts_json := cj; sums_json := sj;
                    line_labels_json := llj; line_values_json := lvj;
                    line_is_percentage := 0;
                    stat_total_leads := total_orders;
                    stat_success_leads := PInt 0;
                    stat_success_pct := PFloat f_zero;
                    stat_total_value := total_amount;
                    stat_avg_value := avg_amount;
                    probability_json := pj;
                    values_json := vj |}).

End Routes.
End LookerReportController.

(** ** A run time to evaluate with *)

(** Concrete runs below are evaluated with floats read as exact rationals
    (kept in lowest terms) and with the Gregorian calendar written out.
    Nothing proved for every [PyRuntime] depends on this instance. *)
Module QRuntime.

Definition q_round (ndigits : Z) (x : Q) : Q :=
  let scale := 10 ^ ndigits in
  let y := Qmult x (inject_Z scale) in
  let fl := Qfloor y in
  let twice := Qminus (Qmult (2 # 1) y) (inject_Z (2 * fl)) in   (* 2 * (y - floor y) *)
  let n := match Qcompare twice (1 # 1) with
           | Lt => fl
           | Gt => fl + 1
           | Eq => if Z.even fl then fl else fl + 1
           end in
  Qred (Qdiv (inject_Z n) (inject_Z scale)).

Definition two_digits (n : Z) : string :=
  (if n <? 10 then "0" else "") +:+ Z_to_string n.

Definition four_digits (n : Z) : string :=
  (if n <? 10 then "000" else if n <? 100 then "00" else if n <? 1000 then "0" else "")
  +:+ Z_to_string n.

(** Year, month and day of an ordinal (ordinal 1 is 0001-01-01). *)
Definition civil_of_ordinal (ord : Z) : Z * Z * Z :=
  let z := ord + 305 in
  let era := z / 146097 in
  let doe := z - era * 146097 in
  let yoe := (doe - doe / 1460 + doe / 36524 - doe / 146096) / 365 in
  let doy := doe - (365 * yoe + yoe / 4 - yoe / 100) in
  let mp := (5 * doy + 2) / 153 in
  let d := doy - (153 * mp + 2) / 5 + 1 in
  let m := if mp <? 10 then mp + 3 else mp - 9 in
  let y := yoe + era * 400 + (if m <=? 2 then 1 else 0) in
  (y, m, d).

Definition ordinal_of_civil (y m d : Z) : Z :=
  let y' := if m <=? 2 then y - 1 else y in
  let era := y' / 400 in
  let yoe := y' - era * 400 in
  let mp := if m >? 2 then m - 3 else m + 9 in
  let doy := (153 * mp + 2) / 5 + d - 1 in
  let doe := yoe * 365 + yoe / 4 - yoe / 100 + doy in
  era * 146097 + doe - 305.

Definition format_ymd (ord : Z) : string :=
  let '(y, m, d) := civil_of_ordinal ord in
  four_digits y +:+ "-" +:+ two_digits m +:+ "-" +:+ two_digits d.

Definition digit_of (c : ascii) : option Z :=
  let n := Z.of_nat (nat_of_ascii c) in
  if (48 <=? n) && (n <=? 57) then Some (n - 48) else None.

Fixpoint digits_value (acc : Z) (s : string) : option Z :=
  match s with
  | EmptyString => Some acc
  | String c t => match digit_of c with
                  | Some d => digits_value (10 * acc + d) t
                  | None => None
                  end
  end.

(** Zero-padded [YYYY-MM-DD] only. *)
Definition parse_ymd (s : string) : option Z :=
  if negb (String.length s =? 10)%nat then None
  else if negb (String.eqb (String.substring 4 1 s) "-" && String.eqb (String.substring 7 1 s) "-") then None
  else
    match digits_value 0 (String.substring 0 4 s), digits_value 0 (String.substring 5 2 s),
          digits_value 0 (String.substring 8 2 s) with
    | Some y, Some m, Some d =>
        let ord := ordinal_of_civil y m d in
        if String.eqb (format_ymd ord) s && (1 <=? y) then Some ord else None
    | _, _, _ => None
    end.

(** Zero-padded [YYYY-MM-DD HH:MM:SS] only; the time is checked for shape. *)
Definition parse_ymdhms (s : string) : option Z :=
  if negb (String.length s =? 19)%nat then None
  else
    match digits_value 0 (String.substring 11 2 s), digits_value 0 (String.substring 14 2 s),
          digits_value 0 (String.substring 17 2 s) with
    | Some h, Some mi, Some se =>
        if String.eqb (String.substring 10 1 s) " " && String.eqb (String.substring 13 1 s) ":"
           && String.eqb (String.substring 16 1 s) ":" && (h <? 24) && (mi <? 60) && (se <? 62)
        then parse_ymd (String.substring 0 10 s) else None
    | _, _, _ => None
    end.

Fixpoint chars_of (s : string) : list string :=
  match s with
  | EmptyString => []
  | String c t => String c "" :: chars_of t
  end.

Definition parse_int (s : string) : option Z :=
  Z.of_int <$> NilZero.int_of_string s.

#[export] Instance runtime : PyRuntime := {|
  float := Q;
  f_zero := 0%Q;
  f_hundred := 100%Q;
  f_of_Z z := Some (inject_Z z);
  f_of_string s := inject_Z <$> parse_int s;
  f_trunc q := Some (Z.quot (Qnum q) (Z.pos (Qden q)));
  f_add a b := Qred (Qplus a b);
  f_mul a b := Qred (Qmult a b);
  f_div a b := Qred (Qdiv a b);
  f_round := q_round;
  f_eqb := Qeq_bool;
  f_ltb a b := negb (Qle_bool b a);
  f_eqb_Z a z := Qeq_bool a (inject_Z z);
  f_ltb_Z a z := negb (Qle_bool (inject_Z z) a);
  Z_ltb_f z a := negb (Qle_bool a (inject_Z z));
  f_repr q := Z_to_string (Qnum q) +:+ "/" +:+ Z_to_string (Z.pos (Qden q));
  str_repr s := "'" +:+ s +:+ "'";
  str_chars := chars_of;
  int_of_string := parse_int;
  strftime_ymd := format_ymd;
  strptime_ymd := parse_ymd;
  strptime_ymdhms := parse_ymdhms;
|}.

End QRuntime.


(** ** What is assumed of floats *)

(** The two facts about floats that some statements below rest on:
    rounding zero gives zero, and [<] is a strict weak order (as it is on
    binary64 without NaN). *)
Class RuntimeLaws `{RT : PyRuntime} : Prop := {
  f_round_zero : forall n, f_round n f_zero = f_zero;
  f_ltb_asym : forall a b, f_ltb a b = true -> f_ltb b a = false;
  f_ltb_negtrans : forall a b c, f_ltb a b = false -> f_ltb b c = false -> f_ltb a c = false;
}.

(** ** Concrete hosts *)

Module Runs.
Import QRuntime.

(** A host with no data: every aggregate is empty, every domain text
    evaluates to one condition, and today is 2026-11-03. *)
Definition quiet_env : Env := {|
  safe_eval := fun _ => Ok (PList [PTuple [PStr "stage_id"; PStr "="; PInt 4]]);
  read_group := fun _ _ _ _ => Ok [];
  search_count := fun _ _ => Ok 0;
  search := fun _ => Ok [];
  field_search := fun _ _ => Ok None;
  related := fun _ _ _ => Ok (TVal PNone);
  context_today := Ok (TodayDate 739923);
  record_exists := fun _ => true;
|}.

(** The same host with [search_count] out of order. *)
Definition broken_env : Env := {|
  safe_eval := safe_eval quiet_env;
  read_group := read_group quiet_env;
  search_count := fun _ _ => Raise (OrmError "search_count");
  search := fun _ => Raise (OrmError "search");
  field_search := field_search quiet_env;
  related := related quiet_env;
  context_today := context_today quiet_env;
  record_exists := record_exists quiet_env;
|}.

(** A lead report with nothing set but a success domain. *)
Definition success_only : LookerReport.report := {|
  LookerReport.report_id := 1;
  LookerReport.domain := None;
  LookerReport.group_field := None;
  LookerReport.value_field := None;
  LookerReport.limit := 1000;
  LookerReport.success_domain := Some "[('stage_id', '=', 4)]";
  LookerReport.pie_description := None;
  LookerReport.line_description := None;
  LookerReport.bar_description := None;
|}.

(** An order report with nothing set. *)
Definition bare_order : LookerOrderReport.report := {|
  LookerOrderReport.report_id := 1;
  LookerOrderReport.domain := None;
  LookerOrderReport.group_field := None;
  LookerOrderReport.value_field := None;
  LookerOrderReport.limit := 1000;
  LookerOrderReport.pie_description := None;
  LookerOrderReport.line_description := None;
  LookerOrderReport.bar_description := None;
|}.

(** The window of the time series when today is 2026-11-03. *)
Definition window : list pyval :=
  [PTuple [PStr "create_date"; PStr ">="; PStr "2026-10-21 00:00:00"];
   PTuple [PStr "create_date"; PStr "<"; PStr "2026-11-04 00:00:00"]].

Definition one_condition : pyval := PList [PTuple [PStr "stage_id"; PStr "="; PInt 4]].

(** What the two reports give on the host with no data. *)
Definition success_only_chart : chart :=
  Eval vm_compute in
    default empty_chart
      (match LookerReport.chart_body quiet_env success_only (PList []) with
       | Ok c => Some c
       | Raise _ => None
       end).

Definition bare_order_chart : chart :=
  Eval vm_compute in
    default empty_chart
      (match LookerOrderReport.chart_body quiet_env bare_order (PList []) with
       | Ok c => Some c
       | Raise _ => None
       end).

(** A host with a little data. *)

Definition field_of (description ttype : string) (relation : option string) (n : string)
    : res (option field_rec) :=
  Ok (Some {| f_name := n; f_description := Some description;
              f_ttype := ttype; f_relation := relation |}).

Definition field_catalog (m : string) (n : pyval) : res (option field_rec) :=
  match n with
  | PStr s =>
      if String.eqb m "crm.lead" && String.eqb s "stage_id"
      then field_of "Giai đoạn" "many2one" (Some "crm.stage") s
      else if String.eqb m "crm.lead" && String.eqb s "expected_revenue"
      then field_of "Doanh thu dự kiến" "monetary" None s
      else if String.eqb m "sale.order" && String.eqb s "partner_id"
      then field_of "Khách hàng" "many2one" (Some "res.partner") s
      else if String.eqb m "sale.order" && String.eqb s "amount_total"
      then field_of "Tổng" "monetary" None s
      else if String.eqb m "res.partner" && String.eqb s "country_id"
      then field_of "Quốc gia" "many2one" (Some "res.country") s
      else Ok None
  | _ => Ok None
  end.

(** Leads by stage: three in stage 1, five in stage 4, one without a stage. *)
Definition lead_groups : list (gmap string pyval) :=
  [ {[ "stage_id" := PTuple [PInt 1; PStr "New"]; "__count" := PInt 3;
       "expected_revenue" := PFloat 10%Q ]};
    {[ "stage_id" := PTuple [PInt 4; PStr "Won"]; "__count" := PInt 5;
       "expected_revenue" := PFloat 70%Q ]};
    {[ "stage_id" := PBool false; "__count" := PInt 1;
       "expected_revenue" := PFloat 7%Q ]} ].

(** Leads of the last days: two were created today, worth 1000 together,
    and one of the two is in the success stage. *)
Definition lead_days : list (gmap string pyval) :=
  [ {[ "create_date" := PStr "2026-11-03"; "__count" := PInt 2;
       "expected_revenue" := PFloat 1000%Q ]} ].

Definition lead_days_success : list (gmap string pyval) :=
  [ {[ "create_date" := PStr "2026-11-03"; "__count" := PInt 1 ]} ].

(** Orders by customer: customers 7 and 8 are in country 233, customer 9
    has no country, and one order has no customer. *)
Definition order_groups : list (gmap string pyval) :=
  [ {[ "partner_id" := PTuple [PInt 7; PStr "Azure"]; "__count" := PInt 2;
       "amount_total" := PFloat 100%Q ]};
    {[ "partner_id" := PTuple [PInt 8; PStr "Deco"]; "__count" := PInt 1;
       "amount_total" := PFloat 50%Q ]};
    {[ "partner_id" := PTuple [PInt 9; PStr "Gemini"]; "__count" := PInt 4;
       "amount_total" := PFloat 30%Q ]};
    {[ "partner_id" := PBool false; "__count" := PInt 1;
       "amount_total" := PFloat 5%Q ]} ].

Definition partner_country (rel_model : string) (gid : pyval) (rel_field : string)
    : res target :=
  if String.eqb rel_model "res.partner" && String.eqb rel_field "country_id" then
    match gid with
    | PInt 7 | PInt 8 => Ok (TRecs [(233, PStr "United States")])
    | PInt 9 => Ok (TRecs [])
    | _ => Raise (OrmError "missing record")
    end
  else Ok (TVal PNone).

(** Five orders: two on Tuesday 2026-11-03, one on Monday 2026-11-02 (its
    date a string), one without a date and one whose date does not parse. *)
Definition order_rows : list order_row :=
  [ {| date_order := DtObj 739923; order_fields := {[ "amount_total" := PFloat 100%Q ]} |};
    {| date_order := DtStr "2026-11-02 09:30:00";
       order_fields := {[ "amount_total" := PFloat 50%Q ]} |};
    {| date_order := DtFalse; order_fields := {[ "amount_total" := PFloat 8%Q ]} |};
    {| date_order := DtStr "yesterday"; order_fields := {[ "amount_total" := PFloat 9%Q ]} |};
    {| date_order := DtObj 739923; order_fields := {[ "amount_total" := PFloat (51 # 2) ]} |} ].

Definition shop_env : Env := {|
  safe_eval := fun s =>
    if String.eqb s "[('stage_id', '=', 4)]" then Ok one_condition
    else Raise (OrmError "safe_eval");
  read_group := fun m dom _ groupby =>
    match groupby with
    | ["create_date:day"] =>
        if String.eqb m "crm.lead" then
          match dom with
          | PList [_; _] => Ok lead_days
          | _ => Ok lead_days_success
          end
        else Ok []
    | ["stage_id"] => Ok lead_groups
    | ["partner_id"] => Ok order_groups
    | _ => Ok []
    end;
  search_count := fun _ _ => Ok 9;
  search := fun _ => Ok order_rows;
  field_search := field_catalog;
  related := partner_country;
  context_today := Ok (TodayDate 739923);
  record_exists := fun _ => true;
|}.

(** What a caller hands to [create] or [write]: a pie description of their
    own, and no other description. *)
Definition lead_vals : gmap string pyval :=
  {[ "name" := PStr "Leads by stage"; "group_field" := PStr "stage_id";
     "value_field" := PStr "expected_revenue"; "pie_description" := PStr "mine" ]}.

Definition order_vals : gmap string pyval :=
  {[ "name" := PStr "Orders by country"; "group_field" := PStr "partner_id.country_id";
     "value_field" := PStr "amount_total"; "pie_description" := PStr "mine" ]}.

(** The base [create] and [write] as far as the runs below need them: the
    records live in a map by id, [write] stores the given values on the
    records of [self], and [create] stores new records under fresh ids. *)
Definition stored_text (vals : gmap string pyval) (k : string) (old : option string)
    : option string :=
  match vals !! k with
  | Some (PStr s) => Some s
  | Some _ => None
  | None => old
  end.

Definition stored_int (vals : gmap string pyval) (k : string) (old : Z) : Z :=
  match vals !! k with
  | Some (PInt z) => z
  | _ => old
  end.

Definition lead_update (vals : gmap string pyval) (r : LookerReport.report)
    : LookerReport.report := {|
  LookerReport.report_id := LookerReport.report_id r;
  LookerReport.domain := stored_text vals "domain" (LookerReport.domain r);
  LookerReport.group_field := stored_text vals "group_field" (LookerReport.group_field r);
  LookerReport.value_field := stored_text vals "value_field" (LookerReport.value_field r);
  LookerReport.limit := stored_int vals "limit" (LookerReport.limit r);
  LookerReport.success_domain :=
    stored_text vals "success_domain" (LookerReport.success_domain r);
  LookerReport.pie_description :=
    stored_text vals "pie_description" (LookerReport.pie_description r);
  LookerReport.line_description :=
    stored_text vals "line_description" (LookerReport.line_description r);
  LookerReport.bar_description :=
    stored_text vals "bar_description" (LookerReport.bar_description r);
|}.

Definition new_lead (i : Z) : LookerReport.report := {|
  LookerReport.report_id := i;
  LookerReport.domain := None;
  LookerReport.group_field := None;
  LookerReport.value_field := None;
  LookerReport.limit := 1000;
  LookerReport.success_domain := None;
  LookerReport.pie_description := None;
  LookerReport.line_description := None;
  LookerReport.bar_description := None;
|}.

Definition lead_base : LookerReport.BaseModel (gmap Z LookerReport.report) := {|
  LookerReport.base_create st vals :=
    let l := match vals with
             | LookerReport.OneVals v => [v]
             | LookerReport.ManyVals l => l
             end in
    let first := Z.of_nat (size st) + 1 in
    let ids := map (fun k => first + Z.of_nat k) (seq 0 (length l)) in
    (foldr (fun iv st => <[iv.1 := lead_update iv.2 (new_lead iv.1)]> st) st (zip ids l),
     Ok ids);
  LookerReport.base_write st self vals :=
    match vals with
    | LookerReport.WDict v =>
        (foldr (fun r st => <[LookerReport.report_id r := lead_update v r]> st) st self,
         Ok true)
    | LookerReport.WOther _ => (st, Raise TypeError)
    end;
|}.

Definition order_update (vals : gmap string pyval) (r : LookerOrderReport.report)
    : LookerOrderReport.report := {|
  LookerOrderReport.report_id := LookerOrderReport.report_id r;
  LookerOrderReport.domain := stored_text vals "domain" (LookerOrderReport.domain r);
  LookerOrderReport.group_field :=
    stored_text vals "group_field" (LookerOrderReport.group_field r);
  LookerOrderReport.value_field :=
    stored_text vals "value_field" (LookerOrderReport.value_field r);
  LookerOrderReport.limit := stored_int vals "limit" (LookerOrderReport.limit r);
  LookerOrderReport.pie_description :=
    stored_text vals "pie_description" (LookerOrderReport.pie_description r);
  LookerOrderReport.line_description :=
    stored_text vals "line_description" (LookerOrderReport.line_description r);
  LookerOrderReport.bar_description :=
    stored_text vals "bar_description" (LookerOrderReport.bar_description r);
|}.

Definition new_order (i : Z) : LookerOrderReport.report := {|
  LookerOrderReport.report_id := i;
  LookerOrderReport.domain := None;
  LookerOrderReport.group_field := None;
  LookerOrderReport.value_field := None;
  LookerOrderReport.limit := 1000;
  LookerOrderReport.pie_description := None;
  LookerOrderReport.line_description := None;
  LookerOrderReport.bar_description := None;
|}.

Definition order_base : LookerOrderReport.BaseModel (gmap Z LookerOrderReport.report) := {|
  LookerOrderReport.base_create st vals :=
    let l := match vals with
             | LookerOrderReport.OneVals v => [v]
             | LookerOrderReport.ManyVals l => l
             end in
    let first := Z.of_nat (size st) + 1 in
    let ids := map (fun k => first + Z.of_nat k) (seq 0 (length l)) in
    (foldr (fun iv st => <[iv.1 := order_update iv.2 (new_order iv.1)]> st) st (zip ids l),
     Ok ids);
  LookerOrderReport.base_write st self vals :=
    match vals with
    | LookerOrderReport.WDict v =>
        (foldr (fun r st => <[LookerOrderReport.report_id r := order_update v r]> st) st self,
         Ok true)
    | LookerOrderReport.WOther _ => (st, Raise TypeError)
    end;
|}.

(** A stored lead report: by stage, summing the expected revenue, with a
    success domain. *)
Definition lead_by_stage : LookerReport.report := {|
  LookerReport.report_id := 1;
  LookerReport.domain := None;
  LookerReport.group_field := Some "stage_id";
  LookerReport.value_field := Some "expected_revenue";
  LookerReport.limit := 2;
  LookerReport.success_domain := Some "[('stage_id', '=', 4)]";
  LookerReport.pie_description := Some "p";
  LookerReport.line_description := Some "l";
  LookerReport.bar_description := Some "b";
|}.

(** A stored order report: by customer, summing the total, at most two rows. *)
Definition order_by_customer : LookerOrderReport.report := {|
  LookerOrderReport.report_id := 1;
  LookerOrderReport.domain := None;
  LookerOrderReport.group_field := Some "partner_id";
  LookerOrderReport.value_field := Some "amount_total";
  LookerOrderReport.limit := 2;
  LookerOrderReport.pie_description := Some "p";
  LookerOrderReport.line_description := Some "l";
  LookerOrderReport.bar_description := Some "b";
|}.

(** Order reports by weekday, by the customer's country, and by weekday
    again with a limit of three rows. *)
Definition order_by_weekday : LookerOrderReport.report := {|
  LookerOrderReport.report_id := 2;
  LookerOrderReport.domain := None;
  LookerOrderReport.group_field := Some "date_order_weekday";
  LookerOrderReport.value_field := Some "amount_total";
  LookerOrderReport.limit := 3;
  LookerOrderReport.pie_description := Some "p";
  LookerOrderReport.line_description := Some "l";
  LookerOrderReport.bar_description := Some "b";
|}.

Definition order_by_country : LookerOrderReport.report := {|
  LookerOrderReport.report_id := 3;
  LookerOrderReport.domain := None;
  LookerOrderReport.group_field := Some "partner_id.country_id";
  LookerOrderReport.value_field := Some "amount_total";
  LookerOrderReport.limit := 1;
  LookerOrderReport.pie_description := Some "p";
  LookerOrderReport.line_description := Some "l";
  LookerOrderReport.bar_description := Some "b";
|}.

(** The update that clears the group field. *)
Definition clear_group : gmap string pyval := {[ "group_field" := PBool false ]}.

(** What [get_chart_data] gives for the lead report by stage. *)
Definition lead_chart : chart :=
  Eval vm_compute in
    default empty_chart
      (match LookerReport.chart_body shop_env lead_by_stage (PList []) with
       | Ok c => Some c
       | Raise _ => None
       end).

(** What the groups of [order_groups] bring to the buckets by country. *)
Definition country_contributions : list (pyval * pyval * Z * Q) :=
  [ (PInt 233, PStr "United States", 2, 100%Q);
    (PInt 233, PStr "United States", 1, 50%Q);
    (PNone, PStr "Undefined", 4, 30%Q);
    (PNone, PStr "Undefined", 1, 0%Q) ].

(** The value sums by customer, and the one bucket that a limit of one row
    leaves. *)
Definition customer_sums : list (pyval * pyval) :=
  [ (PInt 7, PFloat 100%Q); (PInt 8, PFloat 50%Q);
    (PInt 9, PFloat 30%Q); (PBool false, PFloat 5%Q) ].


(** The group entries of the lead report by stage, before the limit. *)
Definition lead_entries : list entry :=
  Eval vm_compute in
    default []
      (match LookerReport.group_entries shop_env lead_by_stage (PList []) "stage_id" with
       | Ok es => Some es
       | Raise _ => None
       end).

Definition country_entries : list entry :=
  Eval vm_compute in
    default []
      (match LookerOrderReport.relational_entries shop_env order_by_country (PList [])
               "partner_id.country_id" with
       | Ok es => Some es
       | Raise _ => None
       end).

Definition customer_chart : chart :=
  Eval vm_compute in
    default empty_chart
      (match LookerOrderReport.chart_body shop_env order_by_customer (PList []) with
       | Ok c => Some c
       | Raise _ => None
       end).

Definition weekday_chart : chart :=
  Eval vm_compute in
    default empty_chart
      (match LookerOrderReport.chart_body shop_env order_by_weekday (PList []) with
       | Ok c => Some c
       | Raise _ => None
       end).

Definition country_chart : chart :=
  Eval vm_compute in
    default empty_chart
      (match LookerOrderReport.chart_body shop_env order_by_country (PList []) with
       | Ok c => Some c
       | Raise _ => None
       end).

End Runs.

(** ** Further concrete hosts *)

Module MoreRuns.
Import QRuntime.

(** The host with no data, when the context hands back a today that is no
    date. *)
Definition lost_env : Env := {|
  safe_eval := safe_eval Runs.quiet_env;
  read_group := read_group Runs.quiet_env;
  search_count := search_count Runs.quiet_env;
  search := search Runs.quiet_env;
  field_search := field_search Runs.quiet_env;
  related := related Runs.quiet_env;
  context_today := Ok (TodayStr "soon");
  record_exists := record_exists Runs.quiet_env;
|}.

(** The shop when the reads grouped by a field are out of order: only the
    reads by day answer. *)
Definition no_groups_env : Env := {|
  safe_eval := safe_eval Runs.shop_env;
  read_group := fun m dom flds groupby =>
    match groupby with
    | ["create_date:day"] => read_group Runs.shop_env m dom flds groupby
    | _ => Raise (OrmError "read_group")
    end;
  search_count := search_count Runs.shop_env;
  search := search Runs.shop_env;
  field_search := field_search Runs.shop_env;
  related := related Runs.shop_env;
  context_today := context_today Runs.shop_env;
  record_exists := record_exists Runs.shop_env;
|}.

Definition no_groups_lead_chart : chart :=
  Eval vm_compute in
    default empty_chart
      (match LookerReport.chart_body no_groups_env Runs.lead_by_stage (PList []) with
       | Ok c => Some c
       | Raise _ => None
       end).

Definition no_groups_order_chart : chart :=
  Eval vm_compute in
    default empty_chart
      (match LookerOrderReport.chart_body no_groups_env Runs.order_by_country (PList []) with
       | Ok c => Some c
       | Raise _ => None
       end).

(** The shop when the reads by day are out of order. *)
Definition no_days_env : Env := {|
  safe_eval := safe_eval Runs.shop_env;
  read_group := fun m dom flds groupby =>
    match groupby with
    | ["create_date:day"] => Raise (OrmError "read_group")
    | _ => read_group Runs.shop_env m dom flds groupby
    end;
  search_count := search_count Runs.shop_env;
  search := search Runs.shop_env;
  field_search := field_search Runs.shop_env;
  related := related Runs.shop_env;
  context_today := context_today Runs.shop_env;
  record_exists := record_exists Runs.shop_env;
|}.

Definition no_days_lead_chart : chart :=
  Eval vm_compute in
    default empty_chart
      (match LookerReport.chart_body no_days_env Runs.lead_by_stage (PList []) with
       | Ok c => Some c
       | Raise _ => None
       end).

Definition no_days_order_chart : chart :=
  Eval vm_compute in
    default empty_chart
      (match LookerOrderReport.chart_body no_days_env Runs.order_by_customer (PList []) with
       | Ok c => Some c
       | Raise _ => None
       end).

(** Reports that only count: leads by stage (at most two rows) and orders
    by customer. *)
Definition lead_count_by_stage : LookerReport.report := {|
  LookerReport.report_id := 4;
  LookerReport.domain := None;
  LookerReport.group_field := Some "stage_id";
  LookerReport.value_field := None;
  LookerReport.limit := 2;
  LookerReport.success_domain := None;
  LookerReport.pie_description := None;
  LookerReport.line_description := None;
  LookerReport.bar_description := None;
|}.

Definition order_count_by_customer : LookerOrderReport.report := {|
  LookerOrderReport.report_id := 4;
  LookerOrderReport.domain := None;
  LookerOrderReport.group_field := Some "partner_id";
  LookerOrderReport.value_field := None;
  LookerOrderReport.limit := 2;
  LookerOrderReport.pie_description := None;
  LookerOrderReport.line_description := None;
  LookerOrderReport.bar_description := None;
|}.

Definition lead_count_chart : chart :=
  Eval vm_compute in
    default empty_chart
      (match LookerReport.chart_body Runs.shop_env lead_count_by_stage (PList []) with
       | Ok c => Some c
       | Raise _ => None
       end).

Definition order_count_chart : chart :=
  Eval vm_compute in
    default empty_chart
      (match LookerOrderReport.chart_body Runs.shop_env order_count_by_customer (PList []) with
       | Ok c => Some c
       | Raise _ => None
       end).

(** A scan of [ir.model.fields] that is out of order, and one that answers
    with four fields of a model. *)
Definition no_scan (m : string) : res (list field_rec) := Raise (OrmError "scan").

Definition four_fields (m : string) : res (list field_rec) :=
  Ok [ {| f_name := "name"; f_description := Some "Tên"; f_ttype := "char";
          f_relation := None |};
       {| f_name := "x_budget"; f_description := Some "Ngân sách"; f_ttype := "monetary";
          f_relation := None |};
       {| f_name := "x_score"; f_description := None; f_ttype := "float";
          f_relation := None |};
       {| f_name := "stage_id"; f_description := Some "Giai đoạn"; f_ttype := "many2one";
          f_relation := Some "crm.stage" |} ].

(** The group fields the form of an order report offers on the shop. *)
Definition order_group_choices : list (string * string) :=
  Eval vm_compute in
    default []
      (match LookerOrderReportForm._get_order_group_fields Runs.shop_env no_scan with
       | Ok l => Some l
       | Raise _ => None
       end).

(** Orders of the last days as the reads by day give them: two rows for
    Monday 2026-11-02 and one for Tuesday 2026-11-03. *)
Definition monday_first : gmap string pyval :=
  {[ "create_date" := PStr "2026-11-02"; "__count" := PInt 3;
     "amount_total" := PFloat 150%Q ]}.

Definition monday_last : gmap string pyval :=
  {[ "create_date" := PStr "2026-11-02"; "__count" := PInt 1;
     "amount_total" := PFloat 20%Q ]}.

Definition tuesday : gmap string pyval :=
  {[ "create_date" := PStr "2026-11-03"; "__count" := PInt 2;
     "amount_total" := PFloat 70%Q ]}.

Definition lead_today : gmap string pyval :=
  {[ "create_date" := PStr "2026-11-03"; "__count" := PInt 2;
     "expected_revenue" := PFloat 1000%Q ]}.

(** The shop with these orders. *)
Definition busy_env : Env := {|
  safe_eval := safe_eval Runs.shop_env;
  read_group := fun m dom flds groupby =>
    match groupby with
    | ["create_date:day"] =>
        if String.eqb m "sale.order" then Ok [monday_first; monday_last; tuesday]
        else read_group Runs.shop_env m dom flds groupby
    | _ => read_group Runs.shop_env m dom flds groupby
    end;
  search_count := search_count Runs.shop_env;
  search := search Runs.shop_env;
  field_search := field_search Runs.shop_env;
  related := related Runs.shop_env;
  context_today := context_today Runs.shop_env;
  record_exists := record_exists Runs.shop_env;
|}.

Definition busy_order_chart : chart :=
  Eval vm_compute in
    default empty_chart
      (match LookerOrderReport.chart_body busy_env Runs.order_by_customer (PList []) with
       | Ok c => Some c
       | Raise _ => None
       end).

(** Text operations to evaluate with: white space and case are those of
    ASCII, and slicing goes by the code points of UTF-8. *)
Definition is_space (c : ascii) : bool :=
  let n := nat_of_ascii c in
  ((9 <=? n) && (n <=? 13) || (n =? 32))%nat.

Fixpoint lstrip (s : string) : string :=
  match s with
  | EmptyString => ""
  | String c t => if is_space c then lstrip t else s
  end.

Fixpoint rstrip (s : string) : string :=
  match s with
  | EmptyString => ""
  | String c t =>
      let t' := rstrip t in
      if is_space c && String.eqb t' "" then "" else String c t'
  end.

Definition lower_char (c : ascii) : ascii :=
  let n := nat_of_ascii c in
  if ((65 <=? n) && (n <=? 90))%nat then ascii_of_nat (n + 32) else c.

Fixpoint lower (s : string) : string :=
  match s with
  | EmptyString => ""
  | String c t => String (lower_char c) (lower t)
  end.

Definition is_continuation (c : ascii) : bool :=
  let n := nat_of_ascii c in
  ((128 <=? n) && (n <? 192))%nat.

Fixpoint skip_continuation (s : string) : string :=
  match s with
  | EmptyString => ""
  | String c t => if is_continuation c then skip_continuation t else s
  end.

Fixpoint drop_points (n : nat) (s : string) : string :=
  match n with
  | O => s
  | S n' =>
      match s with
      | EmptyString => ""
      | String _ t => drop_points n' (skip_continuation t)
      end
  end.

Definition ascii_text : TextOps := {|
  str_strip s := rstrip (lstrip s);
  str_lower := lower;
  str_drop := drop_points;
|}.

(** Reports in the form, with a pie description of the user's own and the
    other two descriptions still empty. *)
Definition half_described_lead : LookerReport.report := {|
  LookerReport.report_id := 5;
  LookerReport.domain := Some "[('stage_id', '=', 4)]";
  LookerReport.group_field := Some "stage_id";
  LookerReport.value_field := Some "expected_revenue";
  LookerReport.limit := 1000;
  LookerReport.success_domain := None;
  LookerReport.pie_description := Some "mine";
  LookerReport.line_description := None;
  LookerReport.bar_description := None;
|}.

Definition half_described_order : LookerOrderReport.report := {|
  LookerOrderReport.report_id := 5;
  LookerOrderReport.domain := None;
  LookerOrderReport.group_field := Some "partner_id.country_id";
  LookerOrderReport.value_field := Some "amount_total";
  LookerOrderReport.limit := 1000;
  LookerOrderReport.pie_description := Some "mine";
  LookerOrderReport.line_description := None;
  LookerOrderReport.bar_description := None;
|}.

Definition lead_proposed : list LookerReport.report :=
  Eval vm_compute in
    default []
      (match LookerReportForm._onchange_auto_descriptions Runs.shop_env
               [half_described_lead] with
       | Ok l => Some l
       | Raise _ => None
       end).

Definition order_proposed : list LookerOrderReport.report :=
  Eval vm_compute in
    default []
      (match @LookerOrderReportForm._onchange_auto_descriptions runtime ascii_text
               Runs.shop_env [half_described_order] with
       | Ok l => Some l
       | Raise _ => None
       end).

(** The records behind the dicts a caller hands to [create]. *)
Definition lead_in_form : LookerReport.report := {|
  LookerReport.report_id := 6;
  LookerReport.domain := None;
  LookerReport.group_field := Some "stage_id";
  LookerReport.value_field := Some "expected_revenue";
  LookerReport.limit := 1000;
  LookerReport.success_domain := None;
  LookerReport.pie_description := None;
  LookerReport.line_description := None;
  LookerReport.bar_description := None;
|}.

Definition order_in_form : LookerOrderReport.report := {|
  LookerOrderReport.report_id := 6;
  LookerOrderReport.domain := None;
  LookerOrderReport.group_field := Some "partner_id.country_id";
  LookerOrderReport.value_field := Some "amount_untaxed";
  LookerOrderReport.limit := 1000;
  LookerOrderReport.pie_description := None;
  LookerOrderReport.line_description := None;
  LookerOrderReport.bar_description := None;
|}.

Definition untaxed_vals : gmap string pyval :=
  {[ "name" := PStr "Orders by country"; "group_field" := PStr "partner_id.country_id";
     "value_field" := PStr "amount_untaxed" ]}.

(** A printer to evaluate [json.dumps] with: numbers, lists and strings,
    the strings written as they are (which is what [json.dumps] does for
    ASCII text without quotes, backslashes or control characters). *)
Fixpoint json_text (v : pyval) : string :=
  match v with
  | PNone => "null"
  | PBool true => "true"
  | PBool false => "false"
  | PInt z => Z_to_string z
  | PFloat f => f_repr f
  | PStr s => dq +:+ s +:+ dq
  | PTuple l | PList l => "[" +:+ join ", " (map json_text l) +:+ "]"
  end.

Definition plain_json : JsonOps := {| json_dumps v := Ok (json_text v) |}.

(** No lead is found, whatever the domain. *)
Definition no_leads (domain : pyval) : res (list float) := Ok [].

(** Two leads are found, with probabilities 50 and 75. *)
Definition two_leads (domain : pyval) : res (list float) := Ok [50%Q; 75%Q].

(** Fields of [crm.lead] and [sale.order], one of each model with a
    preferred name for a value but of a type that is no number. *)
Definition stage_field : field_rec :=
  {| f_name := "stage_id"; f_description := Some "Giai đoạn"; f_ttype := "many2one";
     f_relation := Some "crm.stage" |}.

Definition team_field : field_rec :=
  {| f_name := "team_id"; f_description := Some "Đội ngũ bán hàng"; f_ttype := "many2one";
     f_relation := Some "crm.team" |}.

Definition revenue_field : field_rec :=
  {| f_name := "expected_revenue"; f_description := Some "Doanh thu dự kiến";
     f_ttype := "monetary"; f_relation := None |}.

Definition planned_field : field_rec :=
  {| f_name := "planned_revenue"; f_description := None; f_ttype := "float";
     f_relation := None |}.

Definition probability_field : field_rec :=
  {| f_name := "probability"; f_description := Some "Xác suất"; f_ttype := "char";
     f_relation := None |}.

Definition total_field : field_rec :=
  {| f_name := "amount_total"; f_description := Some "Tổng"; f_ttype := "monetary";
     f_relation := None |}.

Definition tax_field : field_rec :=
  {| f_name := "amount_tax"; f_description := Some "Thuế"; f_ttype := "selection";
     f_relation := None |}.

(** The shop with these fields in its catalog. *)
Definition wide_catalog (m : string) (n : pyval) : res (option field_rec) :=
  match n with
  | PStr s =>
      if String.eqb m "crm.lead" && String.eqb s "team_id" then Ok (Some team_field)
      else if String.eqb m "crm.lead" && String.eqb s "planned_revenue"
      then Ok (Some planned_field)
      else if String.eqb m "crm.lead" && String.eqb s "probability"
      then Ok (Some probability_field)
      else if String.eqb m "sale.order" && String.eqb s "amount_tax"
      then Ok (Some tax_field)
      else Runs.field_catalog m n
  | _ => Runs.field_catalog m n
  end.

Definition catalog_env : Env := {|
  safe_eval := safe_eval Runs.shop_env;
  read_group := read_group Runs.shop_env;
  search_count := search_count Runs.shop_env;
  search := search Runs.shop_env;
  field_search := wide_catalog;
  related := related Runs.shop_env;
  context_today := context_today Runs.shop_env;
  record_exists := record_exists Runs.shop_env;
|}.

End MoreRuns.

(** * What the claims speak of *)

(** The notions the statements below are made of, each next to the words of
    the claim it renders. *)

Section Vocabulary.
Context `{RT : PyRuntime} (env : Env).

(** ** The domain *)

(** What the claim says [_eval_domain] returns, in its words: the empty
    list for an empty domain field or a failing evaluation, the evaluated
    value otherwise. *)
Definition eval_domain_spec (domain : option string) : pyval :=
  match domain with
  | None => PList []
  | Some s =>
      if String.eqb s "" then PList []
      else match safe_eval env s with
           | Ok v => v
           | Raise _ => PList []
           end
  end.

(** ** The shape of a chart *)

(** The three per-group lists, as the first half of the body leaves them,
    have one length. *)
Definition same_lengths (x : list string * list pyval * list pyval) : Prop :=
  length x.1.1 = length x.1.2 /\ length x.1.2 = length x.2.

(** The lists of a chart pair up: the three per-group lists have one length,
    and so have the two per-day lists. *)
Definition well_shaped (c : chart) : Prop :=
  length (labels c) = length (count_values c)
  /\ length (count_values c) = length (sum_values c)
  /\ length (line_labels c) = length (line_values c).

(** ** The time series *)

(** The label of the [i]-th day of the window that ends at [today]. *)
Definition day_label (today i : Z) : string :=
  strftime_ymd (today - (N_days - 1 - i)).

(** No row of the time-series aggregation is for the day [day_str]. *)
Definition day_missing (gs : list (gmap string pyval)) (day_str : string) : Prop :=
  Forall (fun g => forall d, first_or_self (row_get "create_date" g) = Ok d ->
                             py_str d <> day_str) gs.

(** The 14 consecutive days that end at [today], oldest first. *)
Definition last_days (today : Z) : list Z :=
  map (fun k => today - 13 + Z.of_nat k) (seq 0 14).

(** The value a day without rows gets. *)
Definition crm_default (r : LookerReport.report) (success_dom : pyval) : pyval :=
  if py_truthy success_dom || field_set (LookerReport.value_field r)
  then PFloat f_zero else PInt 0.

Definition order_default (r : LookerOrderReport.report) : pyval :=
  if field_set (LookerOrderReport.value_field r) then PFloat f_zero else PInt 0.

(** The default of a day without rows as the claim has it: [0], or [0.0]
    when a value field is set, with no regard to the success domain. *)
Definition default_as_stated (r : LookerReport.report) : pyval :=
  if field_set (LookerReport.value_field r) then PFloat f_zero else PInt 0.

(** C9 as it is stated, for one lead report on one host: every day without
    rows gets [0], or [0.0] when a value field is set. *)
Definition missing_days_as_stated (r : LookerReport.report)
    : Prop :=
  forall dom c today tsd gs,
    LookerReport._eval_domain env r = Ok dom ->
    LookerReport.chart_body env r dom = Ok c ->
    today_dt env = Ok today ->
    ts_domain_of dom today = Ok tsd ->
    read_ts_groups env LookerReport.model tsd (LookerReport.value_field r) = Ok gs ->
    forall i : nat, (i < 14)%nat ->
      day_missing gs (day_label today (Z.of_nat i)) ->
      line_values c !! i = Some (default_as_stated r).

(** ** Descriptions *)

(** What C7 asks of the dict [v'] handed to the base [create]/[write] for
    the dict [vals] the caller gave: each description key holds the caller's
    value when there is one and the generated text otherwise, and every other
    key is as the caller gave it. *)
Definition descriptions_filled (vals v' : gmap string pyval) (pie bar line : string) : Prop :=
  v' !! "pie_description" = Some (default (PStr pie) (vals !! "pie_description"))
  /\ v' !! "bar_description" = Some (default (PStr bar) (vals !! "bar_description"))
  /\ v' !! "line_description" = Some (default (PStr line) (vals !! "line_description"))
  /\ forall k, k ∉ description_keys -> v' !! k = vals !! k.

(** Two dicts that agree on the keys the texts are derived from. *)
Definition same_inputs (vals1 vals2 : gmap string pyval) : Prop :=
  vals1 !! "group_field" = vals2 !! "group_field"
  /\ vals1 !! "value_field" = vals2 !! "value_field"
  /\ vals1 !! "domain" = vals2 !! "domain".


(** ** The success percentage *)

(** The percentage as C3 states it, from the day's count [t] of leads and
    its count [s] of successes: [round(100 * s / t, 1)], and [0.0] when [t]
    is [0]. *)
Definition stated_percentage (s t : Z) : option float :=
  if t =? 0 then Some f_zero
  else
    fs ← f_of_Z s; ft ← f_of_Z t;
    Some (f_round 1 (f_div (f_mul f_hundred fs) ft)).

(** ** Weekday buckets *)

(** The buckets as C4 states them, read off the records alone. *)

(** The date of a record: none when [date_order] is missing ([False] or an
    empty string) or is a string that is no [YYYY-MM-DD HH:MM:SS]. *)
Definition stated_date (r : order_row) : option Z :=
  match date_order r with
  | DtObj d => Some d
  | DtStr s => if decide (s = "") then None else strptime_ymdhms s
  | DtFalse => None
  end.

(** The record has a date, and it falls on weekday [i] (Monday is [0]). *)
Definition stated_on (i : nat) (r : order_row) : bool :=
  bool_decide (weekday <$> stated_date r = Some i).

(** The number of records of weekday [i]. *)
Definition stated_count (i : nat) (rows : list order_row) : Z :=
  Z.of_nat (length (List.filter (stated_on i) rows)).

(** The amount a record holds in the field [vf]: the number itself as a
    float, and [0.0] for a field that is empty.  None when the record has no
    such field or holds something that is no number. *)
Definition stated_amount (vf : string) (r : order_row) : option float :=
  match order_fields r !! vf with
  | Some v =>
      if py_truthy v then
        match v with
        | PFloat f => Some f
        | PInt z => f_of_Z z
        | PBool b => f_of_Z (Z.b2z b)
        | _ => None
        end
      else Some f_zero
  | None => None
  end.

(** The sum of bucket [i]: the amounts of its records added up from [0.0]
    and rounded to two decimals; [0.0] when no value field is set. *)
Definition stated_sum (vf : option string) (i : nat) (rows : list order_row) : float :=
  if field_set vf
  then f_round 2 (fold_left f_add
                    (map (fun r => default f_zero (stated_amount (default "" vf) r))
                       (List.filter (stated_on i) rows))
                    f_zero)
  else f_zero.

(** Every record that has a date holds a number, or nothing, in [vf]. *)
Definition amounts_known (vf : string) (rows : list order_row) : Prop :=
  Forall (fun row => stated_date row <> None -> is_Some (stated_amount vf row)) rows.

(** The records with a date. *)
Definition with_date (rows : list order_row) : list order_row :=
  List.filter (fun r => bool_decide (stated_date r <> None)) rows.

(** The report [r] under another limit. *)
Definition with_limit (r : LookerOrderReport.report) (l : Z) : LookerOrderReport.report :=
  {| LookerOrderReport.report_id := LookerOrderReport.report_id r;
     LookerOrderReport.domain := LookerOrderReport.domain r;
     LookerOrderReport.group_field := LookerOrderReport.group_field r;
     LookerOrderReport.value_field := LookerOrderReport.value_field r;
     LookerOrderReport.limit := l;
     LookerOrderReport.pie_description := LookerOrderReport.pie_description r;
     LookerOrderReport.line_description := LookerOrderReport.line_description r;
     LookerOrderReport.bar_description := LookerOrderReport.bar_description r |}.

(** The same buckets as the loop of the code fills them, by [order_day] and
    [order_value]; the proofs go through them. *)

(** The rows the loop counts under weekday [i]. *)
Definition falls_on (i : nat) (r : order_row) : bool :=
  match LookerOrderReport.order_day r with
  | Some d => Nat.eqb (weekday d) i
  | None => false
  end.

Definition rows_on (i : nat) (rows : list order_row) : list order_row :=
  List.filter (falls_on i) rows.

(** Their number. *)
Definition count_on (i : nat) (rows : list order_row) : Z :=
  Z.of_nat (length (rows_on i rows)).

(** The value a row adds: [float(getattr(r, value_field) or 0.0)]. *)
Definition value_or_zero (vf : string) (r : order_row) : float :=
  match LookerOrderReport.order_value vf r with
  | Ok x => x
  | Raise _ => f_zero
  end.

(** Their values, added up from [0.0] in the order of the rows. *)
Definition sum_on (vf : string) (i : nat) (rows : list order_row) : float :=
  fold_left f_add (map (value_or_zero vf) (rows_on i rows)) f_zero.

(** What the bucket [i] shows as its sum. *)
Definition bucket_sum (r : LookerOrderReport.report) (i : nat) (rows : list order_row)
    : float :=
  if field_set (LookerOrderReport.value_field r)
  then f_round 2 (sum_on (default "" (LookerOrderReport.value_field r)) i rows)
  else f_zero.

(** Every dated row has a value that converts. *)
Definition values_convert (vf : string) (rows : list order_row) : Prop :=
  Forall (fun row => LookerOrderReport.order_day row <> None ->
                     is_ok (LookerOrderReport.order_value vf row) = true) rows.

(** ** Buckets by related record *)

(** What one top-level group brings: the id and the label of its target,
    its count and its value sum. *)
Definition c_id (x : pyval * pyval * Z * float) : pyval := x.1.1.1.

Definition c_label (x : pyval * pyval * Z * float) : pyval := x.1.1.2.

Definition c_count (x : pyval * pyval * Z * float) : Z := x.1.2.

Definition c_sum (x : pyval * pyval * Z * float) : float := x.2.

(** The ids the targets really have: [None], the id of a record, or a
    string (a plain field such as the city). *)
Definition plain_key (k : pyval) : Prop :=
  match k with
  | PNone | PInt _ | PStr _ => True
  | _ => False
  end.

(** The groups that resolve to the target [k], in the order of the groups. *)
Definition group_of (k : pyval) (xs : list (pyval * pyval * Z * float))
    : list (pyval * pyval * Z * float) :=
  List.filter (fun x => py_eqb k (c_id x)) xs.

(** The bucket of the target [k]: counts and sums of its groups added up,
    under the label of the first. *)
Definition merged_bucket (xs : list (pyval * pyval * Z * float)) (k : pyval)
    : LookerOrderReport.bucket :=
  let mine := group_of k xs in
  {| LookerOrderReport.b_gid := k;
     LookerOrderReport.b_label := match mine with x :: _ => py_str (c_label x) | [] => "" end;
     LookerOrderReport.b_count := fold_left Z.add (map c_count mine) 0;
     LookerOrderReport.b_sum := fold_left f_add (map c_sum mine) f_zero |}.

Definition seen_in (k : pyval) (ids : list pyval) : bool :=
  existsb (fun k' => py_eqb k' k) ids.

(** The distinct targets, in the order in which they first come up. *)
Definition target_ids (xs : list (pyval * pyval * Z * float)) : list pyval :=
  fold_left (fun ids x => if seen_in (c_id x) ids then ids else ids ++ [c_id x]) xs [].

(** One bucket per target. *)
Definition merged_buckets (xs : list (pyval * pyval * Z * float))
    : list (pyval * LookerOrderReport.bucket) :=
  map (fun k => (k, merged_bucket xs k)) (target_ids xs).

Definition plain_ids (xs : list (pyval * pyval * Z * float)) : Prop :=
  Forall (fun x => plain_key (c_id x)) xs.




(** ** The row limit *)

(** [a] may stand before [b] in descending order: it is not less. *)
Definition not_below {A} (ltb : A -> A -> bool) (a b : A) : Prop := ltb a b = false.

(** The entry [e] is the one of the group [g] of [read_group]: it carries
    the label and the count of that group. *)
Definition entry_of_group (gf : string) (g : gmap string pyval) (e : entry) : Prop :=
  e_label e = py_str (second_or_self (row_get gf g))
  /\ e_count e = row_get_default "__count" (PInt 0) g.

(** The count of an entry as an integer. *)
Definition int_count (e : entry) : Z :=
  match e_count e with
  | PInt z => z
  | _ => 0
  end.

(** The order of the sort key: the sum when a value field is set, the count
    otherwise. *)
Definition key_ltb (by_sum : bool) (a b : entry) : bool :=
  if by_sum then f_ltb (e_sum a) (e_sum b) else int_count a <? int_count b.

(** The counts are integers, as [read_group] delivers them. *)
Definition counts_are_ints (es : list entry) : Prop :=
  Forall (fun e => exists z, e_count e = PInt z) es.

(** [kept] is the top [limit] of [es]: [limit] entries of [es], in
    descending order of the key, none of them below an entry left out. *)
Definition kept_top (limit : Z) (by_sum : bool) (es kept : list entry) : Prop :=
  exists dropped,
    Permutation es (kept ++ dropped)
    /\ Z.of_nat (length kept) = limit
    /\ StronglySorted (fun a b => key_ltb by_sum a b = false) kept
    /\ forall k d, In k kept -> In d dropped -> key_ltb by_sum k d = false.

(** C6 for one list of entries: cut to the top [limit] when there are more
    than [limit > 0] of them, left as they are otherwise. *)
Definition limit_applied (limit : Z) (by_sum : bool) (es kept : list entry) : Prop :=
  if (0 <? limit) && (limit <? Z.of_nat (length es))
  then kept_top limit by_sum es kept
  else kept = es.

(** The limit as C6 states it, for one report of either model: with a limit
    above zero, no more labels than the limit. *)
Definition labels_within_limit (limit : Z) (out : res chart) : Prop :=
  forall c, out = Ok c -> 0 < limit -> Z.of_nat (length (labels c)) <= limit.

End Vocabulary.

(** * What the further properties speak of *)

Section MoreVocabulary.
Context `{RT : PyRuntime} (env : Env).

(** ** A window that cannot be built *)

(** A domain that [list(domain)] turns down: [None], a truth value or a
    number. *)
Definition not_a_sequence (dom : pyval) : Prop :=
  match dom with
  | PNone | PBool _ | PInt _ | PFloat _ => True
  | PStr _ | PTuple _ | PList _ => False
  end.

(** The 14-day window of the time series cannot be built: today comes as a
    string that is no date, or lies within 13 days of [date.min] or on
    [date.max], or the domain is no sequence. *)
Definition no_window (dom : pyval) : Prop :=
  (exists s, context_today env = Ok (TodayStr s) /\ strptime_ymd s = None)
  \/ (exists today, today_dt env = Ok today /\ (today < 14 \/ ordinal_max <= today))
  \/ not_a_sequence dom.

(** ** The group part *)

(** The sum an ungrouped report shows: the value of the first row of the
    aggregate, and [0.0] when there is no row or the value is empty. *)
Definition total_value (vf : string) (rows : list (gmap string pyval)) : pyval :=
  match rows with
  | [] => PFloat f_zero
  | g :: _ => py_or (row_get vf g) (PFloat f_zero)
  end.

(** The field the groups are read by: the part of the group field before
    its first dot. *)
Definition top_of (gf : string) : string := default "" (head (split_dot gf)).

(** Every [read_group] of [model] grouped by [groupby] raises. *)
Definition grouping_fails (model : string) (dom : pyval) (groupby : string) : Prop :=
  forall flds, is_ok (read_group env model dom flds [groupby]) = false.

(** Every [read_group] of [model] by day raises. *)
Definition ts_read_fails (model : string) : Prop :=
  forall dom flds, is_ok (read_group env model dom flds ["create_date:day"]) = false.

(** The sum [s] is the count [cnt] as a float. *)
Definition float_of_count (cnt s : pyval) : Prop :=
  exists f, py_float cnt = Ok f /\ s = PFloat f.

(** The same when an empty count reads as [0.0]: [float(cnt or 0.0)]. *)
Definition float_of_count_or_zero (cnt s : pyval) : Prop :=
  exists f, py_float (py_or cnt (PFloat f_zero)) = Ok f /\ s = PFloat f.

(** The label of a group, from the key [read_group] gives under the group
    field: the name of an [(id, name)] pair, [Undefined] for an empty key
    ([False], [None], an empty string or sequence), and else the key itself
    as text. *)
Definition stated_label (key : pyval) : string :=
  match key with
  | PTuple (_ :: name :: _) | PList (_ :: name :: _) => py_str name
  | _ => if py_truthy key then py_str key else "Undefined"
  end.

(** The label and the count a group of [read_group] shows. *)
Definition group_label (gf : string) (g : gmap string pyval) : string :=
  stated_label (row_get gf g).

Definition group_count (g : gmap string pyval) : pyval :=
  row_get_default "__count" (PInt 0) g.

(** ** Value sums by group *)

(** The rows of [grp_sum] that are for the group [gid]. *)
Definition rows_of_group (gf : string) (gid : pyval) (rows : list (gmap string pyval))
    : list (gmap string pyval) :=
  List.filter (fun g => match first_or_self (row_get gf g) with
                        | Ok k => py_eqb k gid
                        | Raise _ => false
                        end) rows.

(** The value sum of the group [gid]: that of its last row in [grp_sum],
    and [0.0] when it has no row or the value is empty. *)
Definition group_value (gf vf : string) (gid : pyval) (rows : list (gmap string pyval))
    : pyval :=
  match last (rows_of_group gf gid rows) with
  | Some g => py_or (row_get vf g) (PFloat f_zero)
  | None => PFloat f_zero
  end.

(** The keys of groups as [read_group] gives them: [None], [False] (no
    value), the id of a record, or a string. *)
Definition group_key (k : pyval) : Prop :=
  match k with
  | PNone | PBool _ | PInt _ | PStr _ => True
  | _ => False
  end.

(** What [==] looks at in such a key: a truth value is the integer [0] or
    [1]. *)
Definition key_code (k : pyval) : option (Z + string) :=
  match k with
  | PBool b => Some (inl (Z.b2z b))
  | PInt z => Some (inl z)
  | PStr s => Some (inr s)
  | _ => None
  end.

(** Every row has such a key under [gf]. *)
Definition group_keys (gf : string) (rows : list (gmap string pyval)) : Prop :=
  Forall (fun g => exists k, first_or_self (row_get gf g) = Ok k /\ group_key k) rows.

(** ** Totals of counts *)

(** The rows with a usable date. *)
Definition dated (rows : list order_row) : list order_row :=
  List.filter (fun r => match LookerOrderReport.order_day r with
                        | Some _ => true
                        | None => false
                        end) rows.

(** The integers of a list of counts, added up. *)
Definition int_total (l : list pyval) : Z :=
  fold_right (fun v acc => match v with PInt z => z + acc | _ => acc end) 0 l.

(** The counts of a list of entries, of the groups' contributions and of
    the buckets, added up. *)
Definition count_total (es : list entry) : Z :=
  fold_right (fun e acc => int_count e + acc) 0 es.

Definition contributions_total (xs : list (pyval * pyval * Z * float)) : Z :=
  fold_right (fun x acc => c_count x + acc) 0 xs.

Definition bucket_total (buckets : list (pyval * LookerOrderReport.bucket)) : Z :=
  fold_right (fun kb acc => LookerOrderReport.b_count kb.2 + acc) 0 buckets.

(** ** Descriptions proposed by the form *)

(** The record [r'] is [r] with its empty descriptions filled in: the three
    descriptions of [r'] are set, those that [r] had are kept, and no other
    field differs. *)
Definition crm_filled_from (r r' : LookerReport.report) : Prop :=
  LookerReport.report_id r' = LookerReport.report_id r
  /\ LookerReport.domain r' = LookerReport.domain r
  /\ LookerReport.group_field r' = LookerReport.group_field r
  /\ LookerReport.value_field r' = LookerReport.value_field r
  /\ LookerReport.limit r' = LookerReport.limit r
  /\ LookerReport.success_domain r' = LookerReport.success_domain r
  /\ field_set (LookerReport.pie_description r') = true
  /\ field_set (LookerReport.bar_description r') = true
  /\ field_set (LookerReport.line_description r') = true
  /\ (field_set (LookerReport.pie_description r) = true ->
      LookerReport.pie_description r' = LookerReport.pie_description r)
  /\ (field_set (LookerReport.bar_description r) = true ->
      LookerReport.bar_description r' = LookerReport.bar_description r)
  /\ (field_set (LookerReport.line_description r) = true ->
      LookerReport.line_description r' = LookerReport.line_description r).

Definition order_filled_from (r r' : LookerOrderReport.report) : Prop :=
  LookerOrderReport.report_id r' = LookerOrderReport.report_id r
  /\ LookerOrderReport.domain r' = LookerOrderReport.domain r
  /\ LookerOrderReport.group_field r' = LookerOrderReport.group_field r
  /\ LookerOrderReport.value_field r' = LookerOrderReport.value_field r
  /\ LookerOrderReport.limit r' = LookerOrderReport.limit r
  /\ field_set (LookerOrderReport.pie_description r') = true
  /\ field_set (LookerOrderReport.bar_description r') = true
  /\ field_set (LookerOrderReport.line_description r') = true
  /\ (field_set (LookerOrderReport.pie_description r) = true ->
      LookerOrderReport.pie_description r' = LookerOrderReport.pie_description r)
  /\ (field_set (LookerOrderReport.bar_description r) = true ->
      LookerOrderReport.bar_description r' = LookerOrderReport.bar_description r)
  /\ (field_set (LookerOrderReport.line_description r) = true ->
      LookerOrderReport.line_description r' = LookerOrderReport.line_description r).

(** The entry [v] of a dict of values is what the field [o] of a record
    holds: the same string, or something empty when the field is not set. *)
Definition field_value (v : pyval) (o : option string) : Prop :=
  if field_set o then v = of_field o else py_truthy v = false.

(** The dict [vals] gives the group field, the value field and the domain
    of the record [r]. *)
Definition crm_vals_of (vals : gmap string pyval) (r : LookerReport.report) : Prop :=
  field_value (row_get "group_field" vals) (LookerReport.group_field r)
  /\ field_value (row_get "value_field" vals) (LookerReport.value_field r)
  /\ field_value (row_get "domain" vals) (LookerReport.domain r).

Definition order_vals_of (vals : gmap string pyval) (r : LookerOrderReport.report) : Prop :=
  field_value (row_get "group_field" vals) (LookerOrderReport.group_field r)
  /\ field_value (row_get "value_field" vals) (LookerOrderReport.value_field r)
  /\ field_value (row_get "domain" vals) (LookerOrderReport.domain r).

(** ** Days with records *)

(** The row [g] of the time-series aggregation is for the day [day_str]. *)
Definition row_of_day (g : gmap string pyval) (day_str : string) : Prop :=
  exists d, first_or_self (row_get "create_date" g) = Ok d /\ py_str d = day_str.

(** What a row brings for its day: its value sum ([0.0] when empty) with a
    value field, its count otherwise. *)
Definition day_value (vf : option string) (g : gmap string pyval) : pyval :=
  if field_set vf then py_or (row_get (default "" vf) g) (PFloat f_zero)
  else row_get_default "__count" (PInt 0) g.

(** ** The fallback on the stored record *)

(** The value the texts are made from, for an entry [x] of the dict and the
    stored field [o]: the entry when it is not empty, else the stored value
    when there is one. *)
Definition stored_or (o : option string) (x : pyval) : pyval :=
  if py_truthy x then x else py_or (of_field o) x.

(** The dict with its three inputs completed from the record. *)
Definition crm_completed (r : LookerReport.report) (vals : gmap string pyval)
    : gmap string pyval :=
  <["group_field" := stored_or (LookerReport.group_field r) (row_get "group_field" vals)]>
    (<["value_field" := stored_or (LookerReport.value_field r) (row_get "value_field" vals)]>
       (<["domain" := stored_or (LookerReport.domain r) (row_get "domain" vals)]> vals)).

Definition order_completed (r : LookerOrderReport.report) (vals : gmap string pyval)
    : gmap string pyval :=
  <["group_field" := stored_or (LookerOrderReport.group_field r) (row_get "group_field" vals)]>
    (<["value_field" :=
         stored_or (LookerOrderReport.value_field r) (row_get "value_field" vals)]>
       (<["domain" := stored_or (LookerOrderReport.domain r) (row_get "domain" vals)]> vals)).

(** No single existing record stands behind [self]. *)
Definition crm_no_record (self : list LookerReport.report) : Prop :=
  forall r, self = [r] -> record_exists env (LookerReport.report_id r) = false.

Definition order_no_record (self : list LookerOrderReport.report) : Prop :=
  forall r, self = [r] -> record_exists env (LookerOrderReport.report_id r) = false.

(** ** The choices of the form *)

(** The names [_get_crm_group_fields] prefers. *)
Definition crm_group_names : list string :=
  ["stage_id"; "user_id"; "team_id"; "partner_id"; "company_id"; "country_id"].

(** The names [_get_crm_value_fields] and [_get_order_value_fields]
    prefer. *)
Definition crm_value_names : list string :=
  ["expected_revenue"; "planned_revenue"; "probability"].

Definition order_value_names : list string :=
  ["amount_total"; "amount_untaxed"; "amount_tax"].

(** What [ir.model.fields] answers for the names of a list, one by one: the
    field of [model] of that name, or none. *)
Definition catalog_answers (model : string) (names : list string)
    (answers : list (option field_rec)) : Prop :=
  Forall2 (fun name o => field_search env model (PStr name) = Ok o) names answers.

(** The fields among the answers, and the numeric ones among them. *)
Definition known_fields (answers : list (option field_rec)) : list field_rec :=
  omap id answers.

Definition numeric_fields (answers : list (option field_rec)) : list field_rec :=
  List.filter numeric (known_fields answers).

(** What the fallback gives: the fields of the scan that pass [keep], or
    the exception of the scan. *)
Definition scanned (keep : field_rec -> bool) (scan : res (list field_rec))
    : res (list (string * string)) :=
  match scan with
  | Ok fields => Ok (map selection_item (List.filter keep fields))
  | Raise e => Raise e
  end.

(** ** The pages *)

(** A total as [sum] or [search_count] give it: an integer or a float. *)
Definition is_total (v : pyval) : Prop :=
  match v with
  | PInt _ | PFloat _ => True
  | _ => False
  end.

(** The total a rendered page shows, when it is an integer. *)
Definition shown_total (r : res response) : option Z :=
  match r with
  | Ok (Rendered p) => match stat_total_leads p with PInt z => Some z | _ => None end
  | _ => None
  end.

(** ** Dicts that fail the check of [create] *)

Definition lacks_a_field (v : gmap string pyval) : Prop :=
  py_truthy (row_get "group_field" v) = false
  \/ py_truthy (row_get "value_field" v) = false.

End MoreVocabulary.

(** What the figures of the pages ask of floats: an integer other than zero
    is not zero as a float. *)
Class IntFloatLaws `{RT : PyRuntime} : Prop := {
  f_of_Z_nonzero : forall z f, z <> 0 -> f_of_Z z = Some f -> f_eqb f f_zero = false;
}.

(** * Properties *)

(** ** The error monad and loops *)

Lemma bind_Ok {A B} (m : res A) (f : A -> res B) (b : B) :
  m ≫= f = Ok b -> exists a, m = Ok a /\ f a = Ok b.
Proof. destruct m as [a|e]; simpl; [eauto | discriminate]. Qed.

Lemma bind_Ok_l {A B} (m : res A) (f : A -> res B) (a : A) :
  m = Ok a -> m ≫= f = f a.
Proof. now intros ->. Qed.

Lemma try_except_is_ok {A} (body : res A) (h : exn -> res A) :
  (forall e, is_ok (h e) = true) -> is_ok (try_except body h) = true.
Proof. intros Hh. destruct body; simpl; auto. Qed.

Lemma for_each_inv {A B} (P : A -> Prop) (f : A -> B -> res A) (l : list B) :
  forall acc r,
    P acc ->
    (forall a x a', P a -> f a x = Ok a' -> P a') ->
    for_each f acc l = Ok r -> P r.
Proof.
  induction l as [|x t IH]; intros acc r Hacc Hstep Hrun; simpl in Hrun.
  - now inversion Hrun; subst.
  - apply bind_Ok in Hrun as (a' & Hf & Hrest).
    eapply IH; [ eapply Hstep; eauto | exact Hstep | exact Hrest ].
Qed.

Lemma for_each_collect {A B} (f : B -> res A) (gs : list B) :
  forall acc r,
    for_each (fun acc g => e ← f g; Ok (acc ++ [e])) acc gs = Ok r ->
    exists es, r = acc ++ es /\ Forall2 (fun g e => f g = Ok e) gs es.
Proof.
  induction gs as [|g t IH]; intros acc r Hrun; simpl in Hrun.
  - inversion Hrun; subst. exists []. split; [now rewrite app_nil_r | constructor].
  - apply bind_Ok in Hrun as (acc' & Hstep & Hrest).
    apply bind_Ok in Hstep as (e & He & Hstep). inversion Hstep; subst acc'.
    apply IH in Hrest as (es & -> & Hall).
    exists (e :: es). split; [now rewrite <- app_assoc | now constructor].
Qed.

(** ** [_eval_domain] *)

Section EvalDomain.
Context `{RT : PyRuntime} (env : Env).

Lemma eval_domain_text_spec (domain : option string) :
  eval_domain_text env domain = Ok (eval_domain_spec env domain).
Proof.
  unfold eval_domain_text, eval_domain_spec, field_set.
  destruct domain as [s|]; simpl; [|reflexivity].
  destruct (String.eqb s ""); simpl; [reflexivity|].
  destruct (safe_eval env s); reflexivity.
Qed.

End EvalDomain.

(** C10. [_eval_domain] never raises, on either model: its result is always
    a value, namely [[]] when the domain field is empty or when evaluating
    the stored text fails, and the evaluated value otherwise. *)
Theorem C10_eval_domain_total `{RT : PyRuntime} (env : Env) :
  (forall r : LookerReport.report,
     LookerReport._eval_domain env r = Ok (eval_domain_spec env (LookerReport.domain r)))
  /\ (forall r : LookerOrderReport.report,
     LookerOrderReport._eval_domain env r
       = Ok (eval_domain_spec env (LookerOrderReport.domain r))).
Proof.
  split; intros r.
  - apply eval_domain_text_spec.
  - apply eval_domain_text_spec.
Qed.

(** ** Errors inside the aggregation *)

(** C1. On a single record of either model, whatever exception escapes the
    aggregation (the body of the [try]) is not propagated: [get_chart_data]
    returns the zeroed result; and on a single record it always returns. *)
Theorem C1_aggregation_errors_give_empty_chart `{RT : PyRuntime} (env : Env) :
  (forall (r : LookerReport.report) dom e,
     LookerReport._eval_domain env r = Ok dom ->
     LookerReport.chart_body env r dom = Raise e ->
     LookerReport.get_chart_data env [r] = Ok empty_chart)
  /\ (forall (r : LookerOrderReport.report) dom e,
     LookerOrderReport._eval_domain env r = Ok dom ->
     LookerOrderReport.chart_body env r dom = Raise e ->
     LookerOrderReport.get_chart_data env [r] = Ok empty_chart)
  /\ (forall r : LookerReport.report,
     is_ok (LookerReport.get_chart_data env [r]) = true)
  /\ (forall r : LookerOrderReport.report,
     is_ok (LookerOrderReport.get_chart_data env [r]) = true).
Proof.
  repeat split.
  - intros r dom e Hdom Hbody. unfold LookerReport.get_chart_data. simpl.
    rewrite Hdom. simpl. now rewrite Hbody.
  - intros r dom e Hdom Hbody. unfold LookerOrderReport.get_chart_data. simpl.
    rewrite Hdom. simpl. now rewrite Hbody.
  - intros r. unfold LookerReport.get_chart_data, LookerReport._eval_domain. simpl.
    rewrite eval_domain_text_spec. simpl. now apply try_except_is_ok.
  - intros r. unfold LookerOrderReport.get_chart_data, LookerOrderReport._eval_domain. simpl.
    rewrite eval_domain_text_spec. simpl. now apply try_except_is_ok.
Qed.

(** ** The shape of the result *)

Section Shape.
Context `{RT : PyRuntime} (env : Env).

Lemma minus_days_Ok d k d' : minus_days d k = Ok d' -> d' = d - k.
Proof.
  unfold minus_days. destruct (_ && _); intros H; inversion H; reflexivity.
Qed.

Lemma line_loop_run today (value_of : string -> res pyval) offs :
  forall la va ll lv,
    for_each (fun acc i =>
        day_dt ← minus_days today (N_days - 1 - i);
        let day_str := strftime_ymd day_dt in
        v ← value_of day_str;
        Ok (acc.1 ++ [day_str], acc.2 ++ [v])) (la, va) offs = Ok (ll, lv) ->
    ll = la ++ map (day_label today) offs
    /\ exists vs, lv = va ++ vs
         /\ Forall2 (fun i v => value_of (day_label today i) = Ok v) offs vs.
Proof.
  induction offs as [|i t IH]; intros la va ll lv Hrun; simpl in Hrun.
  - inversion Hrun; subst. split; [now rewrite app_nil_r|].
    exists []. split; [now rewrite app_nil_r | constructor].
  - apply bind_Ok in Hrun as ([la' va'] & Hstep & Hrest).
    apply bind_Ok in Hstep as (d & Hd & Hstep).
    apply bind_Ok in Hstep as (v & Hv & Hstep).
    apply minus_days_Ok in Hd. subst d.
    inversion Hstep; subst la' va'; clear Hstep.
    apply IH in Hrest as (Hll & vs & Hlv & Hall). simpl in *.
    split.
    + rewrite Hll, <- app_assoc. reflexivity.
    + exists (v :: vs). split.
      * rewrite Hlv, <- app_assoc. reflexivity.
      * constructor; assumption.
Qed.

Lemma line_series_run today value_of ll lv :
  line_series today value_of = Ok (ll, lv) ->
  ll = map (day_label today) day_offsets
  /\ Forall2 (fun i v => value_of (day_label today i) = Ok v) day_offsets lv.
Proof.
  intros H. apply line_loop_run in H as (Hll & vs & Hlv & Hall).
  simpl in *. now subst.
Qed.

Lemma line_series_lengths today value_of ll lv :
  line_series today value_of = Ok (ll, lv) ->
  length ll = 14%nat /\ length lv = 14%nat.
Proof.
  intros H. apply line_series_run in H as (-> & Hall).
  apply Forall2_length in Hall. rewrite <- Hall, length_map. now split.
Qed.

Lemma crm_time_series_lengths r dom ll lv :
  LookerReport.time_series env r dom = Ok (ll, lv) ->
  length ll = 14%nat /\ length lv = 14%nat.
Proof.
  unfold LookerReport.time_series. intros H.
  do 6 (apply bind_Ok in H as (? & _ & H)).
  now apply line_series_lengths in H.
Qed.

Lemma order_time_series_lengths r dom ll lv :
  LookerOrderReport.time_series env r dom = Ok (ll, lv) ->
  length ll = 14%nat /\ length lv = 14%nat.
Proof.
  unfold LookerOrderReport.time_series. intros H.
  do 4 (apply bind_Ok in H as (? & _ & H)).
  now apply line_series_lengths in H.
Qed.

Lemma total_shape (total : Z) (v : pyval) : same_lengths (["All"], [PInt total], [v]).
Proof. now split. Qed.

Lemma entries_shape (es : list entry) :
  same_lengths (map e_label es, map e_count es, map (fun e => PFloat (e_sum e)) es).
Proof. unfold same_lengths; simpl. now rewrite !length_map. Qed.

Lemma crm_group_part_shape r dom x :
  LookerReport.group_part env r dom = Ok x -> same_lengths x.
Proof.
  unfold LookerReport.group_part. intros H.
  destruct (field_set (LookerReport.group_field r)).
  - apply bind_Ok in H as (es & _ & H). apply bind_Ok in H as (es' & _ & H).
    inversion H; subst. apply entries_shape.
  - apply bind_Ok in H as (total & _ & H).
    destruct (field_set (LookerReport.value_field r)).
    + apply bind_Ok in H as (rows & _ & H). inversion H; subst. apply total_shape.
    + inversion H; subst. apply total_shape.
Qed.

Lemma order_group_part_shape r dom x :
  LookerOrderReport.group_part env r dom = Ok x -> same_lengths x.
Proof.
  unfold LookerOrderReport.group_part. intros H.
  destruct (bool_decide _).
  { unfold LookerOrderReport.weekday_part in H.
    apply bind_Ok in H as (rows & _ & H). apply bind_Ok in H as ([wm sm] & _ & H).
    inversion H; subst. split; reflexivity. }
  destruct (_ && _).
  { unfold LookerOrderReport.relational_part in H.
    apply bind_Ok in H as (es & _ & H). apply bind_Ok in H as (es' & _ & H).
    inversion H; subst. apply entries_shape. }
  destruct (field_set (LookerOrderReport.group_field r)).
  { unfold LookerOrderReport.plain_part in H.
    apply bind_Ok in H as (groups & _ & H). apply bind_Ok in H as (sum_map & _ & H).
    revert H. apply for_each_inv; [now split|].
    intros [[l c] s] g a' [H1 H2] Hstep. simpl in *.
    apply bind_Ok in Hstep as ([[l1 c1] s1] & _ & Hstep).
    inversion Hstep; subst. unfold same_lengths; simpl.
    rewrite !length_app; simpl. lia. }
  unfold LookerOrderReport.total_part in H.
  apply bind_Ok in H as (total & _ & H).
  destruct (field_set (LookerOrderReport.value_field r)).
  - apply bind_Ok in H as (rows & _ & H). inversion H; subst. apply total_shape.
  - inversion H; subst. apply total_shape.
Qed.

End Shape.

(** C8. On every record of either model and in every state of the host,
    [get_chart_data] returns the five lists [labels], [count_values],
    [sum_values], [line_labels] and [line_values] (the fields of [chart]; a
    list is never [None]), the first three of one length and the last two of
    one length. *)
Theorem C8_chart_is_well_shaped `{RT : PyRuntime} (env : Env) :
  (forall r : LookerReport.report,
     exists c, LookerReport.get_chart_data env [r] = Ok c /\ well_shaped c)
  /\ (forall r : LookerOrderReport.report,
     exists c, LookerOrderReport.get_chart_data env [r] = Ok c /\ well_shaped c).
Proof.
  split; intros r.
  - unfold LookerReport.get_chart_data, LookerReport._eval_domain. simpl.
    rewrite eval_domain_text_spec. simpl.
    destruct (LookerReport.chart_body env r _) as [c|e] eqn:Hbody; simpl.
    + exists c. split; [reflexivity|].
      unfold LookerReport.chart_body in Hbody.
      apply bind_Ok in Hbody as ([[l cv] sv] & Hg & Hbody).
      apply bind_Ok in Hbody as ([ll lv] & Ht & Hbody).
      inversion Hbody; subst; clear Hbody.
      apply crm_group_part_shape in Hg as [H1 H2].
      apply crm_time_series_lengths in Ht as [H3 H4].
      unfold well_shaped; simpl in *. repeat split; congruence.
    + exists empty_chart. now split.
  - unfold LookerOrderReport.get_chart_data, LookerOrderReport._eval_domain. simpl.
    rewrite eval_domain_text_spec. simpl.
    destruct (LookerOrderReport.chart_body env r _) as [c|e] eqn:Hbody; simpl.
    + exists c. split; [reflexivity|].
      unfold LookerOrderReport.chart_body in Hbody.
      apply bind_Ok in Hbody as ([[l cv] sv] & Hg & Hbody).
      apply bind_Ok in Hbody as ([ll lv] & Ht & Hbody).
      inversion Hbody; subst; clear Hbody.
      apply order_group_part_shape in Hg as [H1 H2].
      apply order_time_series_lengths in Ht as [H3 H4].
      unfold well_shaped; simpl in *. repeat split; congruence.
    + exists empty_chart. now split.
Qed.

(** Witness of C1: with [search_count] failing, both models return the
    zeroed result. *)
Lemma C1_witness :
  LookerReport.get_chart_data Runs.broken_env [Runs.success_only] = Ok empty_chart
  /\ LookerOrderReport.get_chart_data Runs.broken_env [Runs.bare_order] = Ok empty_chart.
Proof.
  split.
  - apply (proj1 (C1_aggregation_errors_give_empty_chart Runs.broken_env)
             Runs.success_only (PList []) (OrmError "search_count")); reflexivity.
  - apply (proj1 (proj2 (C1_aggregation_errors_give_empty_chart Runs.broken_env))
             Runs.bare_order (PList []) (OrmError "search_count")); reflexivity.
Defined.

(** ** The time series *)

Section TimeSeries.
Context `{RT : PyRuntime} {HL : RuntimeLaws} (env : Env).

Lemma ts_map_missing vf gs day_str :
  forall m m',
    for_each (ts_map_step vf) m gs = Ok m' ->
    day_missing gs day_str ->
    m' !! day_str = m !! day_str.
Proof.
  induction gs as [|g t IH]; intros m m' Hrun Hmiss; simpl in Hrun.
  - now inversion Hrun.
  - apply bind_Ok in Hrun as (m1 & Hstep & Hrest).
    inversion Hmiss as [|? ? Hg Ht]; subst.
    rewrite (IH _ _ Hrest Ht).
    unfold ts_map_step in Hstep.
    apply bind_Ok in Hstep as (d & Hd & Hstep).
    specialize (Hg d Hd).
    destruct (field_set vf); inversion Hstep; subst; now rewrite lookup_insert_ne.
Qed.

Lemma day_labels_last_days today :
  map (day_label today) day_offsets = map strftime_ymd (last_days today).
Proof.
  unfold last_days, day_offsets, day_label, N_days. rewrite !map_map.
  apply map_ext. intros k. f_equal. lia.
Qed.

Lemma day_offsets_lookup (i : nat) :
  (i < 14)%nat -> day_offsets !! i = Some (Z.of_nat i).
Proof.
  intros Hi. unfold day_offsets, N_days.
  rewrite list_lookup_fmap, lookup_seq_lt by (simpl; lia). reflexivity.
Qed.

Lemma percentage_missing (ts_map tsm : gmap string pyval) day_str :
  ts_map !! day_str = None ->
  LookerReport.percentage ts_map tsm day_str = Ok (PFloat f_zero).
Proof.
  intros Hnone. unfold LookerReport.percentage, row_get_default.
  rewrite Hnone. simpl. now rewrite f_round_zero.
Qed.

Lemma crm_time_series_run r dom today tsd gs sd ll lv :
  LookerReport.time_series env r dom = Ok (ll, lv) ->
  today_dt env = Ok today ->
  ts_domain_of dom today = Ok tsd ->
  read_ts_groups env LookerReport.model tsd (LookerReport.value_field r) = Ok gs ->
  LookerReport.success_dom_of env r = Ok sd ->
  ll = map strftime_ymd (last_days today)
  /\ length lv = 14%nat
  /\ forall i : nat, (i < 14)%nat ->
       day_missing gs (day_label today (Z.of_nat i)) ->
       lv !! i = Some (crm_default r sd).
Proof.
  unfold LookerReport.time_series. intros H Htoday Htsd Hgs Hsd.
  rewrite Htoday in H; simpl in H. rewrite Htsd in H; simpl in H.
  rewrite Hgs in H; simpl in H. rewrite Hsd in H; simpl in H.
  apply bind_Ok in H as (ts_map & Hmap & H).
  apply bind_Ok in H as (tsm & Htsm & H).
  pose proof (line_series_lengths _ _ _ _ H) as [_ Hlen].
  apply line_series_run in H as (Hll & Hall).
  split; [now rewrite Hll, day_labels_last_days|].
  split; [exact Hlen|].
  intros i Hi Hmiss.
  pose proof (day_offsets_lookup i Hi) as Hoff.
  destruct (Forall2_lookup_l _ _ _ _ _ Hall Hoff) as (v & Hv & Hval).
  rewrite Hv. f_equal.
  pose proof (ts_map_missing _ _ _ _ _ Hmap Hmiss) as Hnone.
  rewrite lookup_empty in Hnone.
  unfold crm_default.
  destruct (py_truthy sd); simpl in *.
  - rewrite percentage_missing in Hval by exact Hnone. now inversion Hval.
  - unfold row_get_default in Hval. rewrite Hnone in Hval. simpl in Hval.
    inversion Hval. now destruct (field_set _).
Qed.

Lemma order_time_series_run r dom today tsd gs ll lv :
  LookerOrderReport.time_series env r dom = Ok (ll, lv) ->
  today_dt env = Ok today ->
  ts_domain_of dom today = Ok tsd ->
  read_ts_groups env LookerOrderReport.model tsd (LookerOrderReport.value_field r) = Ok gs ->
  ll = map strftime_ymd (last_days today)
  /\ length lv = 14%nat
  /\ forall i : nat, (i < 14)%nat ->
       day_missing gs (day_label today (Z.of_nat i)) ->
       lv !! i = Some (order_default r).
Proof.
  unfold LookerOrderReport.time_series. intros H Htoday Htsd Hgs.
  rewrite Htoday in H; simpl in H. rewrite Htsd in H; simpl in H.
  rewrite Hgs in H; simpl in H.
  apply bind_Ok in H as (ts_map & Hmap & H).
  pose proof (line_series_lengths _ _ _ _ H) as [_ Hlen].
  apply line_series_run in H as (Hll & Hall).
  split; [now rewrite Hll, day_labels_last_days|].
  split; [exact Hlen|].
  intros i Hi Hmiss.
  pose proof (day_offsets_lookup i Hi) as Hoff.
  destruct (Forall2_lookup_l _ _ _ _ _ Hall Hoff) as (v & Hv & Hval).
  rewrite Hv. f_equal.
  pose proof (ts_map_missing _ _ _ _ _ Hmap Hmiss) as Hnone.
  rewrite lookup_empty in Hnone.
  unfold row_get_default in Hval. rewrite Hnone in Hval. simpl in Hval.
  inversion Hval. unfold order_default. now destruct (field_set _).
Qed.

End TimeSeries.

(** C9 (amended). On every run of [get_chart_data] whose aggregation raises
    nothing, on either model, [line_labels] is the 14 consecutive calendar
    dates that end at the context's today, formatted [%Y-%m-%d], oldest
    first, and [line_values] has one entry per day; a day for which the
    time-series aggregation has no row gets [0] when no value field is set
    and [0.0] when one is, and on [looker_studio.report] it gets [0.0] as
    well whenever a non-empty success domain is in force. *)
Theorem C9_last_14_days `{RT : PyRuntime} {HL : RuntimeLaws} (env : Env) :
  (forall (r : LookerReport.report) dom c today tsd gs sd,
     LookerReport._eval_domain env r = Ok dom ->
     LookerReport.chart_body env r dom = Ok c ->
     today_dt env = Ok today ->
     ts_domain_of dom today = Ok tsd ->
     read_ts_groups env LookerReport.model tsd (LookerReport.value_field r) = Ok gs ->
     LookerReport.success_dom_of env r = Ok sd ->
     LookerReport.get_chart_data env [r] = Ok c
     /\ line_labels c = map strftime_ymd (last_days today)
     /\ length (line_values c) = 14%nat
     /\ forall i : nat, (i < 14)%nat ->
          day_missing gs (day_label today (Z.of_nat i)) ->
          line_values c !! i = Some (crm_default r sd))
  /\ (forall (r : LookerOrderReport.report) dom c today tsd gs,
     LookerOrderReport._eval_domain env r = Ok dom ->
     LookerOrderReport.chart_body env r dom = Ok c ->
     today_dt env = Ok today ->
     ts_domain_of dom today = Ok tsd ->
     read_ts_groups env LookerOrderReport.model tsd (LookerOrderReport.value_field r) = Ok gs ->
     LookerOrderReport.get_chart_data env [r] = Ok c
     /\ line_labels c = map strftime_ymd (last_days today)
     /\ length (line_values c) = 14%nat
     /\ forall i : nat, (i < 14)%nat ->
          day_missing gs (day_label today (Z.of_nat i)) ->
          line_values c !! i = Some (order_default r)).
Proof.
  split.
  - intros r dom c today tsd gs sd Hdom Hbody Htoday Htsd Hgs Hsd.
    split.
    { unfold LookerReport.get_chart_data. simpl. rewrite Hdom. simpl. now rewrite Hbody. }
    unfold LookerReport.chart_body in Hbody.
    apply bind_Ok in Hbody as ([[l cv] sv] & _ & Hbody).
    apply bind_Ok in Hbody as ([ll lv] & Ht & Hbody).
    inversion Hbody; subst; clear Hbody. simpl.
    eapply crm_time_series_run; eauto.
  - intros r dom c today tsd gs Hdom Hbody Htoday Htsd Hgs.
    split.
    { unfold LookerOrderReport.get_chart_data. simpl. rewrite Hdom. simpl. now rewrite Hbody. }
    unfold LookerOrderReport.chart_body in Hbody.
    apply bind_Ok in Hbody as ([[l cv] sv] & _ & Hbody).
    apply bind_Ok in Hbody as ([ll lv] & Ht & Hbody).
    inversion Hbody; subst; clear Hbody. simpl.
    eapply order_time_series_run; eauto.
Qed.

(** The rational run time obeys the laws. *)
Lemma q_runtime_laws : @RuntimeLaws QRuntime.runtime.
Proof.
  split.
  - intros n. simpl. unfold QRuntime.q_round.
    destruct (10 ^ n) as [|p|p]; reflexivity.
  - intros a b. simpl. rewrite !negb_true_iff, !negb_false_iff.
    intros Hab. apply Qle_bool_iff. apply Qnot_lt_le. intros Hlt.
    assert (Hle : Qle_bool b a = true) by (apply Qle_bool_iff, Qlt_le_weak, Hlt).
    congruence.
  - intros a b c. simpl. rewrite !negb_false_iff, !Qle_bool_iff.
    intros Hba Hcb. eapply Qle_trans; eauto.
Qed.

Section LastDaysRun.
#[local] Existing Instance QRuntime.runtime.

(** Witness of C9: the lead report with a success domain on the host with
    no data, and the bare order report on the same host. *)
Lemma C9_witness :
  (LookerReport.get_chart_data Runs.quiet_env [Runs.success_only] = Ok Runs.success_only_chart
   /\ line_labels Runs.success_only_chart = map strftime_ymd (last_days 739923)
   /\ length (line_values Runs.success_only_chart) = 14%nat
   /\ forall i : nat, (i < 14)%nat ->
        day_missing [] (day_label 739923 (Z.of_nat i)) ->
        line_values Runs.success_only_chart !! i
        = Some (crm_default Runs.success_only Runs.one_condition))
  /\ (LookerOrderReport.get_chart_data Runs.quiet_env [Runs.bare_order] = Ok Runs.bare_order_chart
   /\ line_labels Runs.bare_order_chart = map strftime_ymd (last_days 739923)
   /\ length (line_values Runs.bare_order_chart) = 14%nat
   /\ forall i : nat, (i < 14)%nat ->
        day_missing [] (day_label 739923 (Z.of_nat i)) ->
        line_values Runs.bare_order_chart !! i = Some (order_default Runs.bare_order)).
Proof.
  split.
  - apply (proj1 (@C9_last_14_days QRuntime.runtime q_runtime_laws Runs.quiet_env)
             Runs.success_only (PList []) Runs.success_only_chart 739923 Runs.window []
             Runs.one_condition); reflexivity.
  - apply (proj2 (@C9_last_14_days QRuntime.runtime q_runtime_laws Runs.quiet_env)
             Runs.bare_order (PList []) Runs.bare_order_chart 739923 Runs.window []);
      reflexivity.
Defined.

End LastDaysRun.

Section SuccessDefaultRun.
#[local] Existing Instance QRuntime.runtime.

(** Counterexample to C9 as stated: a lead report with a success domain and
    no value field, on a host with no data.  No day has rows and no value
    field is set, yet the entries are the float [0.0], not the integer [0]. *)
Lemma C9_counterexample :
  ~ missing_days_as_stated Runs.quiet_env Runs.success_only.
Proof.
  intros H.
  assert (Hv : line_values Runs.success_only_chart !! 0%nat
               = Some (default_as_stated Runs.success_only)).
  { apply (H (PList []) Runs.success_only_chart 739923 Runs.window []);
      try reflexivity; [lia | constructor]. }
  change (Some (PFloat 0%Q) = Some (PInt 0)) in Hv. discriminate Hv.
Qed.

End SuccessDefaultRun.

(** ** Descriptions filled in on save *)

Section Descriptions.
Context `{RT : PyRuntime}.

Lemma crm_set_absent_same k text (vals : gmap string pyval) :
  LookerReport.set_absent k text vals !! k = Some (default (PStr text) (vals !! k)).
Proof.
  unfold LookerReport.set_absent.
  destruct (vals !! k) eqn:E; simpl; [exact E | apply lookup_insert_eq].
Qed.

Lemma crm_set_absent_other k k' text (vals : gmap string pyval) :
  k <> k' -> LookerReport.set_absent k text vals !! k' = vals !! k'.
Proof.
  intros Hne. unfold LookerReport.set_absent.
  destruct (vals !! k); [reflexivity | now apply lookup_insert_ne].
Qed.

Lemma order_set_absent_same k text (vals : gmap string pyval) :
  LookerOrderReport.set_absent k text vals !! k = Some (default (PStr text) (vals !! k)).
Proof.
  unfold LookerOrderReport.set_absent.
  destruct (vals !! k) eqn:E; simpl; [exact E | apply lookup_insert_eq].
Qed.

Lemma order_set_absent_other k k' text (vals : gmap string pyval) :
  k <> k' -> LookerOrderReport.set_absent k text vals !! k' = vals !! k'.
Proof.
  intros Hne. unfold LookerOrderReport.set_absent.
  destruct (vals !! k); [reflexivity | now apply lookup_insert_ne].
Qed.

Lemma not_description_key k :
  k ∉ description_keys ->
  "pie_description" <> k /\ "bar_description" <> k /\ "line_description" <> k.
Proof.
  unfold description_keys. intros Hk.
  repeat split; intros <-; apply Hk; set_solver.
Qed.

Lemma crm_filled (vals : gmap string pyval) pie bar line :
  descriptions_filled vals
    (LookerReport.set_absent "line_description" line
       (LookerReport.set_absent "bar_description" bar
          (LookerReport.set_absent "pie_description" pie vals))) pie bar line.
Proof.
  repeat split.
  - rewrite !crm_set_absent_other by discriminate. apply crm_set_absent_same.
  - rewrite crm_set_absent_other by discriminate.
    rewrite crm_set_absent_same, crm_set_absent_other by discriminate. reflexivity.
  - rewrite crm_set_absent_same, !crm_set_absent_other by discriminate. reflexivity.
  - intros k Hk. apply not_description_key in Hk as (H1 & H2 & H3).
    now rewrite !crm_set_absent_other.
Qed.

Lemma order_filled (vals : gmap string pyval) pie bar line :
  descriptions_filled vals
    (LookerOrderReport.set_absent "line_description" line
       (LookerOrderReport.set_absent "bar_description" bar
          (LookerOrderReport.set_absent "pie_description" pie vals))) pie bar line.
Proof.
  repeat split.
  - rewrite !order_set_absent_other by discriminate. apply order_set_absent_same.
  - rewrite order_set_absent_other by discriminate.
    rewrite order_set_absent_same, order_set_absent_other by discriminate. reflexivity.
  - rewrite order_set_absent_same, !order_set_absent_other by discriminate. reflexivity.
  - intros k Hk. apply not_description_key in Hk as (H1 & H2 & H3).
    now rewrite !order_set_absent_other.
Qed.

Context (env : Env).

Lemma crm_same_inputs self (vals1 vals2 : gmap string pyval) :
  same_inputs vals1 vals2 ->
  LookerReport.auto_descriptions env self vals1 = LookerReport.auto_descriptions env self vals2.
Proof.
  intros (Hg & Hv & Hd). unfold LookerReport.auto_descriptions, row_get.
  now rewrite Hg, Hv, Hd.
Qed.

Lemma order_same_inputs self (vals1 vals2 : gmap string pyval) :
  same_inputs vals1 vals2 ->
  LookerOrderReport.auto_descriptions env self vals1
  = LookerOrderReport.auto_descriptions env self vals2.
Proof.
  intros (Hg & Hv & Hd). unfold LookerOrderReport.auto_descriptions, row_get.
  now rewrite Hg, Hv, Hd.
Qed.





End Descriptions.


Section DescriptionsRun.
#[local] Existing Instance QRuntime.runtime.


End DescriptionsRun.

(** ** The check before saving *)

Section SaveCheck.
Context `{RT : PyRuntime} (env : Env).

(** [create] turns down a dict that lacks either field, with the
    [UserError], and leaves the store as it was. *)
Lemma crm_create_rejects {S} (base : LookerReport.BaseModel S) st self
    (vals : gmap string pyval) :
  py_truthy (row_get "group_field" vals) = false
  \/ py_truthy (row_get "value_field" vals) = false ->
  LookerReport.create env base st self (LookerReport.OneVals vals) = (st, Raise save_error).
Proof.
  intros H. unfold LookerReport.create, LookerReport.ensure_and_validate.
  destruct H as [-> | ->]; simpl; [reflexivity|].
  now rewrite orb_true_r.
Qed.

Lemma order_create_rejects {S} (base : LookerOrderReport.BaseModel S) st self
    (vals : gmap string pyval) :
  py_truthy (row_get "group_field" vals) = false
  \/ py_truthy (row_get "value_field" vals) = false ->
  LookerOrderReport.create env base st self (LookerOrderReport.OneVals vals)
  = (st, Raise save_error).
Proof.
  intros H. unfold LookerOrderReport.create, LookerOrderReport.ensure_and_validate.
  destruct H as [-> | ->]; simpl; [reflexivity|].
  now rewrite orb_true_r.
Qed.

End SaveCheck.

Section SaveCheckRun.
#[local] Existing Instance QRuntime.runtime.

(** C2 (the code departs from it). [write] does not make the check that
    [create] makes.  On a store that holds one report with both fields set,
    writing [{'group_field': False}] raises nothing, and the stored report
    has no group field afterwards, while [create] with the same dict raises
    the [UserError] and stores nothing; so on each model. *)
Theorem C2_write_skips_the_check :
  (let st : gmap Z LookerReport.report := {[ 1 := Runs.lead_by_stage ]} in
   let out := LookerReport.write Runs.shop_env Runs.lead_base st [Runs.lead_by_stage]
                (LookerReport.WDict Runs.clear_group) in
   field_set (LookerReport.group_field Runs.lead_by_stage) = true
   /\ field_set (LookerReport.value_field Runs.lead_by_stage) = true
   /\ out.2 = Ok true
   /\ LookerReport.group_field <$> (out.1 !! 1) = Some None
   /\ LookerReport.create Runs.shop_env Runs.lead_base st []
        (LookerReport.OneVals Runs.clear_group) = (st, Raise save_error))
  /\ (let st : gmap Z LookerOrderReport.report := {[ 1 := Runs.order_by_customer ]} in
   let out := LookerOrderReport.write Runs.shop_env Runs.order_base st [Runs.order_by_customer]
                (LookerOrderReport.WDict Runs.clear_group) in
   field_set (LookerOrderReport.group_field Runs.order_by_customer) = true
   /\ field_set (LookerOrderReport.value_field Runs.order_by_customer) = true
   /\ out.2 = Ok true
   /\ LookerOrderReport.group_field <$> (out.1 !! 1) = Some None
   /\ LookerOrderReport.create Runs.shop_env Runs.order_base st []
        (LookerOrderReport.OneVals Runs.clear_group) = (st, Raise save_error)).
Proof.
  split; repeat split; reflexivity.
Qed.

End SaveCheckRun.

(** ** The success percentage *)

Section Percentage.
Context `{RT : PyRuntime} {HL : RuntimeLaws}.

(** What the code computes when the two maps hold counts: the same
    quotient, taken as [s / t * 100.0]. *)
Lemma percentage_of_counts (ts_map tsm : gmap string pyval) day_str (s t : Z) fs ft :
  ts_map !! day_str = Some (PInt t) ->
  tsm !! day_str = Some (PInt s) ->
  t <> 0 ->
  f_of_Z s = Some fs -> f_of_Z t = Some ft -> f_eqb ft f_zero = false ->
  LookerReport.percentage ts_map tsm day_str
  = Ok (PFloat (f_round 1 (f_mul (f_div fs ft) f_hundred))).
Proof.
  intros Ht Hs Hne Hfs Hft Hz. unfold LookerReport.percentage, row_get_default.
  rewrite Ht, Hs. simpl.
  destruct (Z.eqb_spec t 0) as [->|_]; [contradiction|]. simpl.
  rewrite Hfs. simpl. rewrite Hft. simpl. now rewrite Hz.
Qed.

(** The guard: a day whose total is [0] gets [0.0]. *)
Lemma percentage_of_nothing (ts_map tsm : gmap string pyval) day_str :
  ts_map !! day_str = Some (PInt 0) ->
  LookerReport.percentage ts_map tsm day_str = Ok (PFloat f_zero).
Proof.
  intros Ht. unfold LookerReport.percentage, row_get_default.
  rewrite Ht. simpl. now rewrite f_round_zero.
Qed.

(** With a value field set, the map the total is read from holds the day's
    value sum, not its count. *)
Lemma ts_map_holds_value_sum vf (m : gmap string pyval) (g : gmap string pyval) d :
  field_set vf = true ->
  first_or_self (row_get "create_date" g) = Ok d ->
  ts_map_step vf m g
  = Ok (<[py_str d := py_or (row_get (default "" vf) g) (PFloat f_zero)]> m).
Proof.
  intros Hvf Hd. unfold ts_map_step. rewrite Hd. simpl. now rewrite Hvf.
Qed.

End Percentage.

Section PercentageRun.
#[local] Existing Instance QRuntime.runtime.

(** C3 (the code departs from it). A lead report with a value field and a
    success domain, on a host where two leads were created today, worth 1000
    together, one of them a success.  The claim gives [round(100 * 1 / 2, 1)
    = 50.0] for today; the code divides the success count by the value sum
    and gives [round(1 / 1000 * 100.0, 1) = 0.1]. *)
Theorem C3_percentage_divides_by_value_sum :
  field_set (LookerReport.value_field Runs.lead_by_stage) = true
  /\ LookerReport.success_dom_of Runs.shop_env Runs.lead_by_stage = Ok Runs.one_condition
  /\ read_ts_groups Runs.shop_env LookerReport.model Runs.window
       (LookerReport.value_field Runs.lead_by_stage)
     = Ok [ {[ "create_date" := PStr "2026-11-03"; "__count" := PInt 2;
               "expected_revenue" := PFloat 1000%Q ]} ]
  /\ read_group Runs.shop_env LookerReport.model
       (PList (Runs.window ++ [PTuple [PStr "stage_id"; PStr "="; PInt 4]]))
       ["create_date"] ["create_date:day"]
     = Ok [ {[ "create_date" := PStr "2026-11-03"; "__count" := PInt 1 ]} ]
  /\ LookerReport.get_chart_data Runs.shop_env [Runs.lead_by_stage] = Ok Runs.lead_chart
  /\ line_labels Runs.lead_chart !! 13%nat = Some "2026-11-03"
  /\ line_values Runs.lead_chart !! 13%nat = Some (PFloat (1 # 10))
  /\ stated_percentage 1 2 = Some 50%Q.
Proof.
  repeat split; reflexivity.
Qed.

End PercentageRun.

(** ** Weekday buckets *)

Section Weekdays.
Context `{RT : PyRuntime} {HL : RuntimeLaws}.

Lemma weekday_lt_7 d : (weekday d < 7)%nat.
Proof.
  unfold weekday. pose proof (Z.mod_pos_bound (d + 6) 7 ltac:(lia)). lia.
Qed.

Lemma week_map_lookup {V} (v : V) (i : nat) :
  (i < 7)%nat -> week_map v !! i = Some v.
Proof.
  intros Hi. do 7 (destruct i as [|i]; [reflexivity|]). lia.
Qed.

Lemma weekday_step_undated vf acc r :
  LookerOrderReport.order_day r = None ->
  LookerOrderReport.weekday_step vf acc r = Ok acc.
Proof. intros H. unfold LookerOrderReport.weekday_step. now rewrite H. Qed.

Lemma weekday_step_dated vf (wm : gmap nat Z) (sm : gmap nat float) r d c s :
  LookerOrderReport.order_day r = Some d ->
  wm !! weekday d = Some c ->
  sm !! weekday d = Some s ->
  (field_set vf = true -> is_ok (LookerOrderReport.order_value (default "" vf) r) = true) ->
  LookerOrderReport.weekday_step vf (wm, sm) r
  = Ok (<[weekday d := c + 1]> wm,
        if field_set vf
        then <[weekday d := f_add s (value_or_zero (default "" vf) r)]> sm
        else sm).
Proof.
  intros Hd Hc Hs Hok. unfold LookerOrderReport.weekday_step, value_or_zero.
  rewrite Hd. simpl. rewrite Hc.
  destruct (field_set vf); [|reflexivity].
  specialize (Hok eq_refl).
  destruct (LookerOrderReport.order_value (default "" vf) r); [|discriminate].
  simpl. now rewrite Hs.
Qed.

Lemma rows_on_cons i r t :
  rows_on i (r :: t) = if falls_on i r then r :: rows_on i t else rows_on i t.
Proof. reflexivity. Qed.

Lemma count_on_cons i r t :
  count_on i (r :: t) = (if falls_on i r then 1 else 0) + count_on i t.
Proof.
  unfold count_on. rewrite rows_on_cons. destruct (falls_on i r); simpl length; lia.
Qed.

Lemma weekday_loop vf rows :
  forall (wm : gmap nat Z) (sm : gmap nat float),
    (forall i, (i < 7)%nat -> is_Some (wm !! i) /\ is_Some (sm !! i)) ->
    (field_set vf = true -> values_convert (default "" vf) rows) ->
    exists wm' sm',
      for_each (LookerOrderReport.weekday_step vf) (wm, sm) rows = Ok (wm', sm')
      /\ forall i, (i < 7)%nat ->
           wm' !! i = Some (default 0 (wm !! i) + count_on i rows)
           /\ sm' !! i =
                Some (if field_set vf
                      then fold_left f_add (map (value_or_zero (default "" vf)) (rows_on i rows))
                             (default f_zero (sm !! i))
                      else default f_zero (sm !! i)).
Proof.
  induction rows as [|r t IH]; intros wm sm Hkeys Hconv.
  - exists wm, sm. split; [reflexivity|]. intros i Hi.
    destruct (Hkeys i Hi) as [[c Hc] [s Hs]]. rewrite Hc, Hs. simpl.
    unfold count_on. simpl. split; [f_equal; lia | now destruct (field_set vf)].
  - assert (Hconv_t : field_set vf = true -> values_convert (default "" vf) t).
    { intros Hvf. specialize (Hconv Hvf). now inversion Hconv. }
    cbn [for_each].
    destruct (LookerOrderReport.order_day r) as [d|] eqn:Hday.
    2:{ erewrite bind_Ok_l by (apply weekday_step_undated; exact Hday).
        destruct (IH wm sm Hkeys Hconv_t) as (wm' & sm' & Hrun & Hres).
        exists wm', sm'. split; [exact Hrun|].
        intros i Hi. rewrite rows_on_cons, count_on_cons.
        assert (Hfalls : falls_on i r = false) by (unfold falls_on; now rewrite Hday).
        rewrite Hfalls. simpl. now apply Hres. }
    pose proof (weekday_lt_7 d) as Hwd.
    destruct (Hkeys _ Hwd) as [[c Hc] [s Hs]].
    erewrite bind_Ok_l.
    2:{ apply (weekday_step_dated vf wm sm r d c s Hday Hc Hs).
        intros Hvf. specialize (Hconv Hvf). inversion Hconv as [|? ? Hr _]; subst.
        apply Hr. rewrite Hday. discriminate. }
    edestruct (IH (<[weekday d := c + 1]> wm)
                 (if field_set vf
                  then <[weekday d := f_add s (value_or_zero (default "" vf) r)]> sm
                  else sm)) as (wm' & sm' & Hrun & Hres).
    { intros i Hi. destruct (decide (weekday d = i)) as [<-|Hne].
      - rewrite lookup_insert_eq. split; [eauto|].
        destruct (field_set vf); [rewrite lookup_insert_eq|]; eauto.
      - rewrite lookup_insert_ne by exact Hne.
        destruct (field_set vf); [rewrite lookup_insert_ne by exact Hne|];
          now apply Hkeys. }
    { exact Hconv_t. }
    exists wm', sm'. split; [exact Hrun|].
    intros i Hi. destruct (Hres i Hi) as [Hw Hsm]. rewrite Hw, Hsm.
    rewrite rows_on_cons, count_on_cons.
    assert (Hfalls : falls_on i r = Nat.eqb (weekday d) i)
      by (unfold falls_on; now rewrite Hday).
    rewrite Hfalls.
    destruct (Nat.eqb_spec (weekday d) i) as [<-|Hne].
    + rewrite lookup_insert_eq, Hc. simpl. split; [f_equal; lia|].
      destruct (field_set vf); [|reflexivity].
      rewrite lookup_insert_eq, Hs. reflexivity.
    + rewrite lookup_insert_ne by exact Hne. split; [f_equal; lia|].
      destruct (field_set vf); [|reflexivity].
      rewrite lookup_insert_ne by exact Hne. reflexivity.
Qed.

Lemma weekday_part_run (env : Env) (r : LookerOrderReport.report) dom rows :
  search env dom = Ok rows ->
  (field_set (LookerOrderReport.value_field r) = true ->
   values_convert (default "" (LookerOrderReport.value_field r)) rows) ->
  LookerOrderReport.weekday_part env r dom
  = Ok (days,
        map (fun i => PInt (count_on i rows)) (seq 0 7),
        map (fun i => PFloat (bucket_sum r i rows)) (seq 0 7)).
Proof.
  intros Hsearch Hconv. unfold LookerOrderReport.weekday_part.
  erewrite bind_Ok_l by exact Hsearch.
  destruct (weekday_loop (LookerOrderReport.value_field r) rows (week_map 0) (week_map f_zero))
    as (wm' & sm' & Hrun & Hres).
  { intros i Hi. rewrite !week_map_lookup by exact Hi. split; eauto. }
  { exact Hconv. }
  erewrite bind_Ok_l by exact Hrun. cbv beta iota.
  assert (Hcounts : map (fun i : nat => PInt (default 0 (wm' !! i))) (seq 0 7)
                    = map (fun i => PInt (count_on i rows)) (seq 0 7)).
  { apply map_ext_in. intros i Hi. apply in_seq in Hi.
    destruct (Hres i ltac:(lia)) as [Hw _]. rewrite Hw, week_map_lookup by lia.
    simpl. reflexivity. }
  assert (Hsums : map (fun i : nat => PFloat (f_round 2 (default f_zero (sm' !! i)))) (seq 0 7)
                  = map (fun i => PFloat (bucket_sum r i rows)) (seq 0 7)).
  { apply map_ext_in. intros i Hi. apply in_seq in Hi.
    destruct (Hres i ltac:(lia)) as [_ Hs]. rewrite Hs, week_map_lookup by lia.
    simpl. unfold bucket_sum, sum_on.
    destruct (field_set _); [reflexivity | now rewrite f_round_zero]. }
  now rewrite Hcounts, Hsums.
Qed.

(** The loop reads the records as C4 states them. *)
Lemma order_day_stated r : LookerOrderReport.order_day r = stated_date r.
Proof.
  unfold LookerOrderReport.order_day, stated_date.
  destruct (date_order r) as [|s|d]; try reflexivity.
  destruct (String.eqb_spec s ""), (decide (s = "")); congruence.
Qed.

Lemma falls_on_stated i r : falls_on i r = stated_on i r.
Proof.
  unfold falls_on, stated_on. rewrite order_day_stated.
  destruct (stated_date r) as [d|]; simpl.
  - destruct (Nat.eqb_spec (weekday d) i) as [->|Hne].
    + now rewrite bool_decide_eq_true_2.
    + rewrite bool_decide_eq_false_2; [reflexivity | congruence].
  - reflexivity.
Qed.

Lemma rows_on_stated i rows : rows_on i rows = List.filter (stated_on i) rows.
Proof.
  unfold rows_on. induction rows as [|r t IH]; simpl; [reflexivity|].
  now rewrite falls_on_stated, IH.
Qed.

Lemma count_on_stated i rows : count_on i rows = stated_count i rows.
Proof. unfold count_on, stated_count. now rewrite rows_on_stated. Qed.

Lemma order_value_stated vf r a :
  stated_amount vf r = Some a -> LookerOrderReport.order_value vf r = Ok a.
Proof.
  unfold stated_amount, LookerOrderReport.order_value, py_or.
  destruct (order_fields r !! vf) as [v|]; [|discriminate].
  destruct (py_truthy v) eqn:Hv.
  - destruct v as [|b|z|f|s|l|l]; try discriminate; simpl; intros H;
      [now rewrite H | now rewrite H | now inversion H].
  - intros H. inversion H. reflexivity.
Qed.

Lemma values_convert_stated vf rows : amounts_known vf rows -> values_convert vf rows.
Proof.
  unfold amounts_known, values_convert. intros H. eapply Forall_impl; [exact H|].
  simpl. intros r Hr Hday.
  rewrite order_day_stated in Hday. destruct (Hr Hday) as [a Ha].
  now rewrite (order_value_stated vf r a Ha).
Qed.

Lemma sum_on_stated vf i rows :
  amounts_known vf rows ->
  sum_on vf i rows
  = fold_left f_add (map (fun r => default f_zero (stated_amount vf r))
                       (List.filter (stated_on i) rows)) f_zero.
Proof.
  intros Hknown. unfold sum_on. rewrite rows_on_stated. f_equal.
  induction Hknown as [|r t Hr _ IH]; simpl; [reflexivity|].
  destruct (stated_on i r) eqn:Hon; [|exact IH]. simpl. rewrite IH. f_equal.
  assert (Hday : stated_date r <> None).
  { unfold stated_on in Hon. apply bool_decide_eq_true_1 in Hon.
    destruct (stated_date r); [discriminate | discriminate Hon]. }
  destruct (Hr Hday) as [a Ha]. unfold value_or_zero.
  now rewrite (order_value_stated vf r a Ha), Ha.
Qed.

Lemma bucket_sum_stated (r : LookerOrderReport.report) i rows :
  (field_set (LookerOrderReport.value_field r) = true ->
   amounts_known (default "" (LookerOrderReport.value_field r)) rows) ->
  bucket_sum r i rows = stated_sum (LookerOrderReport.value_field r) i rows.
Proof.
  intros Hknown. unfold bucket_sum, stated_sum.
  destruct (field_set (LookerOrderReport.value_field r)); [|reflexivity].
  now rewrite (sum_on_stated _ i rows (Hknown eq_refl)).
Qed.

(** The chart of a report by weekday, on a run that raises nothing. *)
Lemma weekday_chart_run (env : Env) (r : LookerOrderReport.report) dom rows ll lv :
  LookerOrderReport.group_field r = Some "date_order_weekday" ->
  LookerOrderReport._eval_domain env r = Ok dom ->
  search env dom = Ok rows ->
  (field_set (LookerOrderReport.value_field r) = true ->
   amounts_known (default "" (LookerOrderReport.value_field r)) rows) ->
  LookerOrderReport.time_series env r dom = Ok (ll, lv) ->
  LookerOrderReport.get_chart_data env [r]
  = Ok {| labels := ["Thứ 2"; "Thứ 3"; "Thứ 4"; "Thứ 5"; "Thứ 6"; "Thứ 7"; "Chủ Nhật"];
          count_values := map (fun i => PInt (stated_count i rows)) (seq 0 7);
          sum_values :=
            map (fun i => PFloat (stated_sum (LookerOrderReport.value_field r) i rows))
              (seq 0 7);
          line_labels := ll;
          line_values := lv |}.
Proof.
  intros Hgf Hdom Hsearch Hknown Hts.
  assert (Hconv : field_set (LookerOrderReport.value_field r) = true ->
                  values_convert (default "" (LookerOrderReport.value_field r)) rows)
    by (intros Hvf; apply values_convert_stated; exact (Hknown Hvf)).
  unfold LookerOrderReport.get_chart_data. simpl. rewrite Hdom. simpl.
  unfold LookerOrderReport.chart_body, LookerOrderReport.group_part.
  rewrite Hgf. rewrite bool_decide_eq_true_2 by reflexivity.
  rewrite (weekday_part_run env r dom rows Hsearch Hconv). simpl.
  rewrite Hts. simpl.
  rewrite !count_on_stated, !(fun i => bucket_sum_stated r i rows Hknown). reflexivity.
Qed.

End Weekdays.

(** C4. For an order report grouped by [date_order_weekday], on a run whose
    aggregation raises nothing ([search] answers, every record with a date
    holds a number or nothing in the value field, the time series goes
    through): [labels] is the seven weekday names, Monday first;
    [count_values[i]] is the number of records found by the domain whose
    [date_order] falls on weekday [i], a record with no date or with one
    that does not parse counting nowhere; and [sum_values[i]] is the sum of
    the value field over the same records rounded to two decimals, or [0.0]
    in every bucket when no value field is set.  The right-hand side is
    stated on the records alone ([stated_count], [stated_sum]). *)
Theorem C4_weekday_buckets `{RT : PyRuntime} {HL : RuntimeLaws} (env : Env)
    (r : LookerOrderReport.report) (dom : pyval) (rows : list order_row)
    (ll : list string) (lv : list pyval) :
  LookerOrderReport.group_field r = Some "date_order_weekday" ->
  LookerOrderReport._eval_domain env r = Ok dom ->
  search env dom = Ok rows ->
  (field_set (LookerOrderReport.value_field r) = true ->
   amounts_known (default "" (LookerOrderReport.value_field r)) rows) ->
  LookerOrderReport.time_series env r dom = Ok (ll, lv) ->
  LookerOrderReport.get_chart_data env [r]
  = Ok {| labels := ["Thứ 2"; "Thứ 3"; "Thứ 4"; "Thứ 5"; "Thứ 6"; "Thứ 7"; "Chủ Nhật"];
          count_values := map (fun i => PInt (stated_count i rows)) (seq 0 7);
          sum_values :=
            map (fun i => PFloat (stated_sum (LookerOrderReport.value_field r) i rows))
              (seq 0 7);
          line_labels := ll;
          line_values := lv |}.
Proof.
  intros Hgf Hdom Hsearch Hknown Hts.
  exact (weekday_chart_run env r dom rows ll lv Hgf Hdom Hsearch Hknown Hts).
Qed.

Section WeekdaysRun.
#[local] Existing Instance QRuntime.runtime.

(** Witness of C4: five orders, worth 100, 50, 8, 9 and 25.5.  The first
    and the last are of Tuesday 2026-11-03, the second of Monday 2026-11-02;
    the third has no date and the date of the fourth does not parse.  So
    Monday shows 1 order and 50.0, Tuesday 2 orders and 125.5, and the other
    days nothing. *)
Lemma C4_witness :
  LookerOrderReport.get_chart_data Runs.shop_env [Runs.order_by_weekday]
  = Ok {| labels := ["Thứ 2"; "Thứ 3"; "Thứ 4"; "Thứ 5"; "Thứ 6"; "Thứ 7"; "Chủ Nhật"];
          count_values := [PInt 1; PInt 2; PInt 0; PInt 0; PInt 0; PInt 0; PInt 0];
          sum_values := [PFloat (50 # 1); PFloat (251 # 2); PFloat (0 # 1); PFloat (0 # 1);
                         PFloat (0 # 1); PFloat (0 # 1); PFloat (0 # 1)];
          line_labels := line_labels Runs.weekday_chart;
          line_values := line_values Runs.weekday_chart |}.
Proof.
  rewrite (@C4_weekday_buckets QRuntime.runtime q_runtime_laws Runs.shop_env
             Runs.order_by_weekday (PList []) Runs.order_rows
             (line_labels Runs.weekday_chart) (line_values Runs.weekday_chart)
             eq_refl eq_refl eq_refl
             ltac:(intros _; repeat constructor; intros _; eexists; reflexivity)
             eq_refl).
  reflexivity.
Defined.

End WeekdaysRun.

(** ** Buckets by related record *)

Section Relational.
Context `{RT : PyRuntime}.

Lemma py_eqb_plain a b :
  plain_key a -> plain_key b -> py_eqb a b = true <-> a = b.
Proof.
  destruct a, b; simpl; intros Ha Hb; try contradiction;
    try (split; intros H; (discriminate H || reflexivity)).
  - rewrite Z.eqb_eq. split; congruence.
  - rewrite String.eqb_eq. split; congruence.
Qed.

Lemma py_eqb_plain_refl a : plain_key a -> py_eqb a a = true.
Proof. intros Ha. now apply py_eqb_plain. Qed.

Lemma py_eqb_plain_false a b :
  plain_key a -> plain_key b -> a <> b -> py_eqb a b = false.
Proof.
  intros Ha Hb Hne. destruct (py_eqb a b) eqn:E; [|reflexivity].
  apply py_eqb_plain in E; tauto.
Qed.

Lemma seen_in_plain k ids :
  plain_key k -> Forall plain_key ids -> seen_in k ids = true <-> In k ids.
Proof.
  intros Hk Hids. unfold seen_in. rewrite existsb_exists. split.
  - intros (k' & Hin & Heq). rewrite Forall_forall in Hids.
    apply py_eqb_plain in Heq; [now subst | |exact Hk].
    apply Hids. now apply list_elem_of_In.
  - intros Hin. exists k. split; [exact Hin | now apply py_eqb_plain_refl].
Qed.

Lemma target_ids_snoc xs x :
  target_ids (xs ++ [x])
  = if seen_in (c_id x) (target_ids xs) then target_ids xs else target_ids xs ++ [c_id x].
Proof. unfold target_ids. now rewrite fold_left_app. Qed.

Lemma plain_ids_snoc xs x : plain_ids (xs ++ [x]) -> plain_ids xs /\ plain_key (c_id x).
Proof.
  unfold plain_ids. rewrite Forall_app. intros [H1 H2]. split; [exact H1|].
  now inversion H2.
Qed.

(** The targets are exactly the ids of the groups, each once. *)
Lemma target_ids_spec xs :
  plain_ids xs ->
  Forall plain_key (target_ids xs)
  /\ NoDup (target_ids xs)
  /\ forall k, In k (target_ids xs) <-> exists x, In x xs /\ c_id x = k.
Proof.
  induction xs as [|x xs IH] using rev_ind; intros Hplain.
  - repeat split; try constructor; simpl; [tauto | intros (x & [] & _)].
  - apply plain_ids_snoc in Hplain as [Hxs Hx].
    destruct (IH Hxs) as (Hp & Hnd & Hin). rewrite target_ids_snoc.
    destruct (seen_in (c_id x) (target_ids xs)) eqn:Hseen.
    + split; [exact Hp|]. split; [exact Hnd|].
      intros k. rewrite Hin. split.
      * intros (y & Hy & <-). exists y. split; [apply in_or_app; now left | reflexivity].
      * intros (y & Hy & <-). apply in_app_or in Hy as [Hy | [<- | []]]; [eauto|].
        apply Hin. now apply seen_in_plain in Hseen.
    + assert (Hnot : ~ In (c_id x) (target_ids xs)).
      { intros Hc. apply (seen_in_plain _ _ Hx Hp) in Hc. congruence. }
      split; [apply Forall_app; split; [exact Hp | now repeat constructor]|].
      split.
      { apply NoDup_app. split; [exact Hnd|]. split.
        - intros y Hy Hy'. apply list_elem_of_In in Hy.
          apply list_elem_of_In in Hy'. destruct Hy' as [<- | []]. contradiction.
        - apply NoDup_singleton. }
      intros k. rewrite in_app_iff, Hin. simpl. split.
      * intros [(y & Hy & <-) | [<- | []]].
        -- exists y. split; [apply in_or_app; now left | reflexivity].
        -- exists x. split; [apply in_or_app; right; now left | reflexivity].
      * intros (y & Hy & <-). apply in_app_or in Hy as [Hy | [<- | []]]; [left; eauto|].
        right. now left.
Qed.

Lemma group_of_snoc k xs x :
  group_of k (xs ++ [x]) = group_of k xs ++ (if py_eqb k (c_id x) then [x] else []).
Proof. unfold group_of. rewrite List.filter_app. reflexivity. Qed.

Lemma group_of_nil k xs :
  plain_key k -> plain_ids xs -> ~ In k (target_ids xs) -> group_of k xs = [].
Proof.
  intros Hk Hplain Hnot. unfold group_of.
  destruct (target_ids_spec xs Hplain) as (_ & _ & Hin).
  induction xs as [|y ys IH]; [reflexivity|]. simpl.
  inversion Hplain as [|? ? Hy Hys]; subst.
  destruct (py_eqb k (c_id y)) eqn:E.
  - apply py_eqb_plain in E; [|exact Hk|exact Hy]. exfalso. apply Hnot.
    apply Hin. exists y. split; [now left | congruence].
  - assert (Hall : forallb (fun x => negb (py_eqb k (c_id x))) ys = true).
    { apply forallb_forall. intros z Hz. apply negb_true_iff.
      rewrite Forall_forall in Hys.
      apply py_eqb_plain_false; [exact Hk | apply Hys; now apply list_elem_of_In |].
      intros ->. apply Hnot. apply Hin. exists z. split; [now right | reflexivity]. }
    clear -Hall. induction ys as [|z zs IHz]; [reflexivity|]. simpl in *.
    apply andb_true_iff in Hall as [Hz Hzs]. apply negb_true_iff in Hz.
    rewrite Hz. now apply IHz.
Qed.

Lemma group_of_not_nil k xs :
  plain_ids xs -> In k (target_ids xs) -> group_of k xs <> [].
Proof.
  intros Hplain Hk.
  destruct (target_ids_spec xs Hplain) as (Hp & _ & Hin).
  apply Hin in Hk as (x & Hx & <-).
  assert (Hmem : In x (group_of (c_id x) xs)).
  { unfold group_of. apply filter_In. split; [exact Hx|].
    apply py_eqb_plain_refl. unfold plain_ids in Hplain.
    rewrite Forall_forall in Hplain. apply Hplain. now apply list_elem_of_In. }
  intros Hnil. now rewrite Hnil in Hmem.
Qed.

End Relational.

Section RelationalRun.
Context `{RT : PyRuntime}.

Lemma pd_lookup_fresh {V} (F : pyval -> V) kx ids :
  seen_in kx ids = false ->
  pd_lookup kx (map (fun k => (k, F k)) ids) = None.
Proof.
  unfold seen_in. induction ids as [|k ids IH]; simpl; [reflexivity|].
  intros H. apply orb_false_iff in H as [Hk Hids]. rewrite Hk. now apply IH.
Qed.

Lemma pd_lookup_known {V} (F : pyval -> V) kx ids :
  plain_key kx -> Forall plain_key ids -> In kx ids ->
  pd_lookup kx (map (fun k => (k, F k)) ids) = Some (F kx).
Proof.
  intros Hkx. induction ids as [|k ids IH]; intros Hp Hin; [destruct Hin|].
  inversion Hp as [|? ? Hk Hids]; subst. simpl.
  destruct (py_eqb k kx) eqn:E.
  - apply py_eqb_plain in E; [now subst | exact Hk | exact Hkx].
  - destruct Hin as [-> | Hin]; [now rewrite py_eqb_plain_refl in E|].
    now apply IH.
Qed.

Lemma pd_store_known {V} (F : pyval -> V) kx v ids :
  plain_key kx -> Forall plain_key ids -> NoDup ids -> In kx ids ->
  pd_store kx v (map (fun k => (k, F k)) ids)
  = map (fun k => (k, if py_eqb k kx then v else F k)) ids.
Proof.
  intros Hkx. induction ids as [|k ids IH]; intros Hp Hnd Hin; [destruct Hin|].
  inversion Hp as [|? ? Hk Hids]; subst.
  apply NoDup_cons in Hnd as [Hnotin Hnd]. simpl.
  destruct (py_eqb k kx) eqn:E.
  - apply py_eqb_plain in E; [subst k | exact Hk | exact Hkx].
    f_equal. apply map_ext_in. intros k' Hk'.
    rewrite py_eqb_plain_false; [reflexivity | | exact Hkx |].
    + rewrite Forall_forall in Hids. apply Hids. now apply list_elem_of_In.
    + intros ->. apply Hnotin. now apply list_elem_of_In.
  - f_equal. destruct Hin as [-> | Hin]; [now rewrite py_eqb_plain_refl in E|].
    now apply IH.
Qed.

(** Adding one more group to the buckets of [xs] gives the buckets of
    [xs] with that group at the end. *)
Lemma bucket_add_merged xs x :
  plain_ids (xs ++ [x]) ->
  LookerOrderReport.bucket_add (merged_buckets xs) x = merged_buckets (xs ++ [x]).
Proof.
  intros Hplain. pose proof Hplain as Hall.
  apply plain_ids_snoc in Hplain as [Hxs Hx].
  destruct (target_ids_spec xs Hxs) as (Hp & Hnd & Hin).
  destruct x as [[[kx lbl] c] s].
  change (c_id (kx, lbl, c, s)) with kx in Hx.
  unfold LookerOrderReport.bucket_add, merged_buckets.
  rewrite target_ids_snoc.
  change (c_id (kx, lbl, c, s)) with kx.
  destruct (seen_in kx (target_ids xs)) eqn:Hseen.
  - pose proof (proj1 (seen_in_plain _ _ Hx Hp) Hseen) as Hmem.
    rewrite pd_lookup_known by assumption.
    rewrite pd_store_known by assumption.
    apply map_ext_in. intros k Hk. f_equal.
    destruct (py_eqb k kx) eqn:E.
    + assert (k = kx) as ->.
      { apply py_eqb_plain in E; [exact E| |exact Hx].
        rewrite Forall_forall in Hp. apply Hp. now apply list_elem_of_In. }
      pose proof (group_of_not_nil kx xs Hxs Hmem) as Hne.
      unfold merged_bucket. rewrite group_of_snoc.
      change (c_id (kx, lbl, c, s)) with kx. rewrite E. simpl.
      rewrite !map_app, !fold_left_app. simpl.
      destruct (group_of kx xs) as [|y ys]; [contradiction|]. reflexivity.
    + unfold merged_bucket. rewrite group_of_snoc.
      change (c_id (kx, lbl, c, s)) with kx.
      rewrite E, app_nil_r. reflexivity.
  - rewrite pd_lookup_fresh by exact Hseen.
    rewrite map_app. simpl. f_equal.
    + apply map_ext_in. intros k Hk. f_equal.
      unfold merged_bucket. rewrite group_of_snoc.
      change (c_id (kx, lbl, c, s)) with kx.
      assert (E : py_eqb k kx = false).
      { unfold seen_in in Hseen.
        destruct (py_eqb k kx) eqn:E; [|reflexivity].
        assert (existsb (fun k' => py_eqb k' kx) (target_ids xs) = true)
          by (apply existsb_exists; eauto).
        congruence. }
      rewrite E, app_nil_r. reflexivity.
    + f_equal. f_equal. unfold merged_bucket. rewrite group_of_snoc.
      change (c_id (kx, lbl, c, s)) with kx.
      rewrite py_eqb_plain_refl by exact Hx.
      rewrite group_of_nil; [reflexivity | exact Hx | exact Hxs |].
      intros Hc. apply (seen_in_plain _ _ Hx Hp) in Hc. congruence.
Qed.

Lemma fold_bucket_add_merged xs :
  plain_ids xs -> fold_left LookerOrderReport.bucket_add xs [] = merged_buckets xs.
Proof.
  induction xs as [|x xs IH] using rev_ind; intros Hplain; [reflexivity|].
  rewrite fold_left_app. simpl.
  rewrite IH by (now apply plain_ids_snoc in Hplain).
  now apply bucket_add_merged.
Qed.

Context (env : Env).

Lemma bucket_loop rel_model top rel_field sums gs xs :
  Forall2 (fun g x =>
             LookerOrderReport.contribution env rel_model top rel_field sums g = Ok x) gs xs ->
  forall acc,
    for_each (fun b g =>
                x ← LookerOrderReport.contribution env rel_model top rel_field sums g;
                Ok (LookerOrderReport.bucket_add b x)) acc gs
    = Ok (fold_left LookerOrderReport.bucket_add xs acc).
Proof.
  induction 1 as [|g x gs xs Hg _ IH]; intros acc; simpl; [reflexivity|].
  rewrite Hg. simpl. apply IH.
Qed.

End RelationalRun.

Section Undefined.
Context `{RT : PyRuntime} (env : Env).




(** A group whose target is one record goes to the bucket of that record's
    id. *)
Lemma contribution_resolved rm top rel_field sums g x gid i name :
  LookerOrderReport.contribution env (Some rm) top rel_field sums g = Ok x ->
  first_or_self (row_get top g) = Ok gid -> py_truthy gid = true ->
  related env rm gid rel_field = Ok (TRecs [(i, name)]) ->
  c_id x = PInt i.
Proof.
  intros Hc Hgid Htrue Hrel. unfold LookerOrderReport.contribution in Hc.
  rewrite Hgid in Hc. simpl in Hc. rewrite Htrue in Hc. simpl in Hc.
  apply bind_Ok in Hc as ([[rel_id rel_label] rel_sum] & Hres & Hc).
  apply bind_Ok in Hres as (rs & _ & Hres).
  rewrite Hrel in Hres. simpl in Hres. inversion Hres; subst; clear Hres.
  apply bind_Ok in Hc as (? & _ & Hc).
  apply bind_Ok in Hc as (c & _ & Hc). apply bind_Ok in Hc as (s & _ & Hc).
  inversion Hc; subst. reflexivity.
Qed.



End Undefined.

Lemma has_dot_not_weekday gf :
  has_dot gf = true -> bool_decide (Some gf = Some "date_order_weekday") = false.
Proof.
  intros Hdot. apply bool_decide_eq_false. intros Heq.
  inversion Heq; subst. discriminate Hdot.
Qed.

Lemma has_dot_field_set `{RT : PyRuntime} gf :
  has_dot gf = true -> field_set (Some gf) = true.
Proof. destruct gf; [discriminate | reflexivity]. Qed.



Section CountriesRun.
#[local] Existing Instance QRuntime.runtime.


End CountriesRun.

(** ** The row limit *)

Section Sorting.
Context `{RT : PyRuntime} {A : Type} (key : A -> pyval) (ltb : A -> A -> bool).
Hypothesis ltb_asym : forall a b, ltb a b = true -> ltb b a = false.
Hypothesis ltb_negtrans :
  forall a b c, ltb a b = false -> ltb b c = false -> ltb a c = false.

Lemma insert_desc_spec x l :
  (forall y, In y l -> py_lt (key x) (key y) = Ok (ltb x y)) ->
  StronglySorted (not_below ltb) l ->
  exists l', insert_desc key x l = Ok l'
             /\ Permutation (x :: l) l' /\ StronglySorted (not_below ltb) l'.
Proof.
  induction l as [|y t IH]; intros Hlt Hsorted; simpl.
  - exists [x]. repeat split; [reflexivity | repeat constructor].
  - rewrite (Hlt y) by now left. simpl.
    apply StronglySorted_cons in Hsorted as [Hy Ht].
    destruct (ltb x y) eqn:Hxy.
    + destruct IH as (t' & Hins & Hperm & Hst); [intros z Hz; apply Hlt; now right | exact Ht |].
      rewrite Hins. simpl. exists (y :: t'). split; [reflexivity|]. split.
      * rewrite <- Hperm. apply perm_swap.
      * apply StronglySorted_cons. split; [|exact Hst].
        rewrite <- Hperm. constructor; [now apply ltb_asym | exact Hy].
    + exists (x :: y :: t). split; [reflexivity|]. split; [reflexivity|].
      apply StronglySorted_cons. split.
      * constructor; [exact Hxy|]. eapply Forall_impl; [exact Hy|].
        intros z Hz. unfold not_below in *. eauto.
      * apply StronglySorted_cons. now split.
Qed.

Lemma sorted_desc_spec l :
  (forall x y, In x l -> In y l -> py_lt (key x) (key y) = Ok (ltb x y)) ->
  exists l', sorted_desc key l = Ok l'
             /\ Permutation l l' /\ StronglySorted (not_below ltb) l'.
Proof.
  induction l as [|x t IH]; intros Hlt; simpl.
  - exists []. repeat split; constructor.
  - destruct IH as (t' & Hsort & Hperm & Hst).
    { intros a b Ha Hb. apply Hlt; now right. }
    rewrite Hsort. simpl.
    destruct (insert_desc_spec x t') as (l' & Hins & Hperm' & Hst'); [|exact Hst|].
    { intros y Hy. apply Hlt; [now left|]. right.
      apply list_elem_of_In. rewrite Hperm. now apply list_elem_of_In. }
    exists l'. split; [exact Hins|]. split; [|exact Hst'].
    now rewrite <- Hperm', <- Hperm.
Qed.

End Sorting.

Section RowLimit.
Context `{RT : PyRuntime} {HL : RuntimeLaws}.

Lemma key_ltb_asym by_sum a b : key_ltb by_sum a b = true -> key_ltb by_sum b a = false.
Proof.
  unfold key_ltb. destruct by_sum; [apply f_ltb_asym|]. lia.
Qed.

Lemma key_ltb_negtrans by_sum a b c :
  key_ltb by_sum a b = false -> key_ltb by_sum b c = false -> key_ltb by_sum a c = false.
Proof.
  unfold key_ltb. destruct by_sum; [apply f_ltb_negtrans|]. lia.
Qed.

Lemma sort_key_agrees by_sum es :
  (by_sum = false -> counts_are_ints es) ->
  forall x y, In x es -> In y es ->
    py_lt ((if by_sum then (fun e => PFloat (e_sum e)) else e_count) x)
          ((if by_sum then (fun e => PFloat (e_sum e)) else e_count) y)
    = Ok (key_ltb by_sum x y).
Proof.
  intros Hints x y Hx Hy. unfold key_ltb. destruct by_sum; [reflexivity|].
  specialize (Hints eq_refl). unfold counts_are_ints in Hints.
  rewrite Forall_forall in Hints.
  destruct (Hints x ltac:(now apply list_elem_of_In)) as (zx & Hzx).
  destruct (Hints y ltac:(now apply list_elem_of_In)) as (zy & Hzy).
  unfold int_count. rewrite Hzx, Hzy. reflexivity.
Qed.

Lemma limit_n_of_pos limit : 0 < limit -> limit_n_of limit = limit.
Proof.
  intros H. unfold limit_n_of.
  destruct (Z.eqb_spec limit 0); [lia|]. destruct (Z.gtb_spec limit 0); [reflexivity | lia].
Qed.

Lemma limit_n_of_nonpos limit : limit <= 0 -> limit_n_of limit = 0.
Proof.
  intros H. unfold limit_n_of.
  destruct (Z.eqb_spec limit 0); [reflexivity|]. destruct (Z.gtb_spec limit 0); [lia | reflexivity].
Qed.

Lemma top_n_spec limit by_sum es :
  (by_sum = false -> counts_are_ints es) ->
  exists kept, top_n limit by_sum es = Ok kept /\ limit_applied limit by_sum es kept.
Proof.
  intros Hints. unfold top_n, limit_applied.
  destruct (Z.ltb_spec 0 limit) as [Hpos|Hnonpos]; simpl.
  2:{ rewrite limit_n_of_nonpos by exact Hnonpos. exists es. now split. }
  rewrite limit_n_of_pos by exact Hpos.
  destruct (Z.eqb_spec limit 0) as [->|_]; [lia|]. simpl.
  destruct (Z.gtb_spec (Z.of_nat (length es)) limit) as [Hmore|Hfew];
    destruct (Z.ltb_spec limit (Z.of_nat (length es))) as [Hmore'|Hfew']; try lia.
  2:{ exists es. now split. }
  destruct (sorted_desc_spec (if by_sum then (fun e => PFloat (e_sum e)) else e_count)
              (key_ltb by_sum) (key_ltb_asym by_sum) (key_ltb_negtrans by_sum) es
              (sort_key_agrees by_sum es Hints)) as (l' & Hsort & Hperm & Hsorted).
  rewrite Hsort. simpl. eexists. split; [reflexivity|].
  exists (drop (Z.to_nat limit) l').
  assert (Hlen : length l' = length es) by (symmetry; now apply Permutation_length).
  rewrite take_drop. split; [exact Hperm|]. split.
  { rewrite length_take. lia. }
  rewrite <- (take_drop (Z.to_nat limit) l') in Hsorted.
  split.
  - eapply StronglySorted_app_1_l. exact Hsorted.
  - intros k d Hk Hd.
    apply (StronglySorted_app_1_elem_of _ _ _ _ _ Hsorted); now apply list_elem_of_In.
Qed.

Lemma limit_applied_length limit by_sum es kept :
  limit_applied limit by_sum es kept -> 0 < limit -> Z.of_nat (length kept) <= limit.
Proof.
  unfold limit_applied. intros H Hpos.
  destruct (Z.ltb_spec 0 limit); [|lia]. simpl in H.
  destruct (Z.ltb_spec limit (Z.of_nat (length es))).
  - destruct H as (dropped & _ & Hlen & _). lia.
  - subst. lia.
Qed.

(** The entries of a lead report come one per group of [read_group], in
    its order. *)
Lemma crm_entries_in_order (env : Env) (r : LookerReport.report) dom gf es :
  LookerReport.group_entries env r dom gf = Ok es ->
  exists groups,
    try_except (read_group env LookerReport.model dom [gf] [gf]) (fun _ => Ok []) = Ok groups
    /\ Forall2 (entry_of_group gf) groups es.
Proof.
  unfold LookerReport.group_entries. intros H.
  apply bind_Ok in H as (groups & Hgroups & H).
  apply bind_Ok in H as (sum_map & _ & H).
  apply for_each_collect in H as (es' & -> & Hall).
  exists groups. split; [exact Hgroups|]. simpl.
  eapply Forall2_impl; [exact Hall|]. simpl. intros g e He.
  unfold LookerReport.entry_of in He.
  apply bind_Ok in He as (gid & _ & He). apply bind_Ok in He as (sval & _ & He).
  apply bind_Ok in He as (x & _ & He). inversion He; subst. now split.
Qed.

Lemma bucket_entries_are_ints (buckets : list (pyval * LookerOrderReport.bucket)) :
  counts_are_ints (map (fun kb => LookerOrderReport.entry_of_bucket kb.2) buckets).
Proof.
  unfold counts_are_ints. apply Forall_forall. intros e He.
  apply list_elem_of_In, in_map_iff in He as (kb & <- & _). simpl. eauto.
Qed.

(** The buckets of the relational branch stand in the order in which their
    targets first come up among the groups. *)
Lemma merged_entries_ids (xs : list (pyval * pyval * Z * float)) :
  map e_gid (map (fun kb => LookerOrderReport.entry_of_bucket kb.2) (merged_buckets xs))
  = target_ids xs.
Proof.
  unfold merged_buckets. rewrite !map_map. simpl.
  induction (target_ids xs) as [|k t IH]; simpl; [reflexivity|]. now rewrite IH.
Qed.

Lemma relational_entries_merged (env : Env) (r : LookerOrderReport.report) dom gf
    top rel_field rest groups sums xs :
  split_dot gf = top :: rel_field :: rest ->
  LookerOrderReport.top_groups env dom top = Ok groups ->
  LookerOrderReport.top_sums env r dom top = Ok sums ->
  Forall2 (fun g x =>
             LookerOrderReport.contribution env (LookerOrderReport.rel_model_of env top)
               top rel_field sums g = Ok x) groups xs ->
  plain_ids xs ->
  LookerOrderReport.relational_entries env r dom gf
  = Ok (map (fun kb => LookerOrderReport.entry_of_bucket kb.2) (merged_buckets xs)).
Proof.
  intros Hsplit Hgroups Hsums Hcontrib Hplain.
  unfold LookerOrderReport.relational_entries. rewrite Hsplit.
  change (default "" (head (top :: rel_field :: rest))) with top.
  change (default "" ((top :: rel_field :: rest) !! 1%nat)) with rel_field.
  rewrite Hgroups. simpl. rewrite Hsums. simpl.
  rewrite (bucket_loop env _ _ _ _ _ _ Hcontrib). simpl.
  now rewrite (fold_bucket_add_merged xs Hplain).
Qed.

(** The weekday branch does not look at the limit. *)
Lemma weekday_ignores_limit (env : Env) (r : LookerOrderReport.report) l :
  LookerOrderReport.group_field r = Some "date_order_weekday" ->
  LookerOrderReport.get_chart_data env [with_limit r l]
  = LookerOrderReport.get_chart_data env [r].
Proof.
  intros Hgf. unfold LookerOrderReport.get_chart_data. simpl.
  change (LookerOrderReport._eval_domain env (with_limit r l))
    with (LookerOrderReport._eval_domain env r).
  destruct (LookerOrderReport._eval_domain env r) as [dom|e]; [|reflexivity].
  simpl. f_equal.
  unfold LookerOrderReport.chart_body, LookerOrderReport.group_part.
  cbn [with_limit LookerOrderReport.group_field]. rewrite Hgf.
  rewrite bool_decide_eq_true_2 by reflexivity. reflexivity.
Qed.

End RowLimit.

(** C6 (amended). For a lead report with a group field, and for an order
    report whose group field has a dot, on a run whose aggregation raises
    nothing: when the limit is above zero and there are more group entries
    than the limit, only the top [limit] entries are shown, in descending
    order of the per-group sum when a value field is set and of the
    per-group count otherwise, so [labels] has at most [limit] entries;
    otherwise all the entries are shown, in the order in which they were
    built: one per group of [read_group] in its order for a lead report,
    and one per target in the order in which the targets first come up
    among the groups for a dotted group field.  An order report by weekday
    does not look at its limit: its chart is the same under every limit,
    and on a run that raises nothing it is the seven weekday buckets. *)
Theorem C6_row_limit `{RT : PyRuntime} {HL : RuntimeLaws} (env : Env) :
  (forall (r : LookerReport.report) dom es ll lv,
     field_set (LookerReport.group_field r) = true ->
     LookerReport._eval_domain env r = Ok dom ->
     LookerReport.group_entries env r dom (default "" (LookerReport.group_field r)) = Ok es ->
     (field_set (LookerReport.value_field r) = false -> counts_are_ints es) ->
     LookerReport.time_series env r dom = Ok (ll, lv) ->
     exists kept,
       LookerReport.get_chart_data env [r]
       = Ok {| labels := map e_label kept;
               count_values := map e_count kept;
               sum_values := map (fun e => PFloat (e_sum e)) kept;
               line_labels := ll;
               line_values := lv |}
       /\ limit_applied (LookerReport.limit r) (field_set (LookerReport.value_field r)) es kept
       /\ labels_within_limit (LookerReport.limit r) (LookerReport.get_chart_data env [r])
       /\ exists groups,
            try_except (read_group env LookerReport.model dom
                          [default "" (LookerReport.group_field r)]
                          [default "" (LookerReport.group_field r)])
                       (fun _ => Ok []) = Ok groups
            /\ Forall2 (entry_of_group (default "" (LookerReport.group_field r))) groups es)
  /\ (forall (r : LookerOrderReport.report) dom gf es ll lv,
     LookerOrderReport.group_field r = Some gf ->
     has_dot gf = true ->
     LookerOrderReport._eval_domain env r = Ok dom ->
     LookerOrderReport.relational_entries env r dom gf = Ok es ->
     LookerOrderReport.time_series env r dom = Ok (ll, lv) ->
     (exists kept,
       LookerOrderReport.get_chart_data env [r]
       = Ok {| labels := map e_label kept;
               count_values := map e_count kept;
               sum_values := map (fun e => PFloat (e_sum e)) kept;
               line_labels := ll;
               line_values := lv |}
       /\ limit_applied (LookerOrderReport.limit r)
            (field_set (LookerOrderReport.value_field r)) es kept
       /\ labels_within_limit (LookerOrderReport.limit r)
            (LookerOrderReport.get_chart_data env [r]))
     /\ forall top rel_field rest groups sums xs,
          split_dot gf = top :: rel_field :: rest ->
          LookerOrderReport.top_groups env dom top = Ok groups ->
          LookerOrderReport.top_sums env r dom top = Ok sums ->
          Forall2 (fun g x =>
                     LookerOrderReport.contribution env
                       (LookerOrderReport.rel_model_of env top) top rel_field sums g = Ok x)
                  groups xs ->
          plain_ids xs ->
          es = map (fun kb => LookerOrderReport.entry_of_bucket kb.2) (merged_buckets xs)
          /\ map e_gid es = target_ids xs)
  /\ (forall (r : LookerOrderReport.report),
     LookerOrderReport.group_field r = Some "date_order_weekday" ->
     (forall l, LookerOrderReport.get_chart_data env [with_limit r l]
                = LookerOrderReport.get_chart_data env [r])
     /\ forall dom rows ll lv,
          LookerOrderReport._eval_domain env r = Ok dom ->
          search env dom = Ok rows ->
          (field_set (LookerOrderReport.value_field r) = true ->
           amounts_known (default "" (LookerOrderReport.value_field r)) rows) ->
          LookerOrderReport.time_series env r dom = Ok (ll, lv) ->
          LookerOrderReport.get_chart_data env [r]
          = Ok {| labels := ["Thứ 2"; "Thứ 3"; "Thứ 4"; "Thứ 5"; "Thứ 6"; "Thứ 7";
                             "Chủ Nhật"];
                  count_values := map (fun i => PInt (stated_count i rows)) (seq 0 7);
                  sum_values :=
                    map (fun i => PFloat (stated_sum (LookerOrderReport.value_field r) i rows))
                      (seq 0 7);
                  line_labels := ll;
                  line_values := lv |}).
Proof.
  split; [|split].
  - intros r dom es ll lv Hgf Hdom Hes Hints Hts.
    destruct (top_n_spec (LookerReport.limit r) (field_set (LookerReport.value_field r)) es)
      as (kept & Htop & Hlimit).
    { intros Hvf. now apply Hints. }
    assert (Hrun : LookerReport.get_chart_data env [r]
                   = Ok {| labels := map e_label kept;
                           count_values := map e_count kept;
                           sum_values := map (fun e => PFloat (e_sum e)) kept;
                           line_labels := ll;
                           line_values := lv |}).
    { unfold LookerReport.get_chart_data. simpl. rewrite Hdom. simpl.
      unfold LookerReport.chart_body, LookerReport.group_part.
      rewrite Hgf, Hes. simpl. rewrite Htop. simpl. rewrite Hts. reflexivity. }
    exists kept. split; [exact Hrun|]. split; [exact Hlimit|].
    split; [|now apply (crm_entries_in_order env r dom)].
    intros c Hc Hpos. rewrite Hrun in Hc. inversion Hc; subst. simpl.
    rewrite length_map. eapply limit_applied_length; eauto.
  - intros r dom gf es ll lv Hgf Hdot Hdom Hes Hts. split.
    + destruct (top_n_spec (LookerOrderReport.limit r)
                  (field_set (LookerOrderReport.value_field r)) es)
        as (kept & Htop & Hlimit).
      { intros _. unfold LookerOrderReport.relational_entries in Hes.
        apply bind_Ok in Hes as (? & _ & Hes). apply bind_Ok in Hes as (? & _ & Hes).
        apply bind_Ok in Hes as (buckets & _ & Hes). inversion Hes; subst.
        apply bucket_entries_are_ints. }
      assert (Hrun : LookerOrderReport.get_chart_data env [r]
                     = Ok {| labels := map e_label kept;
                             count_values := map e_count kept;
                             sum_values := map (fun e => PFloat (e_sum e)) kept;
                             line_labels := ll;
                             line_values := lv |}).
      { unfold LookerOrderReport.get_chart_data. simpl. rewrite Hdom. simpl.
        unfold LookerOrderReport.chart_body, LookerOrderReport.group_part.
        rewrite Hgf, (has_dot_not_weekday gf Hdot), (has_dot_field_set gf Hdot).
        change (default "" (Some gf)) with gf. rewrite Hdot.
        unfold LookerOrderReport.relational_part. rewrite Hes. simpl.
        rewrite Htop. simpl. rewrite Hts. reflexivity. }
      exists kept. split; [exact Hrun|]. split; [exact Hlimit|].
      intros c Hc Hpos. rewrite Hrun in Hc. inversion Hc; subst. simpl.
      rewrite length_map. eapply limit_applied_length; eauto.
    + intros top rel_field rest groups sums xs Hsplit Hgroups Hsums Hcontrib Hplain.
      rewrite (relational_entries_merged env r dom gf top rel_field rest groups sums xs
                 Hsplit Hgroups Hsums Hcontrib Hplain) in Hes.
      inversion Hes; subst es. split; [reflexivity | apply merged_entries_ids].
  - intros r Hgf. split.
    + intros l. now apply weekday_ignores_limit.
    + intros dom rows ll lv Hdom Hsearch Hknown Hts.
      exact (weekday_chart_run env r dom rows ll lv Hgf Hdom Hsearch Hknown Hts).
Qed.

Section RowLimitRun.
#[local] Existing Instance QRuntime.runtime.

(** Witness of C6: three stages with a limit of two rows, by sum; the
    customers of four groups with a limit of one row, whose two buckets are
    formed in the order country 233, then no country; and the report by
    weekday, which shows its seven buckets under its limit of three rows
    and under a limit of one row alike. *)
Lemma C6_witness :
  (exists kept,
     LookerReport.get_chart_data Runs.shop_env [Runs.lead_by_stage]
     = Ok {| labels := map e_label kept;
             count_values := map e_count kept;
             sum_values := map (fun e => PFloat (e_sum e)) kept;
             line_labels := line_labels Runs.lead_chart;
             line_values := line_values Runs.lead_chart |}
     /\ limit_applied 2 true Runs.lead_entries kept
     /\ labels_within_limit 2 (LookerReport.get_chart_data Runs.shop_env [Runs.lead_by_stage]))
  /\ ((exists kept,
     LookerOrderReport.get_chart_data Runs.shop_env [Runs.order_by_country]
     = Ok {| labels := map e_label kept;
             count_values := map e_count kept;
             sum_values := map (fun e => PFloat (e_sum e)) kept;
             line_labels := line_labels Runs.country_chart;
             line_values := line_values Runs.country_chart |}
     /\ limit_applied 1 true Runs.country_entries kept
     /\ labels_within_limit 1
          (LookerOrderReport.get_chart_data Runs.shop_env [Runs.order_by_country]))
     /\ map e_gid Runs.country_entries = [PInt 233; PNone]
     /\ map e_label Runs.country_entries = ["United States"; "Undefined"])
  /\ (LookerOrderReport.get_chart_data Runs.shop_env [with_limit Runs.order_by_weekday 1]
       = LookerOrderReport.get_chart_data Runs.shop_env [Runs.order_by_weekday]
       /\ LookerOrderReport.get_chart_data Runs.shop_env [Runs.order_by_weekday]
          = Ok {| labels := ["Thứ 2"; "Thứ 3"; "Thứ 4"; "Thứ 5"; "Thứ 6"; "Thứ 7";
                             "Chủ Nhật"];
                  count_values := [PInt 1; PInt 2; PInt 0; PInt 0; PInt 0; PInt 0; PInt 0];
                  sum_values := [PFloat (50 # 1); PFloat (251 # 2); PFloat (0 # 1);
                                 PFloat (0 # 1); PFloat (0 # 1); PFloat (0 # 1);
                                 PFloat (0 # 1)];
                  line_labels := line_labels Runs.weekday_chart;
                  line_values := line_values Runs.weekday_chart |}).
Proof.
  pose proof (@C6_row_limit QRuntime.runtime q_runtime_laws Runs.shop_env)
    as (Hlead & Hdotted & Hweekday).
  split; [|split].
  - assert (Hints : field_set (LookerReport.value_field Runs.lead_by_stage) = false ->
                    counts_are_ints Runs.lead_entries)
      by (intros H; discriminate H).
    destruct (Hlead Runs.lead_by_stage (PList []) Runs.lead_entries
                (line_labels Runs.lead_chart) (line_values Runs.lead_chart)
                eq_refl eq_refl eq_refl Hints eq_refl)
      as (kept & Hrun & Hlimit & Hlabels & _).
    exists kept. repeat split; assumption.
  - destruct (Hdotted Runs.order_by_country (PList []) "partner_id.country_id"
                Runs.country_entries
                (line_labels Runs.country_chart) (line_values Runs.country_chart)
                eq_refl eq_refl eq_refl eq_refl eq_refl) as [Hkept Horder].
    split; [exact Hkept|].
    destruct (Horder "partner_id" "country_id" [] Runs.order_groups Runs.customer_sums
                Runs.country_contributions eq_refl eq_refl eq_refl
                ltac:(repeat constructor) ltac:(repeat constructor)) as [Hes Hids].
    split; [rewrite Hids; reflexivity | rewrite Hes; reflexivity].
  - destruct (Hweekday Runs.order_by_weekday eq_refl) as [Hany Hseven].
    split; [exact (Hany 1)|].
    rewrite (Hseven (PList []) Runs.order_rows
               (line_labels Runs.weekday_chart) (line_values Runs.weekday_chart)
               eq_refl eq_refl
               ltac:(intros _; repeat constructor; intros _; eexists; reflexivity)
               eq_refl).
    reflexivity.
Defined.

(** Counterexample to C6 as stated for every report: an order report by
    weekday with a limit of three rows shows its seven buckets; and an order
    report by a plain field (the customer) with a limit of two rows shows all
    four groups, the limit being applied nowhere in that branch. *)
Lemma C6_counterexample :
  ~ labels_within_limit (LookerOrderReport.limit Runs.order_by_weekday)
      (LookerOrderReport.get_chart_data Runs.shop_env [Runs.order_by_weekday])
  /\ ~ labels_within_limit (LookerOrderReport.limit Runs.order_by_customer)
        (LookerOrderReport.get_chart_data Runs.shop_env [Runs.order_by_customer]).
Proof.
  split; intros H.
  - specialize (H Runs.weekday_chart eq_refl ltac:(reflexivity)).
    change (7 <= 3) in H. lia.
  - specialize (H Runs.customer_chart eq_refl ltac:(reflexivity)).
    change (4 <= 2) in H. lia.
Qed.

End RowLimitRun.

(** * Further properties *)

(** ** Dotted field names *)

(** X1. [s.split('.')] as the order model uses it: joining the parts with a
    dot gives the name back; a name without a dot is its only part; and a
    name with a dot has at least two parts, the first of them free of dots,
    so that [parts[1]] is always there in the relational branch and in
    [_order_field_label]. *)
Theorem X1_split_dot_round_trip (s : string) :
  join "." (split_dot s) = s
  /\ (has_dot s = false -> split_dot s = [s])
  /\ (has_dot s = true ->
      exists top rel_field rest,
        split_dot s = top :: rel_field :: rest /\ has_dot top = false).
Proof.
  induction s as [|c t (IHj & IHn & IHd)]; simpl.
  - split; [reflexivity | split; [reflexivity | discriminate]].
  - destruct (Ascii.eqb c ".") eqn:Hc; simpl.
    + apply Ascii.eqb_eq in Hc as ->.
      split; [|split; [discriminate|]].
      * destruct (split_dot t) as [|h r] eqn:Ht; simpl in *; now subst.
      * intros _. destruct (has_dot t) eqn:Hd.
        -- destruct (IHd eq_refl) as (top & rel & rest & -> & _). now eauto.
        -- rewrite (IHn eq_refl). now eauto.
    + split; [|split].
      * destruct (split_dot t) as [|h [|y r]] eqn:Ht; simpl in *; now subst.
      * intros Hd. now rewrite (IHn Hd).
      * intros Hd. destruct (IHd Hd) as (top & rel & rest & -> & Htop).
        exists (String c top), rel, rest. split; [reflexivity|].
        simpl. now rewrite Hc.
Qed.

(** Witness of X1: the group field by the customer's country. *)
Lemma X1_witness :
  exists top rel_field rest,
    split_dot "partner_id.country_id" = top :: rel_field :: rest /\ has_dot top = false.
Proof.
  apply (proj2 (proj2 (X1_split_dot_round_trip "partner_id.country_id"))). reflexivity.
Defined.

(** ** A window that cannot be built *)

Section NoWindow.
Context `{RT : PyRuntime} (env : Env).

Lemma no_window_fails dom today :
  no_window env dom -> today_dt env = Ok today -> is_ok (ts_domain_of dom today) = false.
Proof.
  intros [(s & Hs & Hp) | [(t & Ht & Hr) | Hd]] Htoday; unfold ts_domain_of.
  - unfold today_dt in Htoday. rewrite Hs in Htoday. simpl in Htoday.
    now rewrite Hp in Htoday.
  - rewrite Ht in Htoday. inversion Htoday; subst t. unfold minus_days, N_days, ordinal_min.
    destruct Hr as [Hr | Hr].
    + replace (1 <=? today - (14 - 1)) with false by lia. reflexivity.
    + destruct ((1 <=? today - (14 - 1)) && (today - (14 - 1) <=? ordinal_max));
        [|reflexivity].
      simpl. unfold ordinal_min.
      replace (today - -1 <=? ordinal_max) with false by lia.
      now rewrite andb_false_r.
  - destruct (minus_days today (N_days - 1)); [|reflexivity]. simpl.
    destruct (minus_days today (-1)); [|reflexivity]. simpl.
    now destruct dom.
Qed.

Lemma crm_no_window r dom :
  no_window env dom -> is_ok (LookerReport.time_series env r dom) = false.
Proof.
  intros Hw. unfold LookerReport.time_series.
  destruct (today_dt env) as [today|] eqn:Ht; [|reflexivity]. simpl.
  pose proof (no_window_fails dom today Hw Ht) as Hf.
  now destruct (ts_domain_of dom today).
Qed.

Lemma order_no_window r dom :
  no_window env dom -> is_ok (LookerOrderReport.time_series env r dom) = false.
Proof.
  intros Hw. unfold LookerOrderReport.time_series.
  destruct (today_dt env) as [today|] eqn:Ht; [|reflexivity]. simpl.
  pose proof (no_window_fails dom today Hw Ht) as Hf.
  now destruct (ts_domain_of dom today).
Qed.

End NoWindow.

(** X2. When the 14-day window cannot be built, because the context's
    today is a string that is no date, or lies within 13 days of [date.min]
    or on [date.max], or because the domain text evaluates to [None], a
    truth value or a number, [get_chart_data] gives the zeroed chart on both
    models, whatever the group part found. *)
Theorem X2_no_window_gives_empty_chart `{RT : PyRuntime} (env : Env) :
  (forall (r : LookerReport.report) dom,
     LookerReport._eval_domain env r = Ok dom ->
     no_window env dom ->
     LookerReport.get_chart_data env [r] = Ok empty_chart)
  /\ (forall (r : LookerOrderReport.report) dom,
     LookerOrderReport._eval_domain env r = Ok dom ->
     no_window env dom ->
     LookerOrderReport.get_chart_data env [r] = Ok empty_chart).
Proof.
  split; intros r dom Hdom Hw.
  - unfold LookerReport.get_chart_data. simpl. rewrite Hdom. simpl.
    unfold LookerReport.chart_body.
    destruct (LookerReport.group_part env r dom) as [[[l c] s]|]; [|reflexivity]. simpl.
    pose proof (crm_no_window env r dom Hw) as Hf.
    now destruct (LookerReport.time_series env r dom).
  - unfold LookerOrderReport.get_chart_data. simpl. rewrite Hdom. simpl.
    unfold LookerOrderReport.chart_body.
    destruct (LookerOrderReport.group_part env r dom) as [[[l c] s]|]; [|reflexivity]. simpl.
    pose proof (order_no_window env r dom Hw) as Hf.
    now destruct (LookerOrderReport.time_series env r dom).
Qed.

Section NoWindowRun.
#[local] Existing Instance QRuntime.runtime.

(** Witness of X2: today comes as the string [soon]. *)
Lemma X2_witness :
  LookerReport.get_chart_data MoreRuns.lost_env [Runs.success_only] = Ok empty_chart
  /\ LookerOrderReport.get_chart_data MoreRuns.lost_env [Runs.bare_order] = Ok empty_chart.
Proof.
  split.
  - apply (proj1 (X2_no_window_gives_empty_chart MoreRuns.lost_env)
             Runs.success_only (PList [])); [reflexivity|].
    left. exists "soon". split; reflexivity.
  - apply (proj2 (X2_no_window_gives_empty_chart MoreRuns.lost_env)
             Runs.bare_order (PList [])); [reflexivity|].
    left. exists "soon". split; reflexivity.
Defined.

End NoWindowRun.

(** ** Saving *)

Section Saving.
Context `{RT : PyRuntime} (env : Env).

Lemma crm_validate_all_rejects self l v :
  In v l -> lacks_a_field v -> is_ok (LookerReport.validate_all env self l) = false.
Proof.
  intros Hin Hv. induction l as [|a t IH]; [contradiction|]. simpl.
  destruct Hin as [-> | Hin].
  - unfold LookerReport.ensure_and_validate.
    replace (negb (py_truthy (row_get "group_field" v))
             || negb (py_truthy (row_get "value_field" v))) with true; [reflexivity|].
    destruct Hv as [-> | ->]; simpl; [reflexivity | now rewrite orb_true_r].
  - destruct (LookerReport.ensure_and_validate env self a); [|reflexivity]. simpl.
    specialize (IH Hin). now destruct (LookerReport.validate_all env self t).
Qed.

Lemma order_validate_all_rejects self l v :
  In v l -> lacks_a_field v -> is_ok (LookerOrderReport.validate_all env self l) = false.
Proof.
  intros Hin Hv. induction l as [|a t IH]; [contradiction|]. simpl.
  destruct Hin as [-> | Hin].
  - unfold LookerOrderReport.ensure_and_validate.
    replace (negb (py_truthy (row_get "group_field" v))
             || negb (py_truthy (row_get "value_field" v))) with true; [reflexivity|].
    destruct Hv as [-> | ->]; simpl; [reflexivity | now rewrite orb_true_r].
  - destruct (LookerOrderReport.ensure_and_validate env self a); [|reflexivity]. simpl.
    specialize (IH Hin). now destruct (LookerOrderReport.validate_all env self t).
Qed.

Lemma crm_set_absent_present k text (vals : gmap string pyval) :
  is_Some (vals !! k) -> LookerReport.set_absent k text vals = vals.
Proof. intros [x Hx]. unfold LookerReport.set_absent. now rewrite Hx. Qed.

Lemma order_set_absent_present k text (vals : gmap string pyval) :
  is_Some (vals !! k) -> LookerOrderReport.set_absent k text vals = vals.
Proof. intros [x Hx]. unfold LookerOrderReport.set_absent. now rewrite Hx. Qed.

Lemma filled_same_inputs (vals v' : gmap string pyval) pie bar line :
  descriptions_filled vals v' pie bar line -> same_inputs vals v'.
Proof.
  intros (_ & _ & _ & Hother).
  unfold same_inputs. rewrite !Hother; [easy | | |];
    unfold description_keys; rewrite !elem_of_cons, elem_of_nil; intros H;
    repeat destruct H as [H | H]; (discriminate H || exact H).
Qed.

End Saving.

(** X3. [create] on a list of dicts is all or nothing: if any dict of the
    list lacks [group_field] or [value_field], the call raises and the base
    [create] is never reached, so that the store is as it was, on both
    models. *)
Theorem X3_batch_create_is_all_or_nothing `{RT : PyRuntime} (env : Env) :
  (forall S (base : LookerReport.BaseModel S) st self l v,
     In v l -> lacks_a_field v ->
     exists e, LookerReport.create env base st self (LookerReport.ManyVals l) = (st, Raise e))
  /\ (forall S (base : LookerOrderReport.BaseModel S) st self l v,
     In v l -> lacks_a_field v ->
     exists e, LookerOrderReport.create env base st self (LookerOrderReport.ManyVals l)
               = (st, Raise e)).
Proof.
  split; intros S base st self l v Hin Hv; simpl.
  - pose proof (crm_validate_all_rejects env self l v Hin Hv) as Hf.
    destruct (LookerReport.validate_all env self l) as [|e]; [discriminate|]. now exists e.
  - pose proof (order_validate_all_rejects env self l v Hin Hv) as Hf.
    destruct (LookerOrderReport.validate_all env self l) as [|e]; [discriminate|]. now exists e.
Qed.

Section BatchRun.
#[local] Existing Instance QRuntime.runtime.

(** Witness of X3: a good dict followed by one without a value field. *)
Lemma X3_witness :
  (exists e, LookerReport.create Runs.shop_env Runs.lead_base ∅ []
               (LookerReport.ManyVals [Runs.lead_vals; Runs.clear_group]) = (∅, Raise e))
  /\ (exists e, LookerOrderReport.create Runs.shop_env Runs.order_base ∅ []
               (LookerOrderReport.ManyVals [Runs.order_vals; Runs.clear_group]) = (∅, Raise e)).
Proof.
  split.
  - apply (proj1 (X3_batch_create_is_all_or_nothing Runs.shop_env) _ Runs.lead_base ∅ []
             [Runs.lead_vals; Runs.clear_group] Runs.clear_group).
    + right. left. reflexivity.
    + left. reflexivity.
  - apply (proj2 (X3_batch_create_is_all_or_nothing Runs.shop_env) _ Runs.order_base ∅ []
             [Runs.order_vals; Runs.clear_group] Runs.clear_group).
    + right. left. reflexivity.
    + left. reflexivity.
Defined.

End BatchRun.

(** X4. [_ensure_auto_descriptions] is idempotent: run again on the dict it
    returned, it returns that dict unchanged, on both models.  (The texts
    depend on [group_field], [value_field] and [domain] only, which it
    leaves alone, and the three description keys are there after the first
    run.) *)
Theorem X4_ensure_auto_descriptions_idempotent `{RT : PyRuntime} (env : Env) :
  (forall (self : list LookerReport.report) (vals v' : gmap string pyval),
     LookerReport._ensure_auto_descriptions env self vals = Ok v' ->
     LookerReport._ensure_auto_descriptions env self v' = Ok v')
  /\ (forall (self : list LookerOrderReport.report) (vals v' : gmap string pyval),
     LookerOrderReport._ensure_auto_descriptions env self vals = Ok v' ->
     LookerOrderReport._ensure_auto_descriptions env self v' = Ok v').
Proof.
  split; intros self vals v' H.
  - unfold LookerReport._ensure_auto_descriptions in *.
    destruct (LookerReport.auto_descriptions env self vals) as [[[p b] l]|] eqn:Ha;
      [|discriminate].
    simpl in H. inversion H as [Hv]. clear H.
    pose proof (crm_filled vals p b l) as Hfill. rewrite Hv in Hfill |- *.
    rewrite <- (crm_same_inputs env self vals v' (filled_same_inputs _ _ _ _ _ Hfill)), Ha.
    simpl. destruct Hfill as (Hp & Hb & Hl & _).
    rewrite (crm_set_absent_present "pie_description") by (rewrite Hp; eauto).
    rewrite (crm_set_absent_present "bar_description") by (rewrite Hb; eauto).
    rewrite (crm_set_absent_present "line_description") by (rewrite Hl; eauto).
    reflexivity.
  - unfold LookerOrderReport._ensure_auto_descriptions in *.
    destruct (LookerOrderReport.auto_descriptions env self vals) as [[[p b] l]|] eqn:Ha;
      [|discriminate].
    simpl in H. inversion H as [Hv]. clear H.
    pose proof (order_filled vals p b l) as Hfill. rewrite Hv in Hfill |- *.
    rewrite <- (order_same_inputs env self vals v' (filled_same_inputs _ _ _ _ _ Hfill)), Ha.
    simpl. destruct Hfill as (Hp & Hb & Hl & _).
    rewrite (order_set_absent_present "pie_description") by (rewrite Hp; eauto).
    rewrite (order_set_absent_present "bar_description") by (rewrite Hb; eauto).
    rewrite (order_set_absent_present "line_description") by (rewrite Hl; eauto).
    reflexivity.
Qed.

Section IdempotentRun.
#[local] Existing Instance QRuntime.runtime.

(** Witness of X4: the dict of a caller who gave a pie description only. *)
Lemma X4_witness :
  (exists v',
     LookerReport._ensure_auto_descriptions Runs.shop_env [] Runs.lead_vals = Ok v'
     /\ LookerReport._ensure_auto_descriptions Runs.shop_env [] v' = Ok v')
  /\ (exists v',
     LookerOrderReport._ensure_auto_descriptions Runs.shop_env [] Runs.order_vals = Ok v'
     /\ LookerOrderReport._ensure_auto_descriptions Runs.shop_env [] v' = Ok v').
Proof.
  split; eexists; (split; [reflexivity|]).
  - apply (proj1 (X4_ensure_auto_descriptions_idempotent Runs.shop_env) [] Runs.lead_vals).
    reflexivity.
  - apply (proj2 (X4_ensure_auto_descriptions_idempotent Runs.shop_env) [] Runs.order_vals).
    reflexivity.
Defined.

End IdempotentRun.

(** ** The group part *)

Section GroupPart.
Context `{RT : PyRuntime} (env : Env).

Lemma crm_chart_of_parts r dom l c s ll lv :
  LookerReport._eval_domain env r = Ok dom ->
  LookerReport.group_part env r dom = Ok (l, c, s) ->
  LookerReport.time_series env r dom = Ok (ll, lv) ->
  LookerReport.get_chart_data env [r]
  = Ok {| labels := l; count_values := c; sum_values := s;
          line_labels := ll; line_values := lv |}.
Proof.
  intros Hdom Hg Ht. unfold LookerReport.get_chart_data. simpl. rewrite Hdom. simpl.
  unfold LookerReport.chart_body. rewrite Hg. simpl. rewrite Ht. reflexivity.
Qed.

Lemma order_chart_of_parts r dom l c s ll lv :
  LookerOrderReport._eval_domain env r = Ok dom ->
  LookerOrderReport.group_part env r dom = Ok (l, c, s) ->
  LookerOrderReport.time_series env r dom = Ok (ll, lv) ->
  LookerOrderReport.get_chart_data env [r]
  = Ok {| labels := l; count_values := c; sum_values := s;
          line_labels := ll; line_values := lv |}.
Proof.
  intros Hdom Hg Ht. unfold LookerOrderReport.get_chart_data. simpl. rewrite Hdom. simpl.
  unfold LookerOrderReport.chart_body. rewrite Hg. simpl. rewrite Ht. reflexivity.
Qed.

Lemma crm_parts_of_chart r dom c :
  LookerReport.chart_body env r dom = Ok c ->
  LookerReport.group_part env r dom = Ok (labels c, count_values c, sum_values c)
  /\ LookerReport.time_series env r dom = Ok (line_labels c, line_values c).
Proof.
  unfold LookerReport.chart_body. intros H.
  apply bind_Ok in H as ([[l cv] sv] & Hg & H).
  apply bind_Ok in H as ([ll lv] & Ht & H).
  inversion H; subst; simpl. now split.
Qed.

Lemma order_parts_of_chart r dom c :
  LookerOrderReport.chart_body env r dom = Ok c ->
  LookerOrderReport.group_part env r dom = Ok (labels c, count_values c, sum_values c)
  /\ LookerOrderReport.time_series env r dom = Ok (line_labels c, line_values c).
Proof.
  unfold LookerOrderReport.chart_body. intros H.
  apply bind_Ok in H as ([[l cv] sv] & Hg & H).
  apply bind_Ok in H as ([ll lv] & Ht & H).
  inversion H; subst; simpl. now split.
Qed.

Lemma crm_chart_of_body r dom c :
  LookerReport._eval_domain env r = Ok dom ->
  LookerReport.chart_body env r dom = Ok c ->
  LookerReport.get_chart_data env [r] = Ok c.
Proof.
  intros Hdom Hb. unfold LookerReport.get_chart_data. simpl. rewrite Hdom. simpl.
  now rewrite Hb.
Qed.

Lemma order_chart_of_body r dom c :
  LookerOrderReport._eval_domain env r = Ok dom ->
  LookerOrderReport.chart_body env r dom = Ok c ->
  LookerOrderReport.get_chart_data env [r] = Ok c.
Proof.
  intros Hdom Hb. unfold LookerOrderReport.get_chart_data. simpl. rewrite Hdom. simpl.
  now rewrite Hb.
Qed.

(** The branch an order report takes. *)
Lemma order_group_part_plain r dom gf :
  LookerOrderReport.group_field r = Some gf ->
  field_set (Some gf) = true ->
  gf <> "date_order_weekday" ->
  has_dot gf = false ->
  LookerOrderReport.group_part env r dom = LookerOrderReport.plain_part env r dom gf.
Proof.
  intros Hgf Hset Hwd Hdot. unfold LookerOrderReport.group_part. rewrite Hgf.
  rewrite bool_decide_eq_false_2 by congruence.
  simpl. rewrite Hdot, andb_false_r. now rewrite Hset.
Qed.

Lemma order_group_part_relational r dom gf :
  LookerOrderReport.group_field r = Some gf ->
  has_dot gf = true ->
  LookerOrderReport.group_part env r dom = LookerOrderReport.relational_part env r dom gf.
Proof.
  intros Hgf Hdot. unfold LookerOrderReport.group_part. rewrite Hgf.
  rewrite has_dot_not_weekday by exact Hdot.
  rewrite has_dot_field_set by exact Hdot. simpl. now rewrite Hdot.
Qed.

Lemma order_group_part_total r dom :
  field_set (LookerOrderReport.group_field r) = false ->
  LookerOrderReport.group_part env r dom = LookerOrderReport.total_part env r dom.
Proof.
  intros Hset. unfold LookerOrderReport.group_part.
  rewrite bool_decide_eq_false_2.
  2:{ intros Heq. now rewrite Heq in Hset. }
  now rewrite Hset.
Qed.

End GroupPart.

(** X5. A report without a group field shows a single entry [All] with the
    number of records that match the domain.  Its sum is that same number
    when no value field is set; with a value field it is the value of the
    first row of the ungrouped [read_group], and [0.0] when that gives no
    row or an empty value.  On both models, on a run where [search_count],
    that [read_group] and the time series raise nothing. *)
Theorem X5_no_group_field_gives_one_entry `{RT : PyRuntime} (env : Env) :
  (forall (r : LookerReport.report) dom total ll lv,
     field_set (LookerReport.group_field r) = false ->
     LookerReport._eval_domain env r = Ok dom ->
     search_count env LookerReport.model dom = Ok total ->
     LookerReport.time_series env r dom = Ok (ll, lv) ->
     (field_set (LookerReport.value_field r) = false ->
      LookerReport.get_chart_data env [r]
      = Ok {| labels := ["All"]; count_values := [PInt total]; sum_values := [PInt total];
              line_labels := ll; line_values := lv |})
     /\ (forall rows,
           field_set (LookerReport.value_field r) = true ->
           read_group env LookerReport.model dom [default "" (LookerReport.value_field r)] []
           = Ok rows ->
           LookerReport.get_chart_data env [r]
           = Ok {| labels := ["All"]; count_values := [PInt total];
                   sum_values := [total_value (default "" (LookerReport.value_field r)) rows];
                   line_labels := ll; line_values := lv |}))
  /\ (forall (r : LookerOrderReport.report) dom total ll lv,
     field_set (LookerOrderReport.group_field r) = false ->
     LookerOrderReport._eval_domain env r = Ok dom ->
     search_count env LookerOrderReport.model dom = Ok total ->
     LookerOrderReport.time_series env r dom = Ok (ll, lv) ->
     (field_set (LookerOrderReport.value_field r) = false ->
      LookerOrderReport.get_chart_data env [r]
      = Ok {| labels := ["All"]; count_values := [PInt total]; sum_values := [PInt total];
              line_labels := ll; line_values := lv |})
     /\ (forall rows,
           field_set (LookerOrderReport.value_field r) = true ->
           read_group env LookerOrderReport.model dom
             [default "" (LookerOrderReport.value_field r)] [] = Ok rows ->
           LookerOrderReport.get_chart_data env [r]
           = Ok {| labels := ["All"]; count_values := [PInt total];
                   sum_values :=
                     [total_value (default "" (LookerOrderReport.value_field r)) rows];
                   line_labels := ll; line_values := lv |})).
Proof.
  split; intros r dom total ll lv Hgf Hdom Hcount Ht.
  - split.
    + intros Hvf. apply (crm_chart_of_parts env r dom); [exact Hdom | | exact Ht].
      unfold LookerReport.group_part. rewrite Hgf, Hcount. simpl. now rewrite Hvf.
    + intros rows Hvf Hrows. apply (crm_chart_of_parts env r dom); [exact Hdom | | exact Ht].
      unfold LookerReport.group_part. rewrite Hgf, Hcount. simpl. rewrite Hvf, Hrows.
      simpl. destruct rows; [unfold py_or; now destruct (py_truthy _)|reflexivity].
  - split.
    + intros Hvf. apply (order_chart_of_parts env r dom); [exact Hdom | | exact Ht].
      rewrite order_group_part_total by exact Hgf.
      unfold LookerOrderReport.total_part. rewrite Hcount. simpl. now rewrite Hvf.
    + intros rows Hvf Hrows. apply (order_chart_of_parts env r dom); [exact Hdom | | exact Ht].
      rewrite order_group_part_total by exact Hgf.
      unfold LookerOrderReport.total_part. rewrite Hcount. simpl. rewrite Hvf, Hrows.
      simpl. destruct rows; [unfold py_or; now destruct (py_truthy _)|reflexivity].
Qed.

Section TotalsRun.
#[local] Existing Instance QRuntime.runtime.

(** Witness of X5: the two reports with nothing set, on the host with no
    data. *)
Lemma X5_witness :
  LookerReport.get_chart_data Runs.quiet_env [Runs.success_only]
  = Ok {| labels := ["All"]; count_values := [PInt 0]; sum_values := [PInt 0];
          line_labels := line_labels Runs.success_only_chart;
          line_values := line_values Runs.success_only_chart |}
  /\ LookerOrderReport.get_chart_data Runs.quiet_env [Runs.bare_order]
     = Ok {| labels := ["All"]; count_values := [PInt 0]; sum_values := [PInt 0];
             line_labels := line_labels Runs.bare_order_chart;
             line_values := line_values Runs.bare_order_chart |}.
Proof.
  split.
  - apply (proj1 (proj1 (X5_no_group_field_gives_one_entry Runs.quiet_env)
                    Runs.success_only (PList []) 0
                    (line_labels Runs.success_only_chart)
                    (line_values Runs.success_only_chart)
                    eq_refl eq_refl eq_refl eq_refl)).
    reflexivity.
  - apply (proj1 (proj2 (X5_no_group_field_gives_one_entry Runs.quiet_env)
                    Runs.bare_order (PList []) 0
                    (line_labels Runs.bare_order_chart)
                    (line_values Runs.bare_order_chart)
                    eq_refl eq_refl eq_refl eq_refl)).
    reflexivity.
Defined.

End TotalsRun.

(** ** Reads that fail *)

Section FailedReads.
Context `{RT : PyRuntime} (env : Env).

Lemma failed_read {A} (m : res (list A)) :
  is_ok m = false -> try_except m (fun _ => Ok []) = Ok [].
Proof. now destruct m. Qed.

Lemma top_n_nil limit by_sum : top_n limit by_sum [] = Ok [].
Proof.
  unfold top_n. simpl. destruct (_ && _); [|reflexivity]. now rewrite take_nil.
Qed.

Lemma split_dot_plain s : has_dot s = false -> split_dot s = [s].
Proof.
  induction s as [|c t IH]; simpl; [reflexivity|].
  destruct (Ascii.eqb c "."); simpl; [discriminate|].
  intros H. now rewrite (IH H).
Qed.

Lemma top_of_plain s : has_dot s = false -> top_of s = s.
Proof. intros H. unfold top_of. now rewrite split_dot_plain. Qed.

Lemma crm_failed_grouping r dom gf :
  grouping_fails env LookerReport.model dom gf ->
  LookerReport.group_entries env r dom gf = Ok [].
Proof.
  intros Hf. unfold LookerReport.group_entries.
  rewrite (failed_read _ (Hf [gf])). simpl.
  destruct (field_set (LookerReport.value_field r)); [|reflexivity].
  now rewrite (failed_read _ (Hf [gf; _])).
Qed.

Lemma order_failed_plain r dom gf :
  grouping_fails env LookerOrderReport.model dom gf ->
  LookerOrderReport.plain_part env r dom gf = Ok ([], [], []).
Proof.
  intros Hf. unfold LookerOrderReport.plain_part.
  rewrite (failed_read _ (Hf [gf])). simpl.
  destruct (field_set (LookerOrderReport.value_field r)); [|reflexivity].
  now rewrite (failed_read _ (Hf [gf; _])).
Qed.

Lemma order_failed_relational r dom gf :
  grouping_fails env LookerOrderReport.model dom (top_of gf) ->
  LookerOrderReport.relational_part env r dom gf = Ok ([], [], []).
Proof.
  intros Hf. unfold LookerOrderReport.relational_part, LookerOrderReport.relational_entries.
  fold (top_of gf).
  unfold LookerOrderReport.top_groups, LookerOrderReport.top_sums.
  rewrite (failed_read _ (Hf [top_of gf])). simpl.
  destruct (field_set (LookerOrderReport.value_field r)).
  - rewrite (failed_read _ (Hf [top_of gf; _])). simpl. now rewrite top_n_nil.
  - simpl. now rewrite top_n_nil.
Qed.

End FailedReads.

(** X6. When the [read_group] calls by the group field raise, the inner
    [try] steps in: the chart has no group entries, and its time series is
    computed all the same (14 days), so that the result is not the zeroed
    chart.  For a lead report with a group field, and for an order report
    with a group field other than the weekday (read by the part of the field
    before its first dot). *)
Theorem X6_failed_grouping_keeps_time_series `{RT : PyRuntime} (env : Env) :
  (forall (r : LookerReport.report) dom ll lv,
     field_set (LookerReport.group_field r) = true ->
     LookerReport._eval_domain env r = Ok dom ->
     grouping_fails env LookerReport.model dom (default "" (LookerReport.group_field r)) ->
     LookerReport.time_series env r dom = Ok (ll, lv) ->
     LookerReport.get_chart_data env [r]
     = Ok {| labels := []; count_values := []; sum_values := [];
             line_labels := ll; line_values := lv |}
     /\ length ll = 14%nat /\ length lv = 14%nat)
  /\ (forall (r : LookerOrderReport.report) dom gf ll lv,
     LookerOrderReport.group_field r = Some gf ->
     field_set (Some gf) = true ->
     gf <> "date_order_weekday" ->
     LookerOrderReport._eval_domain env r = Ok dom ->
     grouping_fails env LookerOrderReport.model dom (top_of gf) ->
     LookerOrderReport.time_series env r dom = Ok (ll, lv) ->
     LookerOrderReport.get_chart_data env [r]
     = Ok {| labels := []; count_values := []; sum_values := [];
             line_labels := ll; line_values := lv |}
     /\ length ll = 14%nat /\ length lv = 14%nat).
Proof.
  split.
  - intros r dom ll lv Hgf Hdom Hf Ht.
    split; [|exact (crm_time_series_lengths env r dom ll lv Ht)].
    apply (crm_chart_of_parts env r dom); [exact Hdom | | exact Ht].
    unfold LookerReport.group_part. rewrite Hgf.
    rewrite crm_failed_grouping by exact Hf. simpl. now rewrite top_n_nil.
  - intros r dom gf ll lv Hgf Hset Hwd Hdom Hf Ht.
    split; [|exact (order_time_series_lengths env r dom ll lv Ht)].
    apply (order_chart_of_parts env r dom); [exact Hdom | | exact Ht].
    destruct (has_dot gf) eqn:Hdot.
    + rewrite (order_group_part_relational env r dom gf Hgf Hdot).
      now apply order_failed_relational.
    + rewrite (order_group_part_plain env r dom gf Hgf Hset Hwd Hdot).
      apply order_failed_plain. now rewrite <- (top_of_plain gf Hdot).
Qed.

Section FailedGroupingRun.
#[local] Existing Instance QRuntime.runtime.

(** Witness of X6: the lead report by stage and the order report by the
    customer's country, on the host whose reads by a field raise. *)
Lemma X6_witness :
  (LookerReport.get_chart_data MoreRuns.no_groups_env [Runs.lead_by_stage]
   = Ok {| labels := []; count_values := []; sum_values := [];
           line_labels := line_labels MoreRuns.no_groups_lead_chart;
           line_values := line_values MoreRuns.no_groups_lead_chart |}
   /\ length (line_labels MoreRuns.no_groups_lead_chart) = 14%nat
   /\ length (line_values MoreRuns.no_groups_lead_chart) = 14%nat)
  /\ (LookerOrderReport.get_chart_data MoreRuns.no_groups_env [Runs.order_by_country]
   = Ok {| labels := []; count_values := []; sum_values := [];
           line_labels := line_labels MoreRuns.no_groups_order_chart;
           line_values := line_values MoreRuns.no_groups_order_chart |}
   /\ length (line_labels MoreRuns.no_groups_order_chart) = 14%nat
   /\ length (line_values MoreRuns.no_groups_order_chart) = 14%nat).
Proof.
  split.
  - apply (proj1 (X6_failed_grouping_keeps_time_series MoreRuns.no_groups_env)
             Runs.lead_by_stage (PList [])); try reflexivity.
    intros flds. reflexivity.
  - apply (proj2 (X6_failed_grouping_keeps_time_series MoreRuns.no_groups_env)
             Runs.order_by_country (PList []) "partner_id.country_id"); try reflexivity.
    + discriminate.
    + intros flds. reflexivity.
Defined.

End FailedGroupingRun.

Section FailedDays.
Context `{RT : PyRuntime} {HL : RuntimeLaws} (env : Env).

Lemma minus_days_in_range d k :
  ordinal_min <= d - k <= ordinal_max -> minus_days d k = Ok (d - k).
Proof.
  intros H. unfold minus_days.
  replace ((ordinal_min <=? d - k) && (d - k <=? ordinal_max)) with true; [reflexivity|].
  symmetry. apply andb_true_intro. split; apply Z.leb_le; lia.
Qed.

Lemma window_bounds dom today tsd :
  ts_domain_of dom today = Ok tsd ->
  ordinal_min <= today - 13 /\ today + 1 <= ordinal_max.
Proof.
  unfold ts_domain_of. intros H.
  apply bind_Ok in H as (start & Hs & H). apply bind_Ok in H as (stop & He & _).
  unfold minus_days, N_days in Hs, He.
  destruct ((ordinal_min <=? today - (14 - 1)) && _) eqn:H1; [|discriminate].
  destruct ((ordinal_min <=? today - -1) && _) eqn:H2; [|discriminate].
  apply andb_true_iff in H1 as [H1 _]. apply andb_true_iff in H2 as [_ H2].
  apply Z.leb_le in H1, H2. lia.
Qed.

Lemma line_loop_const today (value_of : string -> res pyval) v offs :
  (forall s, value_of s = Ok v) ->
  Forall (fun i => ordinal_min <= today - (N_days - 1 - i) <= ordinal_max) offs ->
  forall la va,
    for_each (fun acc i =>
        day_dt ← minus_days today (N_days - 1 - i);
        let day_str := strftime_ymd day_dt in
        v ← value_of day_str;
        Ok (acc.1 ++ [day_str], acc.2 ++ [v])) (la, va) offs
    = Ok (la ++ map (day_label today) offs, va ++ map (fun _ => v) offs).
Proof.
  intros Hv Hall. induction Hall as [|i offs Hi _ IH]; intros la va.
  - simpl. now rewrite !app_nil_r.
  - cbn [for_each]. rewrite (minus_days_in_range _ _ Hi). simpl. rewrite Hv. simpl.
    rewrite IH. unfold day_label. now rewrite <- !app_assoc.
Qed.

Lemma day_offsets_in_window today :
  ordinal_min <= today - 13 -> today <= ordinal_max ->
  Forall (fun i => ordinal_min <= today - (N_days - 1 - i) <= ordinal_max) day_offsets.
Proof.
  intros Hlo Hhi. unfold N_days.
  change day_offsets with (map Z.of_nat (seq 0 14)).
  apply Forall_forall. intros i Hi.
  apply list_elem_of_In, in_map_iff in Hi as (k & <- & Hk). apply in_seq in Hk. lia.
Qed.

Lemma line_series_const today (value_of : string -> res pyval) v :
  ordinal_min <= today - 13 -> today <= ordinal_max ->
  (forall s, value_of s = Ok v) ->
  line_series today value_of = Ok (map strftime_ymd (last_days today), replicate 14 v).
Proof.
  intros Hlo Hhi Hv. unfold line_series.
  rewrite (line_loop_const today value_of v day_offsets Hv
             (day_offsets_in_window today Hlo Hhi)).
  rewrite !app_nil_l, day_labels_last_days. reflexivity.
Qed.

Lemma read_ts_failed model tsd vf :
  ts_read_fails env model -> read_ts_groups env model tsd vf = Ok [].
Proof.
  intros Hf. unfold read_ts_groups. apply failed_read. destruct (field_set vf); apply Hf.
Qed.

Lemma crm_time_series_failed_read r dom today tsd sd :
  today_dt env = Ok today ->
  ts_domain_of dom today = Ok tsd ->
  LookerReport.success_dom_of env r = Ok sd ->
  ts_read_fails env LookerReport.model ->
  LookerReport.time_series env r dom
  = Ok (map strftime_ymd (last_days today), replicate 14 (crm_default r sd)).
Proof.
  intros Htoday Htsd Hsd Hf. unfold LookerReport.time_series.
  rewrite Htoday. simpl. rewrite Htsd. simpl.
  rewrite (read_ts_failed _ _ _ Hf). simpl. rewrite Hsd. simpl.
  destruct (window_bounds dom today tsd Htsd) as [Hlo Hhi].
  unfold crm_default. destruct (py_truthy sd) eqn:Htruthy; simpl.
  - rewrite failed_read.
    2:{ destruct (py_list sd); simpl; [apply Hf | reflexivity]. }
    simpl. apply line_series_const; [lia | lia |].
    intros s. now apply percentage_missing.
  - apply line_series_const; [lia | lia |].
    intros s. unfold row_get_default. rewrite lookup_empty. simpl.
    now destruct (field_set (LookerReport.value_field r)).
Qed.

Lemma order_time_series_failed_read r dom today tsd :
  today_dt env = Ok today ->
  ts_domain_of dom today = Ok tsd ->
  ts_read_fails env LookerOrderReport.model ->
  LookerOrderReport.time_series env r dom
  = Ok (map strftime_ymd (last_days today), replicate 14 (order_default r)).
Proof.
  intros Htoday Htsd Hf. unfold LookerOrderReport.time_series.
  rewrite Htoday. simpl. rewrite Htsd. simpl.
  rewrite (read_ts_failed _ _ _ Hf). simpl.
  destruct (window_bounds dom today tsd Htsd) as [Hlo Hhi].
  apply line_series_const; [lia | lia |].
  intros s. unfold row_get_default, order_default. rewrite lookup_empty. simpl.
  now destruct (field_set (LookerOrderReport.value_field r)).
Qed.

End FailedDays.

(** X7. When every [read_group] by day raises, the inner [try] of the time
    series steps in and the chart still comes with its group part: the line
    labels are the last 14 days and every line value is the default of a day
    without records ([0], or [0.0] with a value field or a success domain in
    force).  On both models, once the group part is there and the window can
    be built; nothing else is asked of the time series. *)
Theorem X7_failed_day_reads_give_defaults `{RT : PyRuntime} {HL : RuntimeLaws} (env : Env) :
  (forall (r : LookerReport.report) dom today tsd sd l c s,
     LookerReport._eval_domain env r = Ok dom ->
     LookerReport.group_part env r dom = Ok (l, c, s) ->
     today_dt env = Ok today ->
     ts_domain_of dom today = Ok tsd ->
     LookerReport.success_dom_of env r = Ok sd ->
     ts_read_fails env LookerReport.model ->
     LookerReport.get_chart_data env [r]
     = Ok {| labels := l; count_values := c; sum_values := s;
             line_labels := map strftime_ymd (last_days today);
             line_values := replicate 14 (crm_default r sd) |})
  /\ (forall (r : LookerOrderReport.report) dom today tsd l c s,
     LookerOrderReport._eval_domain env r = Ok dom ->
     LookerOrderReport.group_part env r dom = Ok (l, c, s) ->
     today_dt env = Ok today ->
     ts_domain_of dom today = Ok tsd ->
     ts_read_fails env LookerOrderReport.model ->
     LookerOrderReport.get_chart_data env [r]
     = Ok {| labels := l; count_values := c; sum_values := s;
             line_labels := map strftime_ymd (last_days today);
             line_values := replicate 14 (order_default r) |}).
Proof.
  split.
  - intros r dom today tsd sd l c s Hdom Hg Htoday Htsd Hsd Hf.
    apply (crm_chart_of_parts env r dom); [exact Hdom | exact Hg |].
    now apply (crm_time_series_failed_read env r dom today tsd sd).
  - intros r dom today tsd l c s Hdom Hg Htoday Htsd Hf.
    apply (order_chart_of_parts env r dom); [exact Hdom | exact Hg |].
    now apply (order_time_series_failed_read env r dom today tsd).
Qed.

Section FailedDaysRun.
#[local] Existing Instance QRuntime.runtime.

(** Witness of X7: the lead report by stage and the order report by
    customer, on the host whose reads by day raise. *)
Lemma X7_witness :
  LookerReport.get_chart_data MoreRuns.no_days_env [Runs.lead_by_stage]
  = Ok {| labels := labels MoreRuns.no_days_lead_chart;
          count_values := count_values MoreRuns.no_days_lead_chart;
          sum_values := sum_values MoreRuns.no_days_lead_chart;
          line_labels := map strftime_ymd (last_days 739923);
          line_values := replicate 14 (crm_default Runs.lead_by_stage Runs.one_condition) |}
  /\ LookerOrderReport.get_chart_data MoreRuns.no_days_env [Runs.order_by_customer]
     = Ok {| labels := labels MoreRuns.no_days_order_chart;
             count_values := count_values MoreRuns.no_days_order_chart;
             sum_values := sum_values MoreRuns.no_days_order_chart;
             line_labels := map strftime_ymd (last_days 739923);
             line_values := replicate 14 (order_default Runs.order_by_customer) |}.
Proof.
  split.
  - apply (proj1 (@X7_failed_day_reads_give_defaults QRuntime.runtime q_runtime_laws
                    MoreRuns.no_days_env)
             Runs.lead_by_stage (PList []) 739923 Runs.window Runs.one_condition);
      try reflexivity.
    intros dom flds. reflexivity.
  - apply (proj2 (@X7_failed_day_reads_give_defaults QRuntime.runtime q_runtime_laws
                    MoreRuns.no_days_env)
             Runs.order_by_customer (PList []) 739923 Runs.window); try reflexivity.
    intros dom flds. reflexivity.
Defined.

End FailedDaysRun.

(** ** Entries without a limit and without a value field *)

Section PlainBranch.
Context `{RT : PyRuntime} (env : Env).

Lemma plain_loop r gf sm groups :
  forall la ca sa l c s,
    for_each (fun acc g =>
                '(l, c, s) ← LookerOrderReport.plain_row r gf sm g;
                Ok (acc.1.1 ++ [l], acc.1.2 ++ [c], acc.2 ++ [s]))
             (la, ca, sa) groups = Ok (l, c, s) ->
    exists xs,
      Forall2 (fun g x => LookerOrderReport.plain_row r gf sm g = Ok x) groups xs
      /\ l = la ++ map (fun x => x.1.1) xs
      /\ c = ca ++ map (fun x => x.1.2) xs
      /\ s = sa ++ map (fun x => x.2) xs.
Proof.
  induction groups as [|g t IH]; intros la ca sa l c s H; simpl in H.
  - inversion H; subst. exists []. rewrite !app_nil_r. now repeat split.
  - destruct (LookerOrderReport.plain_row r gf sm g) as [[[l1 c1] s1]|] eqn:Hrow;
      [|discriminate].
    simpl in H. apply IH in H as (xs & Hall & -> & -> & ->).
    exists ((l1, c1, s1) :: xs). simpl. rewrite <- !app_assoc. simpl.
    repeat split. now constructor.
Qed.

Lemma plain_part_rows r dom gf l c s :
  LookerOrderReport.plain_part env r dom gf = Ok (l, c, s) ->
  exists groups sm xs,
    try_except (read_group env LookerOrderReport.model dom [gf] [gf]) (fun _ => Ok [])
    = Ok groups
    /\ (field_set (LookerOrderReport.value_field r) = false -> sm = [])
    /\ Forall2 (fun g x => LookerOrderReport.plain_row r gf sm g = Ok x) groups xs
    /\ l = map (fun x => x.1.1) xs /\ c = map (fun x => x.1.2) xs /\ s = map (fun x => x.2) xs.
Proof.
  unfold LookerOrderReport.plain_part. intros H.
  apply bind_Ok in H as (groups & Hgroups & H).
  apply bind_Ok in H as (sm & Hsm & H).
  apply plain_loop in H as (xs & Hall & -> & -> & ->).
  exists groups, sm, xs. repeat split; try assumption.
  intros Hvf. rewrite Hvf in Hsm. now inversion Hsm.
Qed.

Lemma second_or_self_label key : py_str (second_or_self key) = stated_label key.
Proof.
  unfold second_or_self, stated_label, py_or.
  destruct key as [|b|z|f|s|l|l]; simpl;
    try (destruct l as [|x [|y t]]; simpl; reflexivity);
    try reflexivity;
    match goal with |- context [if ?c then _ else _] => now destruct c end.
Qed.

Lemma plain_row_shows r gf sm g x :
  LookerOrderReport.plain_row r gf sm g = Ok x ->
  x.1.1 = group_label gf g /\ x.1.2 = group_count g.
Proof.
  unfold LookerOrderReport.plain_row. intros H.
  apply bind_Ok in H as (gid & _ & H). apply bind_Ok in H as (sval & _ & H).
  apply bind_Ok in H as (f & _ & H). inversion H; subst.
  split; [apply second_or_self_label | reflexivity].
Qed.

Lemma plain_row_without_value r gf g x :
  field_set (LookerOrderReport.value_field r) = false ->
  LookerOrderReport.plain_row r gf [] g = Ok x ->
  float_of_count_or_zero x.1.2 x.2.
Proof.
  unfold LookerOrderReport.plain_row. intros Hvf H.
  apply bind_Ok in H as (gid & _ & H). apply bind_Ok in H as (sval & Hsval & H).
  apply bind_Ok in H as (f & Hf & H). inversion H; subst. simpl.
  rewrite Hvf in Hsval. unfold pd_get in Hsval.
  apply bind_Ok in Hsval as (u & _ & Hsval). simpl in Hsval. inversion Hsval; subst.
  now exists f.
Qed.

Lemma crm_entry_without_value r gf g e :
  field_set (LookerReport.value_field r) = false ->
  LookerReport.entry_of r gf [] g = Ok e ->
  float_of_count (e_count e) (PFloat (e_sum e)).
Proof.
  unfold LookerReport.entry_of. intros Hvf H.
  apply bind_Ok in H as (gid & _ & H). apply bind_Ok in H as (sval & Hsval & H).
  apply bind_Ok in H as (f & Hf & H). inversion H; subst. simpl.
  rewrite Hvf in Hsval. unfold pd_get in Hsval.
  apply bind_Ok in Hsval as (u & _ & Hsval). simpl in Hsval. inversion Hsval; subst.
  now exists f.
Qed.

Lemma insert_desc_perm {A} (key : A -> pyval) x l l' :
  insert_desc key x l = Ok l' -> Permutation (x :: l) l'.
Proof.
  revert l'. induction l as [|y t IH]; intros l' H; simpl in H.
  - now inversion H.
  - apply bind_Ok in H as (b & _ & H). destruct b.
    + apply bind_Ok in H as (t' & Ht & H). inversion H; subst.
      rewrite perm_swap. constructor. now apply IH.
    + now inversion H.
Qed.

Lemma sorted_desc_perm {A} (key : A -> pyval) l l' :
  sorted_desc key l = Ok l' -> Permutation l l'.
Proof.
  revert l'. induction l as [|x t IH]; intros l' H; simpl in H.
  - now inversion H.
  - apply bind_Ok in H as (t' & Ht & H). apply insert_desc_perm in H.
    rewrite <- H. constructor. now apply IH.
Qed.

(** The limit only ever leaves entries out. *)
Lemma top_n_subset limit by_sum es es' :
  top_n limit by_sum es = Ok es' -> forall e, In e es' -> In e es.
Proof.
  unfold top_n. intros H e He. destruct (_ && _).
  - apply bind_Ok in H as (l & Hl & H). inversion H; subst.
    apply sorted_desc_perm in Hl. apply (Permutation_in _ (Permutation_sym Hl)).
    rewrite <- (take_drop (Z.to_nat (limit_n_of limit)) l). apply in_or_app. now left.
  - now inversion H; subst.
Qed.

Lemma Forall2_map_same {A B} (P : B -> B -> Prop) (f g : A -> B) l :
  Forall (fun a => P (f a) (g a)) l -> Forall2 P (map f l) (map g l).
Proof. induction 1; simpl; now constructor. Qed.

End PlainBranch.

(** X8. An order report grouped by a plain field (no dot, not the weekday)
    shows one entry per group of [read_group], in its order, whatever its
    [limit]: this branch neither sorts nor cuts.  The label of an entry is
    the name of the [(id, name)] pair the group has under the group field,
    [Undefined] when the group has an empty key there, and else the key as
    text; its count is the [__count] of the group.  On every run whose body
    raises nothing. *)
Theorem X8_plain_branch_one_entry_per_group `{RT : PyRuntime} (env : Env)
    (r : LookerOrderReport.report) (dom : pyval) (gf : string)
    (groups : list (gmap string pyval)) (c : chart) :
  LookerOrderReport.group_field r = Some gf ->
  field_set (Some gf) = true ->
  gf <> "date_order_weekday" ->
  has_dot gf = false ->
  LookerOrderReport._eval_domain env r = Ok dom ->
  try_except (read_group env LookerOrderReport.model dom [gf] [gf]) (fun _ => Ok [])
  = Ok groups ->
  LookerOrderReport.chart_body env r dom = Ok c ->
  LookerOrderReport.get_chart_data env [r] = Ok c
  /\ labels c = map (group_label gf) groups
  /\ count_values c = map group_count groups.
Proof.
  intros Hgf Hset Hwd Hdot Hdom Hgroups Hbody.
  split; [now apply (order_chart_of_body env r dom)|].
  apply order_parts_of_chart in Hbody as [Hg _].
  rewrite (order_group_part_plain env r dom gf Hgf Hset Hwd Hdot) in Hg.
  apply plain_part_rows in Hg as (groups' & sm & xs & Hgroups' & _ & Hall & -> & -> & _).
  rewrite Hgroups in Hgroups'. inversion Hgroups'; subst groups'. clear Hgroups Hgroups'.
  induction Hall as [|g x gs xs Hx _ IH]; simpl; [now split|].
  apply plain_row_shows in Hx as [-> ->]. destruct IH as [-> ->]. now split.
Qed.

Section PlainBranchRun.
#[local] Existing Instance QRuntime.runtime.

(** Witness of X8: the order report by customer, with its limit of two
    rows and its four groups, the last of them without a customer. *)
Lemma X8_witness :
  LookerOrderReport.get_chart_data Runs.shop_env [Runs.order_by_customer]
  = Ok Runs.customer_chart
  /\ labels Runs.customer_chart = ["Azure"; "Deco"; "Gemini"; "Undefined"]
  /\ count_values Runs.customer_chart = [PInt 2; PInt 1; PInt 4; PInt 1].
Proof.
  destruct (X8_plain_branch_one_entry_per_group Runs.shop_env Runs.order_by_customer
              (PList []) "partner_id" Runs.order_groups Runs.customer_chart
              eq_refl eq_refl ltac:(discriminate) eq_refl eq_refl eq_refl eq_refl)
    as (Hrun & Hlabels & Hcounts).
  split; [exact Hrun|]. split; [rewrite Hlabels | rewrite Hcounts]; reflexivity.
Defined.

End PlainBranchRun.

(** X9. Without a value field the sum of an entry is its count as a float:
    [float(cnt)] for each entry of a lead report with a group field (also
    when the limit cuts the list), and [float(cnt or 0.0)] for each entry of
    an order report grouped by a plain field.  On every run whose body
    raises nothing. *)
Theorem X9_sum_is_count_without_value_field `{RT : PyRuntime} (env : Env) :
  (forall (r : LookerReport.report) dom c,
     field_set (LookerReport.group_field r) = true ->
     field_set (LookerReport.value_field r) = false ->
     LookerReport._eval_domain env r = Ok dom ->
     LookerReport.chart_body env r dom = Ok c ->
     LookerReport.get_chart_data env [r] = Ok c
     /\ Forall2 float_of_count (count_values c) (sum_values c))
  /\ (forall (r : LookerOrderReport.report) dom gf c,
     LookerOrderReport.group_field r = Some gf ->
     field_set (Some gf) = true ->
     gf <> "date_order_weekday" ->
     has_dot gf = false ->
     field_set (LookerOrderReport.value_field r) = false ->
     LookerOrderReport._eval_domain env r = Ok dom ->
     LookerOrderReport.chart_body env r dom = Ok c ->
     LookerOrderReport.get_chart_data env [r] = Ok c
     /\ Forall2 float_of_count_or_zero (count_values c) (sum_values c)).
Proof.
  split.
  - intros r dom c Hgf Hvf Hdom Hbody.
    split; [now apply (crm_chart_of_body env r dom)|].
    apply crm_parts_of_chart in Hbody as [Hg _].
    unfold LookerReport.group_part in Hg. rewrite Hgf in Hg.
    apply bind_Ok in Hg as (es & Hes & Hg). apply bind_Ok in Hg as (es' & Hes' & Hg).
    inversion Hg as [[Hl Hc Hs]]. clear Hg.
    apply (Forall2_map_same float_of_count e_count (fun e => PFloat (e_sum e))).
    apply Forall_forall. intros e He. apply list_elem_of_In in He.
    apply (top_n_subset _ _ _ _ Hes') in He.
    unfold LookerReport.group_entries in Hes. rewrite Hvf in Hes.
    apply bind_Ok in Hes as (groups & _ & Hes). simpl in Hes.
    apply for_each_collect in Hes as (es0 & -> & Hall). simpl in He.
    apply list_elem_of_In in He.
    destruct (list_elem_of_lookup_1 _ _ He) as (i & Hi).
    destruct (Forall2_lookup_r _ _ _ _ _ Hall Hi) as (g & _ & Hg).
    exact (crm_entry_without_value r _ g e Hvf Hg).
  - intros r dom gf c Hgf Hset Hwd Hdot Hvf Hdom Hbody.
    split; [now apply (order_chart_of_body env r dom)|].
    apply order_parts_of_chart in Hbody as [Hg _].
    rewrite (order_group_part_plain env r dom gf Hgf Hset Hwd Hdot) in Hg.
    apply plain_part_rows in Hg as (groups & sm & xs & _ & Hsm & Hall & _ & -> & ->).
    rewrite (Hsm Hvf) in Hall. clear Hsm.
    apply (Forall2_map_same float_of_count_or_zero (fun x => x.1.2) (fun x => x.2)).
    apply Forall_forall. intros x Hx.
    destruct (list_elem_of_lookup_1 _ _ Hx) as (i & Hi).
    destruct (Forall2_lookup_r _ _ _ _ _ Hall Hi) as (g & _ & Hg).
    exact (plain_row_without_value r gf g x Hvf Hg).
Qed.

Section CountOnlyRun.
#[local] Existing Instance QRuntime.runtime.

(** Witness of X9: leads by stage (the limit of two rows cuts the three
    groups) and orders by customer, neither with a value field. *)
Lemma X9_witness :
  (LookerReport.get_chart_data Runs.shop_env [MoreRuns.lead_count_by_stage]
   = Ok MoreRuns.lead_count_chart
   /\ Forall2 float_of_count (count_values MoreRuns.lead_count_chart)
        (sum_values MoreRuns.lead_count_chart))
  /\ (LookerOrderReport.get_chart_data Runs.shop_env [MoreRuns.order_count_by_customer]
   = Ok MoreRuns.order_count_chart
   /\ Forall2 float_of_count_or_zero (count_values MoreRuns.order_count_chart)
        (sum_values MoreRuns.order_count_chart)).
Proof.
  split.
  - apply (proj1 (X9_sum_is_count_without_value_field Runs.shop_env)
             MoreRuns.lead_count_by_stage (PList [])); reflexivity.
  - apply (proj2 (X9_sum_is_count_without_value_field Runs.shop_env)
             MoreRuns.order_count_by_customer (PList []) "partner_id"); try reflexivity.
    discriminate.
Defined.

End CountOnlyRun.

(** ** Value sums by group *)

Section ValueSums.
Context `{RT : PyRuntime}.

Lemma py_eqb_code a b :
  group_key a -> group_key b -> py_eqb a b = bool_decide (key_code a = key_code b).
Proof.
  destruct a, b; simpl; try contradiction; intros _ _;
    try reflexivity;
    try (symmetry; apply bool_decide_eq_false_2; discriminate);
    match goal with
    | |- (?x =? ?y) = _ => destruct (Z.eqb_spec x y) as [Heq|Hne]
    | |- String.eqb ?x ?y = _ => destruct (String.eqb_spec x y) as [Heq|Hne]
    end;
    solve [ rewrite Heq; now rewrite bool_decide_eq_true_2
          | rewrite bool_decide_eq_false_2; [reflexivity | congruence] ].
Qed.

Lemma group_key_hashable k : group_key k -> check_hashable k = Ok tt.
Proof. now destruct k. Qed.

Lemma pd_store_keys {V} k (v : V) d :
  group_key k -> Forall (fun kv => group_key kv.1) d ->
  Forall (fun kv => group_key kv.1) (pd_store k v d).
Proof.
  intros Hk Hd. induction Hd as [|[k0 v0] t Hk0 Ht IH]; simpl.
  - now repeat constructor.
  - destruct (py_eqb k0 k); now constructor.
Qed.

Lemma pd_lookup_store {V} k k' (v : V) d :
  group_key k -> group_key k' -> Forall (fun kv => group_key kv.1) d ->
  pd_lookup k (pd_store k' v d) = if py_eqb k' k then Some v else pd_lookup k d.
Proof.
  intros Hk Hk' Hd. induction Hd as [|[k0 v0] t Hk0 Ht IH]; simpl in *; [reflexivity|].
  destruct (py_eqb k0 k') eqn:E1; simpl; [|rewrite IH];
    rewrite (py_eqb_code k0 k') in E1 by assumption;
    rewrite (py_eqb_code k0 k), (py_eqb_code k' k) by assumption;
    repeat case_bool_decide; congruence.
Qed.

(** The loop over [grp_sum]: afterwards the map holds, for a group, the
    value of its last row. *)
Lemma sum_loop_lookup
    (step : list (pyval * pyval) -> gmap string pyval -> res (list (pyval * pyval)))
    gf vf gid rows :
  (forall sm g,
     step sm g = (k ← first_or_self (row_get gf g);
                  pd_set k (py_or (row_get vf g) (PFloat f_zero)) sm)) ->
  group_key gid ->
  group_keys gf rows ->
  forall sm sm',
    Forall (fun kv => group_key kv.1) sm ->
    for_each step sm rows = Ok sm' ->
    pd_lookup gid sm'
    = match last (rows_of_group gf gid rows) with
      | Some g => Some (py_or (row_get vf g) (PFloat f_zero))
      | None => pd_lookup gid sm
      end.
Proof.
  intros Hstep Hgid Hrows.
  induction Hrows as [|g t (k & Hk & Hgk) _ IH]; intros sm sm' Hsm H; simpl in H.
  - now inversion H.
  - rewrite Hstep, Hk in H. simpl in H. unfold pd_set in H.
    rewrite (group_key_hashable k Hgk) in H. simpl in H.
    apply IH in H; [|now apply pd_store_keys]. rewrite H.
    unfold rows_of_group. cbn [List.filter]. rewrite Hk. fold (rows_of_group gf gid t).
    rewrite (pd_lookup_store gid k) by assumption.
    destruct (py_eqb k gid); [rewrite last_cons|];
      now destruct (last (rows_of_group gf gid t)).
Qed.

Lemma Forall2_with {A B} (P R : A -> B -> Prop) (Q : A -> Prop) l k :
  Forall2 P l k -> Forall Q l -> (forall x y, P x y -> Q x -> R x y) -> Forall2 R l k.
Proof.
  intros H. induction H as [|x y l k Hxy _ IH]; intros HQ Himp; [constructor|].
  inversion HQ; subst. constructor; [now apply Himp | now apply IH].
Qed.

Lemma py_or_idem a b : py_or (py_or a b) b = py_or a b.
Proof. unfold py_or. destruct (py_truthy a) eqn:Ha; [now rewrite Ha | now destruct (py_truthy b)]. Qed.

End ValueSums.

(** X10. With a value field, the sum of an entry is the float of the value
    that the second [read_group] (grouped by the same field, with the value
    field) holds for the entry's group: the value of the last row of that
    group, and [0.0] when the group has no row there or the value is empty.
    For the entries of a lead report before the limit, and for the sums of
    an order report grouped by a plain field; groups are keyed by [None],
    [False], record ids or strings. *)
Theorem X10_group_sum_comes_from_the_sum_rows `{RT : PyRuntime} (env : Env) :
  (forall (r : LookerReport.report) dom gf groups grp_sum es,
     field_set (LookerReport.value_field r) = true ->
     try_except (read_group env LookerReport.model dom [gf] [gf]) (fun _ => Ok [])
     = Ok groups ->
     try_except (read_group env LookerReport.model dom
                   [gf; default "" (LookerReport.value_field r)] [gf]) (fun _ => Ok [])
     = Ok grp_sum ->
     group_keys gf groups ->
     group_keys gf grp_sum ->
     LookerReport.group_entries env r dom gf = Ok es ->
     Forall2 (fun g e =>
                exists gid,
                  first_or_self (row_get gf g) = Ok gid
                  /\ py_float (group_value gf (default "" (LookerReport.value_field r))
                                 gid grp_sum) = Ok (e_sum e)) groups es)
  /\ (forall (r : LookerOrderReport.report) dom gf groups grp_sum l c s,
     field_set (LookerOrderReport.value_field r) = true ->
     try_except (read_group env LookerOrderReport.model dom [gf] [gf]) (fun _ => Ok [])
     = Ok groups ->
     try_except (read_group env LookerOrderReport.model dom
                   [gf; default "" (LookerOrderReport.value_field r)] [gf]) (fun _ => Ok [])
     = Ok grp_sum ->
     group_keys gf groups ->
     group_keys gf grp_sum ->
     LookerOrderReport.plain_part env r dom gf = Ok (l, c, s) ->
     Forall2 (fun g sv =>
                exists gid f,
                  first_or_self (row_get gf g) = Ok gid
                  /\ py_float (group_value gf (default "" (LookerOrderReport.value_field r))
                                 gid grp_sum) = Ok f
                  /\ sv = PFloat f) groups s).
Proof.
  split.
  - intros r dom gf groups grp_sum es Hvf Hgroups Hsum Hkeys Hskeys H.
    unfold LookerReport.group_entries in H. rewrite Hgroups, Hvf, Hsum in H. simpl in H.
    apply bind_Ok in H as (sm & Hsm & H).
    apply for_each_collect in H as (es0 & -> & Hall). simpl.
    apply (Forall2_with _ _ _ _ _ Hall Hkeys). clear Hall.
    intros g e He (k & Hk & Hgk). exists k. split; [exact Hk|].
    unfold LookerReport.entry_of in He. rewrite Hk, Hvf in He. simpl in He.
    unfold pd_get in He. rewrite (group_key_hashable k Hgk) in He. simpl in He.
    apply bind_Ok in He as (f & Hf & He). inversion He; subst; simpl.
    rewrite <- Hf. f_equal. unfold group_value.
    rewrite (sum_loop_lookup _ gf _ k grp_sum (fun _ _ => eq_refl) Hgk Hskeys [] sm
               (List.Forall_nil _) Hsm).
    now destruct (last _).
  - intros r dom gf groups grp_sum l c s Hvf Hgroups Hsum Hkeys Hskeys H.
    unfold LookerOrderReport.plain_part in H. rewrite Hgroups, Hvf, Hsum in H. simpl in H.
    apply bind_Ok in H as (sm & Hsm & H).
    apply plain_loop in H as (xs & Hall & _ & _ & ->). simpl.
    clear Hgroups.
    revert Hkeys. induction Hall as [|g x gs xs Hx _ IH]; intros Hkeys; [constructor|].
    inversion Hkeys as [|? ? (k & Hk & Hgk) Hrest]; subst. simpl.
    constructor; [|exact (IH Hrest)].
    unfold LookerOrderReport.plain_row in Hx. rewrite Hk, Hvf in Hx. simpl in Hx.
    unfold pd_get in Hx. rewrite (group_key_hashable k Hgk) in Hx. simpl in Hx.
    apply bind_Ok in Hx as (f & Hf & Hx). inversion Hx; subst; simpl.
    exists k, f. split; [exact Hk|]. split; [|reflexivity].
    rewrite <- Hf. f_equal. unfold group_value.
    rewrite (sum_loop_lookup _ gf _ k grp_sum (fun _ _ => eq_refl) Hgk Hskeys [] sm
               (List.Forall_nil _) Hsm).
    destruct (last _); simpl; [now rewrite py_or_idem|].
    unfold py_or. now destruct (py_truthy _).
Qed.

Section ValueSumsRun.
#[local] Existing Instance QRuntime.runtime.

(** Witness of X10: the lead report by stage and the order report by
    customer, both with a value field. *)
Lemma X10_witness :
  Forall2 (fun g e =>
             exists gid,
               first_or_self (row_get "stage_id" g) = Ok gid
               /\ py_float (group_value "stage_id" "expected_revenue" gid Runs.lead_groups)
                  = Ok (e_sum e)) Runs.lead_groups Runs.lead_entries
  /\ Forall2 (fun g sv =>
                exists gid f,
                  first_or_self (row_get "partner_id" g) = Ok gid
                  /\ py_float (group_value "partner_id" "amount_total" gid Runs.order_groups)
                     = Ok f
                  /\ sv = PFloat f) Runs.order_groups (sum_values Runs.customer_chart).
Proof.
  split.
  - apply (proj1 (X10_group_sum_comes_from_the_sum_rows Runs.shop_env)
             Runs.lead_by_stage (PList []) "stage_id" Runs.lead_groups Runs.lead_groups
             Runs.lead_entries eq_refl eq_refl eq_refl);
      try reflexivity;
      repeat first [apply List.Forall_nil | apply List.Forall_cons];
      eexists; (split; [reflexivity | exact I]).
  - apply (proj2 (X10_group_sum_comes_from_the_sum_rows Runs.shop_env)
             Runs.order_by_customer (PList []) "partner_id" Runs.order_groups Runs.order_groups
             (labels Runs.customer_chart) (count_values Runs.customer_chart)
             (sum_values Runs.customer_chart) eq_refl eq_refl eq_refl);
      try reflexivity;
      repeat first [apply List.Forall_nil | apply List.Forall_cons];
      eexists; (split; [reflexivity | exact I]).
Defined.

End ValueSumsRun.

(** ** Totals of counts *)

Section CountTotals.
Context `{RT : PyRuntime} {HL : RuntimeLaws}.

Lemma falls_on_one_day r :
  (if falls_on 0 r then 1 else 0) + (if falls_on 1 r then 1 else 0)
  + (if falls_on 2 r then 1 else 0) + (if falls_on 3 r then 1 else 0)
  + (if falls_on 4 r then 1 else 0) + (if falls_on 5 r then 1 else 0)
  + (if falls_on 6 r then 1 else 0)
  = match LookerOrderReport.order_day r with Some _ => 1 | None => 0 end.
Proof.
  unfold falls_on. destruct (LookerOrderReport.order_day r) as [d|]; [|reflexivity].
  pose proof (weekday_lt_7 d) as Hlt.
  destruct (weekday d) as [|[|[|[|[|[|[|n]]]]]]]; simpl; try reflexivity. lia.
Qed.

Lemma weekday_counts_total rows :
  count_on 0 rows + count_on 1 rows + count_on 2 rows + count_on 3 rows
  + count_on 4 rows + count_on 5 rows + count_on 6 rows
  = Z.of_nat (length (dated rows)).
Proof.
  induction rows as [|r t IH]; [reflexivity|].
  rewrite !count_on_cons. pose proof (falls_on_one_day r) as H1.
  unfold dated in *. cbn [List.filter].
  destruct (LookerOrderReport.order_day r); cbn [length]; lia.
Qed.

Lemma dated_with_date rows : dated rows = with_date rows.
Proof.
  unfold dated, with_date. induction rows as [|r t IH]; simpl; [reflexivity|].
  rewrite IH, order_day_stated.
  destruct (stated_date r) as [d|].
  - now rewrite bool_decide_eq_true_2.
  - rewrite bool_decide_eq_false_2; [reflexivity | intros H; now apply H].
Qed.

Lemma stated_counts_total rows :
  stated_count 0 rows + stated_count 1 rows + stated_count 2 rows + stated_count 3 rows
  + stated_count 4 rows + stated_count 5 rows + stated_count 6 rows
  = Z.of_nat (length (with_date rows)).
Proof. rewrite <- !count_on_stated, <- dated_with_date. apply weekday_counts_total. Qed.

Lemma bucket_total_app (b1 b2 : list (pyval * LookerOrderReport.bucket)) :
  bucket_total (b1 ++ b2) = bucket_total b1 + bucket_total b2.
Proof. induction b1 as [|kb t IH]; simpl; [reflexivity|]. rewrite IH. lia. Qed.

Lemma bucket_total_store (buckets : list (pyval * LookerOrderReport.bucket)) k b b' :
  pd_lookup k buckets = Some b ->
  bucket_total (pd_store k b' buckets)
  = bucket_total buckets - LookerOrderReport.b_count b + LookerOrderReport.b_count b'.
Proof.
  induction buckets as [|[k0 b0] t IH]; simpl; [discriminate|].
  destruct (py_eqb k0 k); simpl.
  - intros H. inversion H; subst. lia.
  - intros H. rewrite (IH H). lia.
Qed.

Lemma bucket_total_add (buckets : list (pyval * LookerOrderReport.bucket)) x :
  bucket_total (LookerOrderReport.bucket_add buckets x) = bucket_total buckets + c_count x.
Proof.
  destruct x as [[[k lbl] c] s]. unfold LookerOrderReport.bucket_add, c_count. simpl.
  destruct (pd_lookup k buckets) as [b|] eqn:Hlook.
  - rewrite (bucket_total_store _ _ _ _ Hlook). simpl. lia.
  - rewrite bucket_total_app. simpl. lia.
Qed.

Lemma bucket_total_fold xs :
  forall buckets,
    bucket_total (fold_left LookerOrderReport.bucket_add xs buckets)
    = bucket_total buckets + contributions_total xs.
Proof.
  induction xs as [|x t IH]; intros buckets; simpl; [lia|].
  rewrite IH, bucket_total_add. lia.
Qed.

Lemma count_total_buckets (buckets : list (pyval * LookerOrderReport.bucket)) :
  count_total (map (fun kb => LookerOrderReport.entry_of_bucket kb.2) buckets)
  = bucket_total buckets.
Proof. induction buckets as [|kb t IH]; simpl; [reflexivity|]. now rewrite IH. Qed.

End CountTotals.

(** X11. In the weekday branch every order with a usable date is counted in
    exactly one of the seven buckets: the counts of the chart add up to the
    number of records whose [date_order] is there and parses (a [datetime],
    or a string that is not empty and reads as [YYYY-MM-DD HH:MM:SS]); a
    record without a date or with one that does not parse is counted
    nowhere.  Under the conditions of a run that raises nothing. *)
Theorem X11_every_dated_order_is_counted_once `{RT : PyRuntime} {HL : RuntimeLaws}
    (env : Env) (r : LookerOrderReport.report) (dom : pyval) (rows : list order_row)
    (ll : list string) (lv : list pyval) :
  LookerOrderReport.group_field r = Some "date_order_weekday" ->
  LookerOrderReport._eval_domain env r = Ok dom ->
  search env dom = Ok rows ->
  (field_set (LookerOrderReport.value_field r) = true ->
   amounts_known (default "" (LookerOrderReport.value_field r)) rows) ->
  LookerOrderReport.time_series env r dom = Ok (ll, lv) ->
  exists c,
    LookerOrderReport.get_chart_data env [r] = Ok c
    /\ int_total (count_values c) = Z.of_nat (length (with_date rows)).
Proof.
  intros Hgf Hdom Hrows Hknown Ht. eexists. split.
  - exact (weekday_chart_run env r dom rows ll lv Hgf Hdom Hrows Hknown Ht).
  - cbn [count_values]. unfold int_total.
    change (seq 0 7) with [0; 1; 2; 3; 4; 5; 6]%nat. cbn [map fold_right].
    pose proof (stated_counts_total rows). lia.
Qed.

Section CountTotalsRun.
#[local] Existing Instance QRuntime.runtime.

(** Witness of X11: of the five orders of the shop, one has no date and
    one a date that does not parse; the seven counts add up to 3. *)
Lemma X11_witness :
  exists c,
    LookerOrderReport.get_chart_data Runs.shop_env [Runs.order_by_weekday] = Ok c
    /\ int_total (count_values c) = 3.
Proof.
  destruct (@X11_every_dated_order_is_counted_once QRuntime.runtime q_runtime_laws
              Runs.shop_env Runs.order_by_weekday (PList []) Runs.order_rows
              (line_labels Runs.weekday_chart) (line_values Runs.weekday_chart)
              eq_refl eq_refl eq_refl
              ltac:(intros _; repeat constructor; intros _; eexists; reflexivity)
              eq_refl) as (c & Hc & Htotal).
  exists c. split; [exact Hc|]. rewrite Htotal. reflexivity.
Defined.

End CountTotalsRun.

(** X12. In the relational branch merging loses no record: the counts of the
    entries (before the limit) add up to the counts of the top-level groups,
    [int(cnt or 0)] each, whatever their targets are and however they
    coincide.  For every run of the loop that raises nothing; the entries
    are then returned. *)
Theorem X12_merging_keeps_the_counts `{RT : PyRuntime} (env : Env)
    (r : LookerOrderReport.report) (dom : pyval) (gf top rel_field : string)
    (rest : list string) (groups : list (gmap string pyval))
    (sums : list (pyval * pyval)) (xs : list (pyval * pyval * Z * float)) :
  split_dot gf = top :: rel_field :: rest ->
  LookerOrderReport.top_groups env dom top = Ok groups ->
  LookerOrderReport.top_sums env r dom top = Ok sums ->
  Forall2 (fun g x =>
             LookerOrderReport.contribution env (LookerOrderReport.rel_model_of env top)
               top rel_field sums g = Ok x) groups xs ->
  exists es,
    LookerOrderReport.relational_entries env r dom gf = Ok es
    /\ count_total es = contributions_total xs.
Proof.
  intros Hsplit Hgroups Hsums Hall. eexists. split.
  - unfold LookerOrderReport.relational_entries. rewrite Hsplit. simpl.
    rewrite Hgroups. simpl. rewrite Hsums. simpl.
    rewrite (bucket_loop env _ _ _ _ _ _ Hall). reflexivity.
  - rewrite count_total_buckets, bucket_total_fold. reflexivity.
Qed.

Section MergingRun.
#[local] Existing Instance QRuntime.runtime.

(** Witness of X12: the four groups by customer, eight orders in all, merged
    into the buckets by country. *)
Lemma X12_witness :
  exists es,
    LookerOrderReport.relational_entries Runs.shop_env Runs.order_by_country (PList [])
      "partner_id.country_id" = Ok es
    /\ count_total es = contributions_total Runs.country_contributions.
Proof.
  apply (X12_merging_keeps_the_counts Runs.shop_env Runs.order_by_country (PList [])
           "partner_id.country_id" "partner_id" "country_id" [] Runs.order_groups
           Runs.customer_sums Runs.country_contributions eq_refl eq_refl eq_refl).
  repeat constructor.
Defined.

End MergingRun.

(** ** Labels of fields *)

Section Labels.
Context `{RT : PyRuntime} (env : Env).

Lemma append_nonempty_l s t : s <> "" -> s +:+ t <> "".
Proof. destruct s; [congruence | discriminate]. Qed.

Lemma append_nonempty_r s t : t <> "" -> s +:+ t <> "".
Proof. destruct s; simpl; [tauto | discriminate]. Qed.

Lemma replace_underscores_nonempty s : s <> "" -> replace_underscores s <> "".
Proof. destruct s; [congruence | discriminate]. Qed.

Lemma field_set_nonempty s : field_set (Some s) = true <-> s <> "".
Proof.
  unfold field_set. simpl. destruct (String.eqb_spec s ""); simpl; split; congruence.
Qed.

Lemma description_or_text f t :
  t <> "" -> exists u, LookerOrderReport.description_or f (PStr t) = PStr u /\ u <> "".
Proof.
  intros Ht. unfold LookerOrderReport.description_or.
  destruct f as [fr|]; [|now exists t].
  destruct (f_description fr) as [d|] eqn:Hd; simpl.
  - destruct (field_set (Some d)) eqn:Hset; [|now exists t].
    exists d. split; [reflexivity|]. now apply field_set_nonempty.
  - now exists t.
Qed.

Lemma crm_label_text s l :
  s <> "" -> LookerReportForm._crm_field_label env (PStr s) = Ok l ->
  exists t, l = PStr t /\ t <> "".
Proof.
  intros Hs. unfold LookerReportForm._crm_field_label.
  replace (py_truthy (PStr s)) with true
    by (symmetry; now apply (proj2 (field_set_nonempty s))).
  simpl. intros H. apply bind_Ok in H as (f & _ & H).
  destruct f as [fr|]; [|inversion H; now exists s].
  destruct (f_description fr) as [d|] eqn:Hd; simpl in H.
  - destruct (field_set (Some d)) eqn:Hset; inversion H; subst; [|now exists s].
    exists d. split; [reflexivity|]. now apply field_set_nonempty.
  - inversion H. now exists s.
Qed.

Lemma order_label_text s l :
  s <> "" -> LookerOrderReport._order_field_label env (PStr s) = Ok l ->
  exists t, l = PStr t /\ t <> "".
Proof.
  intros Hs. unfold LookerOrderReport._order_field_label.
  replace (py_truthy (PStr s)) with true
    by (symmetry; now apply (proj2 (field_set_nonempty s))).
  simpl. destruct (has_dot s).
  - intros H. apply bind_Ok in H as (f_top & _ & H).
    assert (Hfallback : exists t, PStr (replace_underscores s) = PStr t /\ t <> "").
    { eexists. split; [reflexivity|]. now apply replace_underscores_nonempty. }
    destruct (split_dot s !! 1%nat) as [sb|]; [|inversion H; subst; exact Hfallback].
    destruct f_top as [ft|]; [|inversion H; subst; exact Hfallback].
    destruct (_ && _); [|inversion H; subst; exact Hfallback].
    apply bind_Ok in H as (f_sub & _ & H). inversion H; subst.
    eexists. split; [reflexivity|].
    apply append_nonempty_r, append_nonempty_l. discriminate.
  - intros H. apply bind_Ok in H as (f & _ & H). inversion H; subst.
    unfold py_or.
    replace (py_truthy (PStr s)) with true
      by (symmetry; now apply (proj2 (field_set_nonempty s))).
    now apply description_or_text.
Qed.

Lemma crm_label_same field :
  LookerReport.label env field = LookerReportForm._crm_field_label env field.
Proof. reflexivity. Qed.

End Labels.

(** X13. The label of a field is never blank: for a field name that is not
    empty, [_crm_field_label], the inner [label] of
    [_ensure_auto_descriptions] and [_order_field_label] return, whenever
    the lookups in [ir.model.fields] answer, a string that is not empty (the
    description of the field, the name itself, or for a dotted name the
    label of the sub-field with the label of the top field in brackets, or
    the name with its underscores turned into spaces).  For an empty name,
    or [False], they return the empty string without looking anything up. *)
Theorem X13_label_of_a_field_is_never_blank `{RT : PyRuntime} (env : Env) :
  (forall s,
     (forall m n, is_ok (field_search env m n) = true) ->
     s <> "" ->
     (exists t, LookerReportForm._crm_field_label env (PStr s) = Ok (PStr t) /\ t <> "")
     /\ (exists t, LookerReport.label env (PStr s) = Ok (PStr t) /\ t <> "")
     /\ (exists t, LookerOrderReport._order_field_label env (PStr s) = Ok (PStr t) /\ t <> ""))
  /\ (forall o,
     field_set o = false ->
     LookerReportForm._crm_field_label env (of_field o) = Ok (PStr "")
     /\ LookerReport.label env (of_field o) = Ok (PStr "")
     /\ LookerOrderReport._order_field_label env (of_field o) = Ok (PStr "")).
Proof.
  split.
  - intros s Hok Hs.
    assert (Hcrm : exists t,
               LookerReportForm._crm_field_label env (PStr s) = Ok (PStr t) /\ t <> "").
    { destruct (LookerReportForm._crm_field_label env (PStr s)) as [l|e] eqn:Hl.
      - destruct (crm_label_text env s l Hs Hl) as (t & -> & Ht). now exists t.
      - exfalso. unfold LookerReportForm._crm_field_label in Hl.
        destruct (negb _); [discriminate|].
        pose proof (Hok LookerReport.model (PStr s)) as H1.
        destruct (field_search env LookerReport.model (PStr s)) as [[fr|]|]; simpl in *;
          try discriminate.
        now destruct (field_set _). }
    split; [exact Hcrm|]. split; [exact Hcrm|].
    destruct (LookerOrderReport._order_field_label env (PStr s)) as [l|e] eqn:Hl.
    + destruct (order_label_text env s l Hs Hl) as (t & -> & Ht). now exists t.
    + exfalso. unfold LookerOrderReport._order_field_label in Hl.
      destruct (negb _); [discriminate|].
      destruct (has_dot s).
      * pose proof (Hok LookerOrderReport.model (PStr (default "" (head (split_dot s)))))
          as H1.
        destruct (field_search env LookerOrderReport.model _) as [f_top|]; simpl in *;
          [|discriminate].
        destruct (split_dot s !! 1%nat) as [sb|]; [|discriminate].
        destruct f_top as [ft|]; [|discriminate].
        destruct (_ && _); [|discriminate].
        pose proof (Hok (default "" (f_relation ft)) (PStr sb)) as H2.
        now destruct (field_search env (default "" (f_relation ft)) (PStr sb)).
      * pose proof (Hok LookerOrderReport.model (PStr s)) as H1.
        now destruct (field_search env LookerOrderReport.model (PStr s)).
  - intros o Ho. unfold LookerReportForm._crm_field_label, LookerReport.label,
      LookerOrderReport._order_field_label.
    unfold field_set in Ho. now rewrite Ho.
Qed.

Section LabelsRun.
#[local] Existing Instance QRuntime.runtime.

(** Witness of X13: the name of the group field by the customer's
    country, and a field that is not set. *)
Lemma X13_witness :
  ((exists t, LookerReportForm._crm_field_label Runs.shop_env (PStr "partner_id.country_id")
              = Ok (PStr t) /\ t <> "")
   /\ (exists t, LookerReport.label Runs.shop_env (PStr "partner_id.country_id")
                 = Ok (PStr t) /\ t <> "")
   /\ (exists t, LookerOrderReport._order_field_label Runs.shop_env
                   (PStr "partner_id.country_id") = Ok (PStr t) /\ t <> ""))
  /\ (LookerReportForm._crm_field_label Runs.shop_env (of_field None) = Ok (PStr "")
      /\ LookerReport.label Runs.shop_env (of_field None) = Ok (PStr "")
      /\ LookerOrderReport._order_field_label Runs.shop_env (of_field None) = Ok (PStr "")).
Proof.
  split.
  - apply (proj1 (X13_label_of_a_field_is_never_blank Runs.shop_env)
             "partner_id.country_id"); [|discriminate].
    intros m n. unfold Runs.shop_env, Runs.field_catalog, Runs.field_of. simpl.
    destruct n; try reflexivity.
    repeat match goal with |- context [if ?b then _ else _] => destruct b end; reflexivity.
  - apply (proj2 (X13_label_of_a_field_is_never_blank Runs.shop_env) None). reflexivity.
Defined.

End LabelsRun.

(** ** The choices of the form *)

Section SelectionLists.
Context `{RT : PyRuntime} (env : Env).

(** The loop over the preferred value fields adds the numeric fields the
    catalog knows, in the order of the names. *)
Lemma value_loop model names answers :
  catalog_answers env model names answers ->
  forall acc,
    for_each (fun acc name =>
                f ← field_search env model (PStr name);
                match f with
                | Some fr => if numeric fr then Ok (acc ++ [selection_item fr]) else Ok acc
                | None => Ok acc
                end) acc names
    = Ok (acc ++ map selection_item (numeric_fields answers)).
Proof.
  unfold catalog_answers, numeric_fields, known_fields.
  induction 1 as [|name o names answers Hname _ IH]; intros acc; simpl.
  - now rewrite app_nil_r.
  - rewrite Hname. simpl. destruct o as [fr|]; simpl; [|apply IH].
    destruct (numeric fr); simpl; rewrite IH; [|reflexivity].
    now rewrite <- app_assoc.
Qed.

(** The loop over the preferred group fields adds the fields the catalog
    knows, in the order of the names. *)
Lemma group_loop model names answers :
  catalog_answers env model names answers ->
  forall acc,
    for_each (fun acc name =>
                f ← field_search env model (PStr name);
                match f with
                | Some fr => Ok (acc ++ [selection_item fr])
                | None => Ok acc
                end) acc names
    = Ok (acc ++ map selection_item (known_fields answers)).
Proof.
  unfold catalog_answers, known_fields.
  induction 1 as [|name o names answers Hname _ IH]; intros acc; simpl.
  - now rewrite app_nil_r.
  - rewrite Hname. simpl. destruct o as [fr|]; simpl; rewrite IH; [|reflexivity].
    now rewrite <- app_assoc.
Qed.

End SelectionLists.

(** X14. The choices for the group field of an order report always hold the
    two sub-fields of the customer, [partner_id.country_id] and
    [partner_id.city], under their fixed labels; so the list is never empty,
    and the fallback scan of all the fields of [sale.order] is never used:
    the result does not depend on what that scan would give. *)
Theorem X14_order_group_choices_never_fall_back `{RT : PyRuntime} (env : Env)
    (scan1 scan2 : string -> res (list field_rec)) :
  LookerOrderReportForm._get_order_group_fields env scan1
  = LookerOrderReportForm._get_order_group_fields env scan2
  /\ forall items,
       LookerOrderReportForm._get_order_group_fields env scan1 = Ok items ->
       In ("partner_id.country_id", "Quốc gia (Đối tác)") items
       /\ In ("partner_id.city", "Tỉnh/Thành (Đối tác)") items.
Proof.
  unfold LookerOrderReportForm._get_order_group_fields. cbn [for_each].
  change (has_dot "partner_id") with false.
  change (has_dot "partner_id.country_id") with true.
  change (has_dot "partner_id.city") with true.
  change (has_dot "user_id") with false.
  change (has_dot "date_order") with false.
  change (has_dot "date_order_weekday") with false.
  cbn [negb]. simpl String.eqb.
  destruct (field_search env LookerOrderReport.model (PStr "partner_id")) as [[f1|]|];
    cbn [mbind res_bind app]; [| |split; [reflexivity | discriminate]];
    (destruct (field_search env LookerOrderReport.model (PStr "user_id")) as [[f2|]|];
     cbn [mbind res_bind app]; [| |split; [reflexivity | discriminate]]);
    (destruct (field_search env LookerOrderReport.model (PStr "date_order")) as [[f3|]|];
     cbn [mbind res_bind app]; [| |split; [reflexivity | discriminate]]);
    (destruct (field_search env LookerOrderReport.model (PStr "date_order_weekday"))
       as [[f4|]|];
     cbn [mbind res_bind app]; [| |split; [reflexivity | discriminate]]);
    (split; [reflexivity|]; intros items H; inversion H; subst; simpl; tauto).
Qed.

Section GroupChoicesRun.
#[local] Existing Instance QRuntime.runtime.

(** Witness of X14: the choices on the shop, with the scan out of order. *)
Lemma X14_witness :
  In ("partner_id.country_id", "Quốc gia (Đối tác)") MoreRuns.order_group_choices
  /\ In ("partner_id.city", "Tỉnh/Thành (Đối tác)") MoreRuns.order_group_choices.
Proof.
  apply (proj2 (X14_order_group_choices_never_fall_back Runs.shop_env
                  MoreRuns.no_scan MoreRuns.no_scan) MoreRuns.order_group_choices).
  reflexivity.
Defined.

End GroupChoicesRun.

(** X15. The choices for the value field only ever hold numeric fields of
    the host.  When [ir.model.fields] answers for the three preferred names,
    [_get_crm_value_fields] and [_get_order_value_fields] offer exactly the
    fields it knows among them whose type is integer, float or monetary, in
    the order of the names, each as its name and its description (or its
    name again); a preferred field of another type is left out.  Only when
    no preferred field is left do they offer the fields of the scan of the
    model that are of such a type, in the order of the scan. *)
Theorem X15_value_choices_are_numeric `{RT : PyRuntime} (env : Env)
    (answers : list (option field_rec)) :
  (catalog_answers env LookerReport.model crm_value_names answers ->
   (numeric_fields answers <> [] ->
    forall scan, LookerReportForm._get_crm_value_fields env scan
                 = Ok (map selection_item (numeric_fields answers)))
   /\ (numeric_fields answers = [] ->
       forall scan, LookerReportForm._get_crm_value_fields env scan
                    = scanned numeric (scan LookerReport.model)))
  /\ (catalog_answers env LookerOrderReport.model order_value_names answers ->
   (numeric_fields answers <> [] ->
    forall scan, LookerOrderReportForm._get_order_value_fields env scan
                 = Ok (map selection_item (numeric_fields answers)))
   /\ (numeric_fields answers = [] ->
       forall scan, LookerOrderReportForm._get_order_value_fields env scan
                    = scanned numeric (scan LookerOrderReport.model))).
Proof.
  split; intros Hanswers.
  - pose proof (value_loop env _ _ _ Hanswers []) as Hloop.
    rewrite app_nil_l in Hloop. unfold catalog_answers in Hanswers.
    unfold crm_value_names, order_value_names in Hloop.
    split; intros Hpicked scan; unfold LookerReportForm._get_crm_value_fields;
      rewrite Hloop; simpl.
    + destruct (numeric_fields answers); [contradiction | reflexivity].
    + rewrite Hpicked. simpl. unfold scanned.
      now destruct (scan LookerReport.model).
  - pose proof (value_loop env _ _ _ Hanswers []) as Hloop.
    rewrite app_nil_l in Hloop. unfold catalog_answers in Hanswers.
    unfold crm_value_names, order_value_names in Hloop.
    split; intros Hpicked scan; unfold LookerOrderReportForm._get_order_value_fields;
      rewrite Hloop; simpl.
    + destruct (numeric_fields answers); [contradiction | reflexivity].
    + rewrite Hpicked. simpl. unfold scanned.
      now destruct (scan LookerOrderReport.model).
Qed.

Section ValueChoicesRun.
#[local] Existing Instance QRuntime.runtime.

(** Witness of X15.  On the shop with the wider catalog a lead report is
    offered the expected and the planned revenue and not the probability,
    which is a text there; an order report is offered the total and not the
    tax.  On the host without a catalog the scan steps in, and of its four
    fields the two numeric ones are offered. *)
Lemma X15_witness :
  LookerReportForm._get_crm_value_fields MoreRuns.catalog_env MoreRuns.no_scan
  = Ok [("expected_revenue", "Doanh thu dự kiến"); ("planned_revenue", "planned_revenue")]
  /\ LookerOrderReportForm._get_order_value_fields MoreRuns.catalog_env MoreRuns.no_scan
     = Ok [("amount_total", "Tổng")]
  /\ LookerReportForm._get_crm_value_fields Runs.quiet_env MoreRuns.four_fields
     = Ok [("x_budget", "Ngân sách"); ("x_score", "x_score")].
Proof.
  split; [|split].
  - rewrite (proj1 (proj1 (X15_value_choices_are_numeric MoreRuns.catalog_env
                             [Some MoreRuns.revenue_field; Some MoreRuns.planned_field;
                              Some MoreRuns.probability_field])
                      ltac:(repeat constructor))
               ltac:(discriminate) MoreRuns.no_scan).
    reflexivity.
  - rewrite (proj1 (proj2 (X15_value_choices_are_numeric MoreRuns.catalog_env
                             [Some MoreRuns.total_field; None; Some MoreRuns.tax_field])
                      ltac:(repeat constructor))
               ltac:(discriminate) MoreRuns.no_scan).
    reflexivity.
  - rewrite (proj2 (proj1 (X15_value_choices_are_numeric Runs.quiet_env [None; None; None])
                      ltac:(repeat constructor))
               eq_refl MoreRuns.four_fields).
    reflexivity.
Defined.

End ValueChoicesRun.

(** ** Days with records *)

Section DaysWithRecords.
Context `{RT : PyRuntime} (env : Env).

Lemma for_each_app_inv {A B} (f : A -> B -> res A) l1 l2 :
  forall acc r,
    for_each f acc (l1 ++ l2) = Ok r ->
    exists mid, for_each f acc l1 = Ok mid /\ for_each f mid l2 = Ok r.
Proof.
  induction l1 as [|x t IH]; intros acc r H; simpl in *.
  - now exists acc.
  - apply bind_Ok in H as (a & Ha & H). rewrite Ha. simpl. now apply IH.
Qed.

Lemma ts_map_last vf pre g post day_str (m m' : gmap string pyval) :
  for_each (ts_map_step vf) m (pre ++ g :: post) = Ok m' ->
  row_of_day g day_str ->
  day_missing post day_str ->
  m' !! day_str = Some (day_value vf g).
Proof.
  intros H (d & Hd & Hday) Hmiss.
  apply for_each_app_inv in H as (m1 & _ & H). simpl in H.
  apply bind_Ok in H as (m2 & Hstep & H).
  rewrite (ts_map_missing _ _ _ _ _ H Hmiss).
  unfold ts_map_step in Hstep. rewrite Hd in Hstep. simpl in Hstep.
  unfold day_value. rewrite Hday in Hstep.
  destruct (field_set vf); inversion Hstep; subst; now rewrite lookup_insert_eq.
Qed.

Lemma crm_day_with_records r dom today tsd pre g post sd ll lv (i : nat) :
  LookerReport.time_series env r dom = Ok (ll, lv) ->
  today_dt env = Ok today ->
  ts_domain_of dom today = Ok tsd ->
  read_ts_groups env LookerReport.model tsd (LookerReport.value_field r)
  = Ok (pre ++ g :: post) ->
  LookerReport.success_dom_of env r = Ok sd ->
  py_truthy sd = false ->
  (i < 14)%nat ->
  row_of_day g (day_label today (Z.of_nat i)) ->
  day_missing post (day_label today (Z.of_nat i)) ->
  lv !! i = Some (day_value (LookerReport.value_field r) g).
Proof.
  unfold LookerReport.time_series. intros H Htoday Htsd Hgs Hsd Hoff Hi Hrow Hmiss.
  rewrite Htoday in H; simpl in H. rewrite Htsd in H; simpl in H.
  rewrite Hgs in H; simpl in H. rewrite Hsd in H; simpl in H.
  apply bind_Ok in H as (ts_map & Hmap & H).
  apply bind_Ok in H as (tsm & _ & H).
  apply line_series_run in H as (_ & Hall).
  destruct (Forall2_lookup_l _ _ _ _ _ Hall (day_offsets_lookup i Hi)) as (v & Hv & Hval).
  rewrite Hv. f_equal. rewrite Hoff in Hval.
  unfold row_get_default in Hval.
  rewrite (ts_map_last _ _ _ _ _ _ _ Hmap Hrow Hmiss) in Hval. now inversion Hval.
Qed.

Lemma order_day_with_records r dom today tsd pre g post ll lv (i : nat) :
  LookerOrderReport.time_series env r dom = Ok (ll, lv) ->
  today_dt env = Ok today ->
  ts_domain_of dom today = Ok tsd ->
  read_ts_groups env LookerOrderReport.model tsd (LookerOrderReport.value_field r)
  = Ok (pre ++ g :: post) ->
  (i < 14)%nat ->
  row_of_day g (day_label today (Z.of_nat i)) ->
  day_missing post (day_label today (Z.of_nat i)) ->
  lv !! i = Some (day_value (LookerOrderReport.value_field r) g).
Proof.
  unfold LookerOrderReport.time_series. intros H Htoday Htsd Hgs Hi Hrow Hmiss.
  rewrite Htoday in H; simpl in H. rewrite Htsd in H; simpl in H.
  rewrite Hgs in H; simpl in H.
  apply bind_Ok in H as (ts_map & Hmap & H).
  apply line_series_run in H as (_ & Hall).
  destruct (Forall2_lookup_l _ _ _ _ _ Hall (day_offsets_lookup i Hi)) as (v & Hv & Hval).
  rewrite Hv. f_equal.
  unfold row_get_default in Hval.
  rewrite (ts_map_last _ _ _ _ _ _ _ Hmap Hrow Hmiss) in Hval. now inversion Hval.
Qed.

End DaysWithRecords.

(** X16. When no success domain is in force, the line value of a day is
    what the last row of the time-series [read_group] for that day brings:
    its value sum with a value field ([0.0] when the sum is empty), its
    [__count] otherwise; rows are matched to days by the text of their
    [create_date] key, and of several rows for one day the last one counts.
    On both models, on every run whose body raises nothing. *)
Theorem X16_day_with_records_shows_its_last_row `{RT : PyRuntime} (env : Env) :
  (forall (r : LookerReport.report) dom c today tsd pre g post sd (i : nat),
     LookerReport._eval_domain env r = Ok dom ->
     LookerReport.chart_body env r dom = Ok c ->
     today_dt env = Ok today ->
     ts_domain_of dom today = Ok tsd ->
     read_ts_groups env LookerReport.model tsd (LookerReport.value_field r)
     = Ok (pre ++ g :: post) ->
     LookerReport.success_dom_of env r = Ok sd ->
     py_truthy sd = false ->
     (i < 14)%nat ->
     row_of_day g (day_label today (Z.of_nat i)) ->
     day_missing post (day_label today (Z.of_nat i)) ->
     LookerReport.get_chart_data env [r] = Ok c
     /\ line_values c !! i = Some (day_value (LookerReport.value_field r) g))
  /\ (forall (r : LookerOrderReport.report) dom c today tsd pre g post (i : nat),
     LookerOrderReport._eval_domain env r = Ok dom ->
     LookerOrderReport.chart_body env r dom = Ok c ->
     today_dt env = Ok today ->
     ts_domain_of dom today = Ok tsd ->
     read_ts_groups env LookerOrderReport.model tsd (LookerOrderReport.value_field r)
     = Ok (pre ++ g :: post) ->
     (i < 14)%nat ->
     row_of_day g (day_label today (Z.of_nat i)) ->
     day_missing post (day_label today (Z.of_nat i)) ->
     LookerOrderReport.get_chart_data env [r] = Ok c
     /\ line_values c !! i = Some (day_value (LookerOrderReport.value_field r) g)).
Proof.
  split.
  - intros r dom c today tsd pre g post sd i Hdom Hbody Htoday Htsd Hgs Hsd Hoff Hi Hrow Hmiss.
    split; [now apply (crm_chart_of_body env r dom)|].
    apply crm_parts_of_chart in Hbody as [_ Ht].
    exact (crm_day_with_records env r dom today tsd pre g post sd _ _ i
             Ht Htoday Htsd Hgs Hsd Hoff Hi Hrow Hmiss).
  - intros r dom c today tsd pre g post i Hdom Hbody Htoday Htsd Hgs Hi Hrow Hmiss.
    split; [now apply (order_chart_of_body env r dom)|].
    apply order_parts_of_chart in Hbody as [_ Ht].
    exact (order_day_with_records env r dom today tsd pre g post _ _ i
             Ht Htoday Htsd Hgs Hi Hrow Hmiss).
Qed.

Section DaysWithRecordsRun.
#[local] Existing Instance QRuntime.runtime.

(** Witness of X16: the leads created today, counted; and the orders of
    Monday, where the second of two rows gives the value. *)
Lemma X16_witness :
  (LookerReport.get_chart_data Runs.shop_env [MoreRuns.lead_count_by_stage]
   = Ok MoreRuns.lead_count_chart
   /\ line_values MoreRuns.lead_count_chart !! 13%nat
      = Some (day_value None MoreRuns.lead_today))
  /\ (LookerOrderReport.get_chart_data MoreRuns.busy_env [Runs.order_by_customer]
   = Ok MoreRuns.busy_order_chart
   /\ line_values MoreRuns.busy_order_chart !! 12%nat
      = Some (day_value (Some "amount_total") MoreRuns.monday_last)).
Proof.
  split.
  - apply (proj1 (X16_day_with_records_shows_its_last_row Runs.shop_env)
             MoreRuns.lead_count_by_stage (PList []) MoreRuns.lead_count_chart 739923
             Runs.window [] MoreRuns.lead_today [] (PList []) 13%nat);
      try reflexivity.
    + lia.
    + exists (PStr "2026-11-03"). split; reflexivity.
    + constructor.
  - apply (proj2 (X16_day_with_records_shows_its_last_row MoreRuns.busy_env)
             Runs.order_by_customer (PList []) MoreRuns.busy_order_chart 739923
             Runs.window [MoreRuns.monday_first] MoreRuns.monday_last [MoreRuns.tuesday]
             12%nat);
      try reflexivity.
    + lia.
    + exists (PStr "2026-11-02"). split; reflexivity.
    + repeat constructor. intros d Hd.
      change (Ok (PStr "2026-11-03") = Ok d) in Hd. inversion Hd; subst d.
      intros Heq. change ("2026-11-03" = "2026-11-02") in Heq. discriminate Heq.
Defined.

End DaysWithRecordsRun.

(** ** Descriptions proposed by the form *)

Section FormTexts.
Context `{RT : PyRuntime} (env : Env).

Lemma format1_text c t post x s :
  format1 (String c t) post x = Ok s -> field_set (Some s) = true.
Proof.
  unfold format1. destruct x as [| | | | |l|l]; try (intros H; inversion H; reflexivity).
  destruct l as [|y [|z l]]; intros H; inversion H; reflexivity.
Qed.

Lemma for_each_collect_run {A B} (f : B -> res A) gs es :
  Forall2 (fun g e => f g = Ok e) gs es ->
  forall acc, for_each (fun acc g => e ← f g; Ok (acc ++ [e])) acc gs = Ok (acc ++ es).
Proof.
  induction 1 as [|g e gs es Hge _ IH]; intros acc; simpl.
  - now rewrite app_nil_r.
  - rewrite Hge. simpl. rewrite IH. now rewrite <- app_assoc.
Qed.

Lemma Forall2_diag {A} (P : A -> A -> Prop) l : Forall (fun x => P x x) l -> Forall2 P l l.
Proof. induction 1; now constructor. Qed.

Lemma Forall2_Forall_r_weak {A B} (P : A -> B -> Prop) (Q : B -> Prop) l k :
  Forall2 P l k -> (forall x y, P x y -> Q y) -> Forall Q k.
Proof. induction 1; intros Himp; constructor; eauto. Qed.

(** *** The lead model *)

Lemma crm_pie_text r s :
  LookerReportForm._build_pie_description env r = Ok s -> field_set (Some s) = true.
Proof.
  unfold LookerReportForm._build_pie_description.
  destruct (field_set _); intros H.
  - apply bind_Ok in H as (l & _ & H). exact (format1_text _ _ _ _ _ H).
  - inversion H. reflexivity.
Qed.

Lemma crm_bar_text r s :
  LookerReportForm._build_bar_description env r = Ok s -> field_set (Some s) = true.
Proof.
  unfold LookerReportForm._build_bar_description.
  destruct (_ && _); intros H.
  - apply bind_Ok in H as (lv & _ & H). apply bind_Ok in H as (lg & _ & H).
    inversion H. reflexivity.
  - destruct (field_set _).
    + apply bind_Ok in H as (l & _ & H). exact (format1_text _ _ _ _ _ H).
    + inversion H. reflexivity.
Qed.

Lemma crm_line_text r s :
  LookerReportForm._build_line_description env r = Ok s -> field_set (Some s) = true.
Proof.
  unfold LookerReportForm._build_line_description.
  destruct (field_set (LookerReport.success_domain r)); intros H.
  - exact (format1_text _ _ _ _ _ H).
  - destruct (field_set (LookerReport.value_field r)).
    + apply bind_Ok in H as (l & _ & H). inversion H. reflexivity.
    + exact (format1_text _ _ _ _ _ H).
Qed.

Lemma crm_onchange_record_spec r r' :
  LookerReportForm.onchange_record env r = Ok r' ->
  crm_filled_from r r' /\ LookerReportForm.onchange_record env r' = Ok r'.
Proof.
  unfold LookerReportForm.onchange_record. intros H.
  apply bind_Ok in H as (r1 & H1 & H). apply bind_Ok in H as (r2 & H2 & H3).
  destruct (field_set (LookerReport.pie_description r)) eqn:P1; simpl in H1.
  - inversion H1; subst r1; clear H1.
    destruct (field_set (LookerReport.bar_description r)) eqn:P2; simpl in H2.
    + inversion H2; subst r2; clear H2.
      destruct (field_set (LookerReport.line_description r)) eqn:P3; simpl in H3.
      * inversion H3; subst r'; clear H3.
        split; [unfold crm_filled_from; tauto|]. rewrite P1; simpl; rewrite P2; simpl; rewrite P3; reflexivity.
      * apply bind_Ok in H3 as (s3 & T3 & H3). apply crm_line_text in T3.
        inversion H3; subst r'; clear H3. simpl.
        split; [unfold crm_filled_from; simpl; repeat split; (assumption || congruence)|].
        rewrite P1; simpl; rewrite P2; simpl; rewrite T3; reflexivity.
    + apply bind_Ok in H2 as (s2 & T2 & H2). apply crm_bar_text in T2.
      inversion H2; subst r2; clear H2. simpl in H3.
      destruct (field_set (LookerReport.line_description r)) eqn:P3; simpl in H3.
      * inversion H3; subst r'; clear H3. simpl.
        split; [unfold crm_filled_from; simpl; repeat split; (assumption || congruence)|].
        rewrite P1; simpl; rewrite T2; simpl; rewrite P3; reflexivity.
      * apply bind_Ok in H3 as (s3 & T3 & H3). apply crm_line_text in T3.
        inversion H3; subst r'; clear H3. simpl.
        split; [unfold crm_filled_from; simpl; repeat split; (assumption || congruence)|].
        rewrite P1; simpl; rewrite T2; simpl; rewrite T3; reflexivity.
  - apply bind_Ok in H1 as (s1 & T1 & H1). apply crm_pie_text in T1.
    inversion H1; subst r1; clear H1. simpl in H2.
    destruct (field_set (LookerReport.bar_description r)) eqn:P2; simpl in H2.
    + inversion H2; subst r2; clear H2. simpl in H3.
      destruct (field_set (LookerReport.line_description r)) eqn:P3; simpl in H3.
      * inversion H3; subst r'; clear H3. simpl.
        split; [unfold crm_filled_from; simpl; repeat split; (assumption || congruence)|].
        rewrite T1; simpl; rewrite P2; simpl; rewrite P3; reflexivity.
      * apply bind_Ok in H3 as (s3 & T3 & H3). apply crm_line_text in T3.
        inversion H3; subst r'; clear H3. simpl.
        split; [unfold crm_filled_from; simpl; repeat split; (assumption || congruence)|].
        rewrite T1; simpl; rewrite P2; simpl; rewrite T3; reflexivity.
    + apply bind_Ok in H2 as (s2 & T2 & H2). apply crm_bar_text in T2.
      inversion H2; subst r2; clear H2. simpl in H3.
      destruct (field_set (LookerReport.line_description r)) eqn:P3; simpl in H3.
      * inversion H3; subst r'; clear H3. simpl.
        split; [unfold crm_filled_from; simpl; repeat split; (assumption || congruence)|].
        rewrite T1; simpl; rewrite T2; simpl; rewrite P3; reflexivity.
      * apply bind_Ok in H3 as (s3 & T3 & H3). apply crm_line_text in T3.
        inversion H3; subst r'; clear H3. simpl.
        split; [unfold crm_filled_from; simpl; repeat split; (assumption || congruence)|].
        rewrite T1; simpl; rewrite T2; simpl; rewrite T3; reflexivity.
Qed.

End FormTexts.

(** *** The order model *)

Section OrderFormTexts.
Context `{RT : PyRuntime} `{TO : TextOps} (env : Env).

Lemma order_pie_text r s :
  LookerOrderReportForm._build_pie_description env r = Ok s -> field_set (Some s) = true.
Proof.
  unfold LookerOrderReportForm._build_pie_description.
  destruct (field_set _); intros H.
  - apply bind_Ok in H as (l & _ & H). exact (format1_text _ _ _ _ _ H).
  - inversion H. reflexivity.
Qed.

Lemma order_bar_text r s :
  LookerOrderReportForm._build_bar_description env r = Ok s -> field_set (Some s) = true.
Proof.
  unfold LookerOrderReportForm._build_bar_description.
  destruct (_ && _); intros H.
  - apply bind_Ok in H as (lv & _ & H). apply bind_Ok in H as (sval & _ & H).
    apply bind_Ok in H as (lg & _ & H). inversion H. reflexivity.
  - destruct (field_set _).
    + apply bind_Ok in H as (l & _ & H). exact (format1_text _ _ _ _ _ H).
    + inversion H. reflexivity.
Qed.

Lemma order_line_text r s :
  LookerOrderReportForm._build_line_description env r = Ok s -> field_set (Some s) = true.
Proof.
  unfold LookerOrderReportForm._build_line_description.
  destruct (field_set (LookerOrderReport.value_field r)); intros H.
  - apply bind_Ok in H as (l & _ & H). apply bind_Ok in H as (sval & _ & H).
    inversion H. reflexivity.
  - exact (format1_text _ _ _ _ _ H).
Qed.

Lemma order_onchange_record_spec r r' :
  LookerOrderReportForm.onchange_record env r = Ok r' ->
  order_filled_from r r' /\ LookerOrderReportForm.onchange_record env r' = Ok r'.
Proof.
  unfold LookerOrderReportForm.onchange_record. intros H.
  apply bind_Ok in H as (r1 & H1 & H). apply bind_Ok in H as (r2 & H2 & H3).
  destruct (field_set (LookerOrderReport.pie_description r)) eqn:P1; simpl in H1.
  - inversion H1; subst r1; clear H1.
    destruct (field_set (LookerOrderReport.bar_description r)) eqn:P2; simpl in H2.
    + inversion H2; subst r2; clear H2.
      destruct (field_set (LookerOrderReport.line_description r)) eqn:P3; simpl in H3.
      * inversion H3; subst r'; clear H3.
        split; [unfold order_filled_from; tauto|]. rewrite P1; simpl; rewrite P2; simpl; rewrite P3; reflexivity.
      * apply bind_Ok in H3 as (s3 & T3 & H3). apply order_line_text in T3.
        inversion H3; subst r'; clear H3. simpl.
        split; [unfold order_filled_from; simpl; repeat split; (assumption || congruence)|].
        rewrite P1; simpl; rewrite P2; simpl; rewrite T3; reflexivity.
    + apply bind_Ok in H2 as (s2 & T2 & H2). apply order_bar_text in T2.
      inversion H2; subst r2; clear H2. simpl in H3.
      destruct (field_set (LookerOrderReport.line_description r)) eqn:P3; simpl in H3.
      * inversion H3; subst r'; clear H3. simpl.
        split; [unfold order_filled_from; simpl; repeat split; (assumption || congruence)|].
        rewrite P1; simpl; rewrite T2; simpl; rewrite P3; reflexivity.
      * apply bind_Ok in H3 as (s3 & T3 & H3). apply order_line_text in T3.
        inversion H3; subst r'; clear H3. simpl.
        split; [unfold order_filled_from; simpl; repeat split; (assumption || congruence)|].
        rewrite P1; simpl; rewrite T2; simpl; rewrite T3; reflexivity.
  - apply bind_Ok in H1 as (s1 & T1 & H1). apply order_pie_text in T1.
    inversion H1; subst r1; clear H1. simpl in H2.
    destruct (field_set (LookerOrderReport.bar_description r)) eqn:P2; simpl in H2.
    + inversion H2; subst r2; clear H2. simpl in H3.
      destruct (field_set (LookerOrderReport.line_description r)) eqn:P3; simpl in H3.
      * inversion H3; subst r'; clear H3. simpl.
        split; [unfold order_filled_from; simpl; repeat split; (assumption || congruence)|].
        rewrite T1; simpl; rewrite P2; simpl; rewrite P3; reflexivity.
      * apply bind_Ok in H3 as (s3 & T3 & H3). apply order_line_text in T3.
        inversion H3; subst r'; clear H3. simpl.
        split; [unfold order_filled_from; simpl; repeat split; (assumption || congruence)|].
        rewrite T1; simpl; rewrite P2; simpl; rewrite T3; reflexivity.
    + apply bind_Ok in H2 as (s2 & T2 & H2). apply order_bar_text in T2.
      inversion H2; subst r2; clear H2. simpl in H3.
      destruct (field_set (LookerOrderReport.line_description r)) eqn:P3; simpl in H3.
      * inversion H3; subst r'; clear H3. simpl.
        split; [unfold order_filled_from; simpl; repeat split; (assumption || congruence)|].
        rewrite T1; simpl; rewrite T2; simpl; rewrite P3; reflexivity.
      * apply bind_Ok in H3 as (s3 & T3 & H3). apply order_line_text in T3.
        inversion H3; subst r'; clear H3. simpl.
        split; [unfold order_filled_from; simpl; repeat split; (assumption || congruence)|].
        rewrite T1; simpl; rewrite T2; simpl; rewrite T3; reflexivity.
Qed.

End OrderFormTexts.

(** X17. [_onchange_auto_descriptions] only fills what is empty: when it
    returns, every record has its three descriptions set, a description that
    was there before is kept as it was, and no other field is touched; and
    running the handler again on its result changes nothing.  On both
    models. *)
Theorem X17_onchange_fills_only_empty_descriptions `{RT : PyRuntime} `{TO : TextOps}
    (env : Env) :
  (forall rs rs',
     LookerReportForm._onchange_auto_descriptions env rs = Ok rs' ->
     Forall2 crm_filled_from rs rs'
     /\ LookerReportForm._onchange_auto_descriptions env rs' = Ok rs')
  /\ (forall rs rs',
     LookerOrderReportForm._onchange_auto_descriptions env rs = Ok rs' ->
     Forall2 order_filled_from rs rs'
     /\ LookerOrderReportForm._onchange_auto_descriptions env rs' = Ok rs').
Proof.
  split; intros rs rs' H.
  - unfold LookerReportForm._onchange_auto_descriptions in *.
    apply for_each_collect in H as (es & -> & Hall). simpl.
    split.
    + eapply Forall2_impl; [exact Hall|]. intros r r' Hr.
      now apply (crm_onchange_record_spec env).
    + apply (for_each_collect_run (LookerReportForm.onchange_record env) es es).
      apply Forall2_diag.
      apply (Forall2_Forall_r_weak _ _ _ _ Hall). intros r r' Hr.
      now apply (crm_onchange_record_spec env r).
  - unfold LookerOrderReportForm._onchange_auto_descriptions in *.
    apply for_each_collect in H as (es & -> & Hall). simpl.
    split.
    + eapply Forall2_impl; [exact Hall|]. intros r r' Hr.
      now apply (order_onchange_record_spec env).
    + apply (for_each_collect_run (LookerOrderReportForm.onchange_record env) es es).
      apply Forall2_diag.
      apply (Forall2_Forall_r_weak _ _ _ _ Hall). intros r r' Hr.
      now apply (order_onchange_record_spec env r).
Qed.

Section OnchangeRun.
#[local] Existing Instance QRuntime.runtime.

(** Witness of X17: a lead report and an order report with a pie
    description of the user's own. *)
Lemma X17_witness :
  (Forall2 crm_filled_from [MoreRuns.half_described_lead] MoreRuns.lead_proposed
   /\ LookerReportForm._onchange_auto_descriptions Runs.shop_env MoreRuns.lead_proposed
      = Ok MoreRuns.lead_proposed)
  /\ (Forall2 order_filled_from [MoreRuns.half_described_order] MoreRuns.order_proposed
   /\ LookerOrderReportForm._onchange_auto_descriptions (TO := MoreRuns.ascii_text)
        Runs.shop_env MoreRuns.order_proposed
      = Ok MoreRuns.order_proposed).
Proof.
  split.
  - apply (proj1 (@X17_onchange_fills_only_empty_descriptions QRuntime.runtime
                    MoreRuns.ascii_text Runs.shop_env)
             [MoreRuns.half_described_lead]).
    reflexivity.
  - apply (proj2 (@X17_onchange_fills_only_empty_descriptions QRuntime.runtime
                    MoreRuns.ascii_text Runs.shop_env)
             [MoreRuns.half_described_order]).
    reflexivity.
Defined.

End OnchangeRun.

Section FormAndCreate.
Context `{RT : PyRuntime} `{TO : TextOps} (env : Env).

Lemma field_value_truthy v o : field_value v o -> py_truthy v = field_set o.
Proof.
  unfold field_value. destruct (field_set o) eqn:Ho; [|tauto].
  intros ->. exact Ho.
Qed.

Lemma field_value_set v o : field_value v o -> field_set o = true -> v = of_field o.
Proof. unfold field_value. intros H Ho. now rewrite Ho in H. Qed.

Lemma field_set_name o : field_set o = true -> exists s, o = Some s /\ s <> "".
Proof.
  destruct o as [s|]; [|discriminate]. intros H. exists s. split; [reflexivity|].
  now apply field_set_nonempty.
Qed.

Lemma crm_texts_agree (r : LookerReport.report) vals pie bar line :
  crm_vals_of vals r ->
  LookerReport.auto_descriptions env [] vals = Ok (pie, bar, line) ->
  LookerReportForm._build_pie_description env r = Ok pie
  /\ LookerReportForm._build_bar_description env r = Ok bar
  /\ (field_set (LookerReport.success_domain r) = false ->
      LookerReportForm._build_line_description env r = Ok line).
Proof.
  intros (Hg & Hv & Hd) H.
  pose proof (field_value_truthy _ _ Hg) as Tg.
  pose proof (field_value_truthy _ _ Hv) as Tv.
  pose proof (field_value_truthy _ _ Hd) as Td.
  unfold LookerReport.auto_descriptions, LookerReport.or_stored, LookerReport.filter_note in H.
  rewrite Tg, Tv, Td in H.
  apply bind_Ok in H as (p & Hp & H). apply bind_Ok in H as (b & Hb & H).
  apply bind_Ok in H as (l & Hl & H). inversion H; subst p b l. clear H.
  unfold LookerReportForm._build_pie_description, LookerReportForm._build_bar_description,
    LookerReportForm._build_line_description.
  destruct (field_set (LookerReport.group_field r)) eqn:G.
  - rewrite (field_value_set _ _ Hg G) in Hp, Hb.
    destruct (field_set_name _ G) as (gs & Hgs & Hne).
    split; [exact Hp|].
    destruct (field_set (LookerReport.value_field r)) eqn:V; simpl in *.
    + rewrite (field_value_set _ _ Hv V) in Hb, Hl.
      split; [exact Hb|]. intros ->. exact Hl.
    + split.
      * apply bind_Ok in Hb as (lg & Hlg & Hb). rewrite crm_label_same in Hlg.
        rewrite Hlg. simpl. rewrite Hgs in Hlg. simpl in Hlg.
        destruct (crm_label_text env gs lg Hne Hlg) as (t & -> & _).
        exact Hb.
      * intros ->. exact Hl.
  - split; [exact Hp|].
    destruct (field_set (LookerReport.value_field r)) eqn:V; simpl in *.
    + rewrite (field_value_set _ _ Hv V) in Hl.
      split; [exact Hb|]. intros ->. exact Hl.
    + split; [exact Hb|]. intros ->. exact Hl.
Qed.

Lemma order_texts_agree (r : LookerOrderReport.report) vals pie bar line :
  order_vals_of vals r ->
  LookerOrderReport.auto_descriptions env [] vals = Ok (pie, bar, line) ->
  LookerOrderReportForm._build_pie_description env r = Ok pie
  /\ ((field_set (LookerOrderReport.value_field r) = true ->
       forall lv,
         LookerOrderReport._order_field_label env (of_field (LookerOrderReport.value_field r))
         = Ok lv ->
         LookerOrderReportForm.value_words lv = Ok (py_str lv)) ->
      LookerOrderReportForm._build_bar_description env r = Ok bar
      /\ LookerOrderReportForm._build_line_description env r = Ok line).
Proof.
  intros (Hg & Hv & Hd) H.
  pose proof (field_value_truthy _ _ Hg) as Tg.
  pose proof (field_value_truthy _ _ Hv) as Tv.
  pose proof (field_value_truthy _ _ Hd) as Td.
  unfold LookerOrderReport.auto_descriptions, LookerOrderReport.or_stored,
    LookerOrderReport.filter_note in H.
  rewrite Tg, Tv, Td in H.
  apply bind_Ok in H as (p & Hp & H). apply bind_Ok in H as (b & Hb & H).
  apply bind_Ok in H as (l & Hl & H). inversion H; subst p b l. clear H.
  unfold LookerOrderReportForm._build_pie_description,
    LookerOrderReportForm._build_bar_description,
    LookerOrderReportForm._build_line_description.
  destruct (field_set (LookerOrderReport.group_field r)) eqn:G.
  - rewrite (field_value_set _ _ Hg G) in Hp, Hb.
    destruct (field_set_name _ G) as (gs & Hgs & Hne).
    split; [exact Hp|]. intros Hw.
    destruct (field_set (LookerOrderReport.value_field r)) eqn:V; simpl in *.
    + rewrite (field_value_set _ _ Hv V) in Hb, Hl.
      apply bind_Ok in Hb as (lv & Hlv & Hb). rewrite Hlv. simpl.
      rewrite (Hw eq_refl lv Hlv). simpl. split; [exact Hb|].
      apply bind_Ok in Hl as (lv' & Hlv' & Hl). rewrite Hlv in Hlv'.
      inversion Hlv'; subst lv'. exact Hl.
    + split; [|exact Hl].
      apply bind_Ok in Hb as (lg & Hlg & Hb).
      rewrite Hlg. simpl. rewrite Hgs in Hlg. simpl in Hlg.
      destruct (order_label_text env gs lg Hne Hlg) as (t & -> & _).
      exact Hb.
  - split; [exact Hp|]. intros Hw.
    destruct (field_set (LookerOrderReport.value_field r)) eqn:V; simpl in *.
    + rewrite (field_value_set _ _ Hv V) in Hl.
      split; [exact Hb|].
      apply bind_Ok in Hl as (lv & Hlv & Hl). rewrite Hlv. simpl.
      rewrite (Hw eq_refl lv Hlv). simpl. exact Hl.
    + split; [exact Hb | exact Hl].
Qed.

End FormAndCreate.

(** X18. The texts the form proposes are the texts [create] stores: for a
    dict of values that gives the group field, the value field and the
    domain of a record, the pie and bar texts of [_ensure_auto_descriptions]
    are those of [_build_pie_description] and [_build_bar_description] on
    that record, and so is the line text as long as the record has no
    success domain, which [_ensure_auto_descriptions] does not look at.  On
    the order model the pie texts agree, and the bar and line texts agree
    whenever the lines that drop a leading [Tổng] leave the label of the
    value field as it is; [_ensure_auto_descriptions] has no such lines. *)
Theorem X18_form_and_create_texts_agree `{RT : PyRuntime} `{TO : TextOps} (env : Env) :
  (forall (r : LookerReport.report) vals pie bar line,
     crm_vals_of vals r ->
     LookerReport.auto_descriptions env [] vals = Ok (pie, bar, line) ->
     LookerReportForm._build_pie_description env r = Ok pie
     /\ LookerReportForm._build_bar_description env r = Ok bar
     /\ (field_set (LookerReport.success_domain r) = false ->
         LookerReportForm._build_line_description env r = Ok line))
  /\ (forall (r : LookerOrderReport.report) vals pie bar line,
     order_vals_of vals r ->
     LookerOrderReport.auto_descriptions env [] vals = Ok (pie, bar, line) ->
     LookerOrderReportForm._build_pie_description env r = Ok pie
     /\ ((field_set (LookerOrderReport.value_field r) = true ->
          forall lv,
            LookerOrderReport._order_field_label env
              (of_field (LookerOrderReport.value_field r)) = Ok lv ->
            LookerOrderReportForm.value_words lv = Ok (py_str lv)) ->
         LookerOrderReportForm._build_bar_description env r = Ok bar
         /\ LookerOrderReportForm._build_line_description env r = Ok line)).
Proof.
  split.
  - intros r vals pie bar line. apply crm_texts_agree.
  - intros r vals pie bar line. apply order_texts_agree.
Qed.

Section FormAndCreateRun.
#[local] Existing Instance QRuntime.runtime.

(** Witness of X18: leads by stage with the expected revenue, and orders by
    the customer's country with the untaxed amount. *)
Lemma X18_witness :
  (LookerReportForm._build_pie_description Runs.shop_env MoreRuns.lead_in_form
   = Ok "Phân bố khách hàng tiềm năng theo Giai đoạn."
   /\ LookerReportForm._build_bar_description Runs.shop_env MoreRuns.lead_in_form
      = Ok "Tổng Doanh thu dự kiến theo Giai đoạn."
   /\ LookerReportForm._build_line_description Runs.shop_env MoreRuns.lead_in_form
      = Ok "Xu hướng tổng Doanh thu dự kiến theo ngày trong 14 ngày gần nhất.")
  /\ (LookerOrderReportForm._build_pie_description Runs.shop_env MoreRuns.order_in_form
   = Ok "Phân bố đơn hàng theo Quốc gia (Khách hàng)."
   /\ LookerOrderReportForm._build_bar_description (TO := MoreRuns.ascii_text)
        Runs.shop_env MoreRuns.order_in_form
      = Ok "Tổng amount_untaxed theo Quốc gia (Khách hàng)."
   /\ LookerOrderReportForm._build_line_description (TO := MoreRuns.ascii_text)
        Runs.shop_env MoreRuns.order_in_form
      = Ok "Xu hướng tổng amount_untaxed theo ngày trong 14 ngày gần nhất.").
Proof.
  split.
  - destruct (proj1 (@X18_form_and_create_texts_agree QRuntime.runtime MoreRuns.ascii_text
                       Runs.shop_env)
                MoreRuns.lead_in_form Runs.lead_vals _ _ _
                (conj eq_refl (conj eq_refl eq_refl)) eq_refl) as (Hp & Hb & Hl).
    split; [exact Hp|]. split; [exact Hb|]. exact (Hl eq_refl).
  - destruct (proj2 (@X18_form_and_create_texts_agree QRuntime.runtime MoreRuns.ascii_text
                       Runs.shop_env)
                MoreRuns.order_in_form MoreRuns.untaxed_vals _ _ _
                (conj eq_refl (conj eq_refl eq_refl)) eq_refl) as (Hp & Hbl).
    split; [exact Hp|]. apply Hbl. intros _ lv Hlv.
    change (Ok (PStr "amount_untaxed") = Ok lv) in Hlv. inversion Hlv. reflexivity.
Defined.

End FormAndCreateRun.

(** ** The fallback on the stored record *)

Section StoredFallback.
Context `{RT : PyRuntime} (env : Env).

Lemma stored_or_run o x :
  (if negb (py_truthy x) && true then py_or (of_field o) x else x) = stored_or o x.
Proof. unfold stored_or. now destruct (py_truthy x). Qed.

Lemma crm_completed_inputs r vals :
  row_get "group_field" (crm_completed r vals)
  = stored_or (LookerReport.group_field r) (row_get "group_field" vals)
  /\ row_get "value_field" (crm_completed r vals)
     = stored_or (LookerReport.value_field r) (row_get "value_field" vals)
  /\ row_get "domain" (crm_completed r vals)
     = stored_or (LookerReport.domain r) (row_get "domain" vals).
Proof.
  unfold crm_completed. repeat split; unfold row_get at 1.
  - now rewrite lookup_insert_eq.
  - rewrite lookup_insert_ne by discriminate. now rewrite lookup_insert_eq.
  - rewrite !lookup_insert_ne by discriminate. now rewrite lookup_insert_eq.
Qed.

Lemma order_completed_inputs r vals :
  row_get "group_field" (order_completed r vals)
  = stored_or (LookerOrderReport.group_field r) (row_get "group_field" vals)
  /\ row_get "value_field" (order_completed r vals)
     = stored_or (LookerOrderReport.value_field r) (row_get "value_field" vals)
  /\ row_get "domain" (order_completed r vals)
     = stored_or (LookerOrderReport.domain r) (row_get "domain" vals).
Proof.
  unfold order_completed. repeat split; unfold row_get at 1.
  - now rewrite lookup_insert_eq.
  - rewrite lookup_insert_ne by discriminate. now rewrite lookup_insert_eq.
  - rewrite !lookup_insert_ne by discriminate. now rewrite lookup_insert_eq.
Qed.

Lemma crm_or_stored_none self x stored :
  crm_no_record env self -> LookerReport.or_stored env self x stored = x.
Proof.
  intros Hno. unfold LookerReport.or_stored. destruct self as [|r [|r2 t]]; try reflexivity.
  rewrite (Hno r eq_refl). now rewrite andb_false_r.
Qed.

Lemma order_or_stored_none self x stored :
  order_no_record env self -> LookerOrderReport.or_stored env self x stored = x.
Proof.
  intros Hno. unfold LookerOrderReport.or_stored.
  destruct self as [|r [|r2 t]]; try reflexivity.
  rewrite (Hno r eq_refl). now rewrite andb_false_r.
Qed.

End StoredFallback.

(** X19. Where the texts of [_ensure_auto_descriptions] take their inputs:
    on one existing record (a [write]) an input the dict leaves out or gives
    empty is read from the record, so that the texts are those of the dict
    completed with the stored group field, value field and domain; on an
    empty recordset (a [create]), on several records, or on a record that
    does not exist any more, only the dict counts.  On both models. *)
Theorem X19_texts_fall_back_on_the_stored_record `{RT : PyRuntime} (env : Env) :
  (forall (r : LookerReport.report) vals,
     record_exists env (LookerReport.report_id r) = true ->
     LookerReport.auto_descriptions env [r] vals
     = LookerReport.auto_descriptions env [] (crm_completed r vals))
  /\ (forall (self : list LookerReport.report) vals,
     crm_no_record env self ->
     LookerReport.auto_descriptions env self vals
     = LookerReport.auto_descriptions env [] vals)
  /\ (forall (r : LookerOrderReport.report) vals,
     record_exists env (LookerOrderReport.report_id r) = true ->
     LookerOrderReport.auto_descriptions env [r] vals
     = LookerOrderReport.auto_descriptions env [] (order_completed r vals))
  /\ (forall (self : list LookerOrderReport.report) vals,
     order_no_record env self ->
     LookerOrderReport.auto_descriptions env self vals
     = LookerOrderReport.auto_descriptions env [] vals).
Proof.
  split; [|split; [|split]].
  - intros r vals Hex. unfold LookerReport.auto_descriptions.
    destruct (crm_completed_inputs r vals) as (-> & -> & ->).
    unfold LookerReport.or_stored. rewrite Hex, !stored_or_run. reflexivity.
  - intros self vals Hno. unfold LookerReport.auto_descriptions.
    rewrite !(crm_or_stored_none env self) by exact Hno. reflexivity.
  - intros r vals Hex. unfold LookerOrderReport.auto_descriptions.
    destruct (order_completed_inputs r vals) as (-> & -> & ->).
    unfold LookerOrderReport.or_stored. rewrite Hex, !stored_or_run. reflexivity.
  - intros self vals Hno. unfold LookerOrderReport.auto_descriptions.
    rewrite !(order_or_stored_none env self) by exact Hno. reflexivity.
Qed.

Section StoredFallbackRun.
#[local] Existing Instance QRuntime.runtime.

(** Witness of X19: a write that clears the group field on the stored
    reports by stage and by customer, and the same write on two records at
    once. *)
Lemma X19_witness :
  (LookerReport.auto_descriptions Runs.shop_env [Runs.lead_by_stage] Runs.clear_group
   = LookerReport.auto_descriptions Runs.shop_env []
       (crm_completed Runs.lead_by_stage Runs.clear_group))
  /\ (LookerReport.auto_descriptions Runs.shop_env
        [Runs.lead_by_stage; MoreRuns.lead_in_form] Runs.clear_group
      = LookerReport.auto_descriptions Runs.shop_env [] Runs.clear_group)
  /\ (LookerOrderReport.auto_descriptions Runs.shop_env [Runs.order_by_customer]
        Runs.clear_group
      = LookerOrderReport.auto_descriptions Runs.shop_env []
          (order_completed Runs.order_by_customer Runs.clear_group))
  /\ (LookerOrderReport.auto_descriptions Runs.shop_env
        [Runs.order_by_customer; MoreRuns.order_in_form] Runs.clear_group
      = LookerOrderReport.auto_descriptions Runs.shop_env [] Runs.clear_group).
Proof.
  pose proof (X19_texts_fall_back_on_the_stored_record Runs.shop_env) as (H1 & H2 & H3 & H4).
  split; [|split; [|split]].
  - apply (H1 Runs.lead_by_stage Runs.clear_group). reflexivity.
  - apply (H2 [Runs.lead_by_stage; MoreRuns.lead_in_form] Runs.clear_group).
    intros r Hr. discriminate Hr.
  - apply (H3 Runs.order_by_customer Runs.clear_group). reflexivity.
  - apply (H4 [Runs.order_by_customer; MoreRuns.order_in_form] Runs.clear_group).
    intros r Hr. discriminate Hr.
Defined.

End StoredFallbackRun.

(** X20. The choices for the group field of a lead report.  When
    [ir.model.fields] answers for the six preferred names and knows at least
    one of them, the choices are exactly the fields it knows, in the order
    of the list of names, each as its name and its description, and the
    scan of all the fields of [crm.lead] is not used; when it knows none of
    them, the choices are the fields of the scan of type char, selection or
    many2one, in the order of the scan. *)
Theorem X20_crm_group_choices `{RT : PyRuntime} (env : Env)
    (answers : list (option field_rec)) :
  catalog_answers env LookerReport.model crm_group_names answers ->
  (known_fields answers <> [] ->
   forall scan, LookerReportForm._get_crm_group_fields env scan
                = Ok (map selection_item (known_fields answers)))
  /\ (known_fields answers = [] ->
      forall scan, LookerReportForm._get_crm_group_fields env scan
                   = scanned groupable (scan LookerReport.model)).
Proof.
  intros Hanswers.
  pose proof (group_loop env _ _ _ Hanswers []) as Hloop.
  rewrite app_nil_l in Hloop. unfold crm_group_names in Hloop.
  split; intros Hknown scan; unfold LookerReportForm._get_crm_group_fields;
    rewrite Hloop; simpl.
  - destruct (known_fields answers); [contradiction | reflexivity].
  - rewrite Hknown. simpl. unfold scanned. now destruct (scan LookerReport.model).
Qed.

Section GroupChoicesOfLeadsRun.
#[local] Existing Instance QRuntime.runtime.

(** Witness of X20: the wider catalog knows the first and the third of the
    six names, the stage and the sales team; they are offered in that
    order, with the scan out of order. *)
Lemma X20_witness :
  LookerReportForm._get_crm_group_fields MoreRuns.catalog_env MoreRuns.no_scan
  = Ok [("stage_id", "Giai đoạn"); ("team_id", "Đội ngũ bán hàng")].
Proof.
  rewrite (proj1 (X20_crm_group_choices MoreRuns.catalog_env
                    [Some MoreRuns.stage_field; None; Some MoreRuns.team_field;
                     None; None; None]
                    ltac:(repeat constructor))
             ltac:(discriminate) MoreRuns.no_scan).
  reflexivity.
Defined.

End GroupChoicesOfLeadsRun.

(** ** The pages *)

Section Pages.
Context `{RT : PyRuntime} `{JS : !JsonOps} (env : Env)
        (lead_probabilities : pyval -> res (list float)).

Lemma py_add_total a b v : py_add a b = Ok v -> is_total v.
Proof.
  unfold py_add. destruct (as_num a) as [[x|x]|], (as_num b) as [[y|y]|];
    try discriminate; intros H;
    try (inversion H; exact I);
    apply bind_Ok in H as (fx & _ & H); apply bind_Ok in H as (fy & _ & H);
    inversion H; exact I.
Qed.

Lemma py_sum_total l v : py_sum l = Ok v -> is_total v.
Proof.
  unfold py_sum. apply (for_each_inv is_total); [exact I|].
  intros a x a' _ H. exact (py_add_total _ _ _ H).
Qed.

Lemma total_of_total model dom counts v :
  LookerReportController.total_of env model dom counts = Ok v -> is_total v.
Proof.
  unfold LookerReportController.total_of. destruct counts as [|c t].
  - intros H. apply bind_Ok in H as (n & _ & H). inversion H. exact I.
  - apply py_sum_total.
Qed.

Lemma py_sum_ints zs :
  forall acc, for_each py_add (PInt acc) (map PInt zs) = Ok (PInt (acc + fold_right Z.add 0 zs)).
Proof.
  induction zs as [|z t IH]; intros acc; simpl.
  - now rewrite Z.add_0_r.
  - rewrite IH. do 2 f_equal. lia.
Qed.

Lemma float_ratio_divides {IL : IntFloatLaws} a t :
  is_total t -> py_truthy t = true -> float_ratio a t <> Raise ZeroDivisionError.
Proof.
  intros Ht Htruthy. unfold float_ratio.
  destruct (py_float a) as [fa|e] eqn:Ha; simpl.
  2:{ intros H. inversion H; subst e. destruct a as [|b|z|f|s|l|l]; simpl in Ha;
        try discriminate.
      - now destruct (f_of_Z (Z.b2z b)).
      - now destruct (f_of_Z z).
      - now destruct (f_of_string s). }
  destruct t as [|b|z|f|s|l|l]; try contradiction; simpl in *.
  - destruct (f_of_Z z) as [fz|] eqn:Hz; simpl; [|discriminate].
    rewrite (f_of_Z_nonzero z fz); [discriminate | | exact Hz].
    intros ->. discriminate Htruthy.
  - apply negb_true_iff in Htruthy. rewrite Htruthy. discriminate.
Qed.

Lemma order_page_total (report : LookerOrderReport.report) p :
  LookerReportController.render_order_report env report = Ok (Rendered p) ->
  exists c dom,
    LookerOrderReport.get_chart_data env [report] = Ok c
    /\ LookerOrderReport._eval_domain env report = Ok dom
    /\ LookerReportController.total_of env LookerOrderReport.model dom (count_values c)
       = Ok (stat_total_leads p).
Proof.
  unfold LookerReportController.render_order_report. intros Hp.
  destruct (negb _); [discriminate|].
  apply bind_Ok in Hp as (c & Hc & Hp). apply bind_Ok in Hp as (dom & Hd & Hp).
  apply bind_Ok in Hp as (total & Htot & Hp).
  apply bind_Ok in Hp as (amount & _ & Hp). apply bind_Ok in Hp as (a & _ & Hp).
  apply bind_Ok in Hp as (j1 & _ & Hp). apply bind_Ok in Hp as (j2 & _ & Hp).
  apply bind_Ok in Hp as (j3 & _ & Hp). apply bind_Ok in Hp as (j4 & _ & Hp).
  apply bind_Ok in Hp as (j5 & _ & Hp). apply bind_Ok in Hp as (j6 & _ & Hp).
  apply bind_Ok in Hp as (j7 & _ & Hp).
  inversion Hp; subst p. simpl. now exists c, dom.
Qed.

Lemma shown_total_page (r : res response) z :
  shown_total r = Some z -> exists p, r = Ok (Rendered p) /\ stat_total_leads p = PInt z.
Proof.
  unfold shown_total. destruct r as [[|p]|e]; try discriminate.
  destruct (stat_total_leads p) eqn:Hp; try discriminate.
  intros H. inversion H; subst. now exists p.
Qed.

End Pages.

(** X22. What [get_chart_data] swallows can still fail the page.  For a
    report without a group field whose [search_count] raises,
    [get_chart_data] returns the zeroed chart; the route then finds no
    counts, asks [search_count] itself, outside any [try], and the exception
    leaves the route.  On both routes. *)
Theorem X22_a_failing_count_fails_the_page `{RT : PyRuntime} `{JS : !JsonOps} (env : Env)
    (lead_probabilities : pyval -> res (list float)) :
  (forall (report : LookerReport.report) dom e,
     record_exists env (LookerReport.report_id report) = true ->
     field_set (LookerReport.group_field report) = false ->
     LookerReport._eval_domain env report = Ok dom ->
     search_count env LookerReport.model dom = Raise e ->
     LookerReport.get_chart_data env [report] = Ok empty_chart
     /\ LookerReportController.render_report env lead_probabilities report = Raise e)
  /\ (forall (report : LookerOrderReport.report) dom e,
     record_exists env (LookerOrderReport.report_id report) = true ->
     field_set (LookerOrderReport.group_field report) = false ->
     LookerOrderReport._eval_domain env report = Ok dom ->
     search_count env LookerOrderReport.model dom = Raise e ->
     LookerOrderReport.get_chart_data env [report] = Ok empty_chart
     /\ LookerReportController.render_order_report env report = Raise e).
Proof.
  split; intros report dom e Hex Hgf Hdom Hcount.
  - assert (Hdata : LookerReport.get_chart_data env [report] = Ok empty_chart).
    { unfold LookerReport.get_chart_data. simpl. rewrite Hdom. simpl.
      unfold LookerReport.chart_body, LookerReport.group_part.
      now rewrite Hgf, Hcount. }
    split; [exact Hdata|].
    unfold LookerReportController.render_report. rewrite Hex, Hdata. simpl.
    destruct (LookerReportController.success_of env report) as [p sd].
    rewrite Hdom. simpl. now rewrite Hcount.
  - assert (Hdata : LookerOrderReport.get_chart_data env [report] = Ok empty_chart).
    { unfold LookerOrderReport.get_chart_data. simpl. rewrite Hdom. simpl.
      unfold LookerOrderReport.chart_body.
      rewrite (order_group_part_total env report dom Hgf).
      unfold LookerOrderReport.total_part. now rewrite Hcount. }
    split; [exact Hdata|].
    unfold LookerReportController.render_order_report. rewrite Hex, Hdata. simpl.
    rewrite Hdom. simpl. now rewrite Hcount.
Qed.

(** X23. The list behind [probability_json] of the lead page is always
    there, whatever raises inside its [try]: with a group field it has one
    value per label of the chart, and without a group field, where the chart
    has at most the label [All], it has exactly one value. *)
Theorem X23_one_probability_per_label `{RT : PyRuntime} (env : Env)
    (lead_probabilities : pyval -> res (list float))
    (report : LookerReport.report) (dom : pyval) (labels : list string) :
  exists ps,
    LookerReportController.probability_values env lead_probabilities report dom labels = Ok ps
    /\ (field_set (LookerReport.group_field report) = true -> length ps = length labels)
    /\ (field_set (LookerReport.group_field report) = false ->
        (length labels <= 1)%nat -> length ps = 1%nat).
Proof.
  unfold LookerReportController.probability_values.
  destruct (field_set (LookerReport.group_field report)).
  - match goal with |- context [try_except ?b ?h] => destruct b as [ps|e] eqn:Hb end; simpl.
    + exists ps. split; [reflexivity|]. split; [|discriminate]. intros _.
      apply bind_Ok in Hb as (groups & _ & Hb). apply bind_Ok in Hb as (m & _ & Hb).
      apply for_each_collect in Hb as (es & -> & Hall). simpl.
      symmetry. exact (Forall2_length _ _ _ Hall).
    + eexists. split; [reflexivity|]. split; [|discriminate]. intros _.
      now rewrite length_replicate.
  - match goal with |- context [try_except ?b ?h] => destruct b as [ps|e] eqn:Hb end; simpl.
    + exists ps. split; [reflexivity|]. split; [discriminate|]. intros _ _.
      apply bind_Ok in Hb as (found & _ & Hb). destruct found as [|p t].
      * now inversion Hb.
      * apply bind_Ok in Hb as (avg & _ & Hb). now inversion Hb.
    + eexists. split; [reflexivity|]. split; [discriminate|]. intros _ Hlen.
      destruct labels as [|l [|l2 t]]; simpl in *; [reflexivity | reflexivity | lia].
Qed.

(** X24. The figures of the small table never divide by zero: for the
    total the routes compute ([sum(counts)], or [search_count] when there
    are no counts), which is an integer or a float, the success percentage
    and the average value are [0.0] when the total is zero, and raise no
    [ZeroDivisionError] otherwise (an integer other than zero being other
    than zero as a float). *)
Theorem X24_figures_never_divide_by_zero `{RT : PyRuntime} {IL : IntFloatLaws} (env : Env)
    (model : string) (dom : pyval) (counts : list pyval) (total : pyval) :
  LookerReportController.total_of env model dom counts = Ok total ->
  is_total total
  /\ (forall s, success_pct_of s total <> Raise ZeroDivisionError)
  /\ (forall v, avg_value_of v total <> Raise ZeroDivisionError)
  /\ (py_truthy total = false ->
      forall x, success_pct_of x total = Ok (PFloat f_zero)
                /\ avg_value_of x total = Ok (PFloat f_zero)).
Proof.
  intros H. pose proof (total_of_total env model dom counts total H) as Ht.
  split; [exact Ht|]. split; [|split].
  - intros s. unfold success_pct_of. destruct (py_truthy total) eqn:Htruthy; [|discriminate].
    pose proof (float_ratio_divides s total Ht Htruthy) as Hr.
    destruct (float_ratio s total) as [q|e]; simpl; [discriminate|].
    intros Heq. inversion Heq; subst e. now apply Hr.
  - intros v. unfold avg_value_of. destruct (py_truthy total) eqn:Htruthy; [|discriminate].
    simpl. destruct (py_truthy v); [|discriminate].
    pose proof (float_ratio_divides v total Ht Htruthy) as Hr.
    destruct (float_ratio v total) as [q|e]; simpl; [discriminate|].
    intros Heq. inversion Heq; subst e. now apply Hr.
  - intros Hfalse x. unfold success_pct_of, avg_value_of. now rewrite Hfalse.
Qed.

(** X25. On the page of an order report grouped by weekday the total of
    the table is the number of orders with a usable date: the route adds up
    the seven counts of the chart, so that orders without a date, which
    [search_count] would count on an ungrouped report, are left out.  Under
    the conditions of a run of [get_chart_data] that raises nothing. *)
Theorem X25_weekday_page_counts_dated_orders `{RT : PyRuntime} {HL : RuntimeLaws}
    `{JS : !JsonOps} (env : Env) (report : LookerOrderReport.report) (dom : pyval)
    (rows : list order_row) (ll : list string) (lv : list pyval) :
  record_exists env (LookerOrderReport.report_id report) = true ->
  LookerOrderReport.group_field report = Some "date_order_weekday" ->
  LookerOrderReport._eval_domain env report = Ok dom ->
  search env dom = Ok rows ->
  (field_set (LookerOrderReport.value_field report) = true ->
   values_convert (default "" (LookerOrderReport.value_field report)) rows) ->
  LookerOrderReport.time_series env report dom = Ok (ll, lv) ->
  exists c,
    LookerOrderReport.get_chart_data env [report] = Ok c
    /\ LookerReportController.total_of env LookerOrderReport.model dom (count_values c)
       = Ok (PInt (Z.of_nat (length (dated rows))))
    /\ forall p,
         LookerReportController.render_order_report env report = Ok (Rendered p) ->
         stat_total_leads p = PInt (Z.of_nat (length (dated rows))).
Proof.
  intros Hex Hgf Hdom Hrows Hvals Ht.
  assert (Hdata : LookerOrderReport.get_chart_data env [report]
                  = Ok {| labels := days;
                          count_values := map PInt (map (fun i => count_on i rows) (seq 0 7));
                          sum_values :=
                            map (fun i => PFloat (bucket_sum report i rows)) (seq 0 7);
                          line_labels := ll; line_values := lv |}).
  { apply (order_chart_of_parts env report dom); [exact Hdom | | exact Ht].
    unfold LookerOrderReport.group_part. rewrite Hgf.
    rewrite bool_decide_eq_true_2 by reflexivity.
    rewrite map_map. exact (weekday_part_run env report dom rows Hrows Hvals). }
  assert (Htotal : LookerReportController.total_of env LookerOrderReport.model dom
                     (map PInt (map (fun i => count_on i rows) (seq 0 7)))
                   = Ok (PInt (Z.of_nat (length (dated rows))))).
  { change (seq 0 7) with [0; 1; 2; 3; 4; 5; 6]%nat.
    unfold LookerReportController.total_of. cbn [map]. unfold py_sum.
    pose proof (py_sum_ints [count_on 0 rows; count_on 1 rows; count_on 2 rows;
                             count_on 3 rows; count_on 4 rows; count_on 5 rows;
                             count_on 6 rows] 0) as Hsum.
    cbn [map fold_right] in Hsum. rewrite Hsum. pose proof (weekday_counts_total rows). do 2 f_equal. lia. }
  eexists. split; [exact Hdata|]. split; [exact Htotal|].
  intros p Hp.
  destruct (order_page_total env report p Hp) as (c & dom' & Hc & Hd & Htot).
  rewrite Hdata in Hc. inversion Hc; subst c. clear Hc.
  rewrite Hdom in Hd. inversion Hd; subst dom'. clear Hd.
  assert (Heq : Ok (stat_total_leads p) = Ok (PInt (Z.of_nat (length (dated rows)))))
    by (rewrite <- Htot; exact Htotal).
  now inversion Heq.
Qed.

(** The rational run time obeys the law of the figures. *)
Lemma q_int_float_laws : @IntFloatLaws QRuntime.runtime.
Proof.
  split. intros z f Hz Hf. simpl in *. inversion Hf; subst f.
  unfold Qeq_bool. simpl. apply Z.eqb_neq. lia.
Qed.

Section PagesRun.
#[local] Existing Instance QRuntime.runtime.

(** Witness of X22: the two reports with nothing set, on the host whose
    [search_count] is out of order. *)
Lemma X22_witness :
  (LookerReport.get_chart_data Runs.broken_env [Runs.success_only] = Ok empty_chart
   /\ LookerReportController.render_report (JS := MoreRuns.plain_json) Runs.broken_env
        MoreRuns.no_leads Runs.success_only = Raise (OrmError "search_count"))
  /\ (LookerOrderReport.get_chart_data Runs.broken_env [Runs.bare_order] = Ok empty_chart
   /\ LookerReportController.render_order_report (JS := MoreRuns.plain_json) Runs.broken_env
        Runs.bare_order = Raise (OrmError "search_count")).
Proof.
  split.
  - apply (proj1 (@X22_a_failing_count_fails_the_page QRuntime.runtime MoreRuns.plain_json
                    Runs.broken_env MoreRuns.no_leads) Runs.success_only (PList []));
      reflexivity.
  - apply (proj2 (@X22_a_failing_count_fails_the_page QRuntime.runtime MoreRuns.plain_json
                    Runs.broken_env MoreRuns.no_leads) Runs.bare_order (PList []));
      reflexivity.
Defined.

(** Witness of X23: the lead report by stage, whose chart has two labels. *)
Lemma X23_witness :
  exists ps,
    LookerReportController.probability_values Runs.shop_env MoreRuns.two_leads
      Runs.lead_by_stage (PList []) (labels Runs.lead_chart) = Ok ps
    /\ length ps = length (labels Runs.lead_chart).
Proof.
  destruct (X23_one_probability_per_label Runs.shop_env MoreRuns.two_leads
              Runs.lead_by_stage (PList []) (labels Runs.lead_chart))
    as (ps & Hps & Hlen & _).
  exists ps. split; [exact Hps | exact (Hlen eq_refl)].
Defined.

(** Witness of X24: the nine orders [search_count] finds on the shop. *)
Lemma X24_witness :
  is_total (PInt 9)
  /\ (forall s, success_pct_of s (PInt 9) <> Raise ZeroDivisionError)
  /\ (forall v, avg_value_of v (PInt 9) <> Raise ZeroDivisionError)
  /\ (py_truthy (PInt 9) = false ->
      forall x, success_pct_of x (PInt 9) = Ok (PFloat f_zero)
                /\ avg_value_of x (PInt 9) = Ok (PFloat f_zero)).
Proof.
  apply (@X24_figures_never_divide_by_zero QRuntime.runtime q_int_float_laws Runs.shop_env
           LookerOrderReport.model (PList []) [] (PInt 9)).
  reflexivity.
Defined.

(** Witness of X25: of the five orders of the shop, three have a usable
    date; the page is rendered and shows 3. *)
Lemma X25_witness :
  (exists p,
     LookerReportController.render_order_report (JS := MoreRuns.plain_json) Runs.shop_env
       Runs.order_by_weekday = Ok (Rendered p)
     /\ stat_total_leads p = PInt 3)
  /\ exists c,
    LookerOrderReport.get_chart_data Runs.shop_env [Runs.order_by_weekday] = Ok c
    /\ LookerReportController.total_of Runs.shop_env LookerOrderReport.model (PList [])
         (count_values c)
       = Ok (PInt (Z.of_nat (length (dated Runs.order_rows))))
    /\ forall p,
         LookerReportController.render_order_report (JS := MoreRuns.plain_json) Runs.shop_env
           Runs.order_by_weekday = Ok (Rendered p) ->
         stat_total_leads p = PInt (Z.of_nat (length (dated Runs.order_rows))).
Proof.
  split; [apply shown_total_page; vm_compute; reflexivity|].
  apply (@X25_weekday_page_counts_dated_orders QRuntime.runtime q_runtime_laws
           MoreRuns.plain_json Runs.shop_env Runs.order_by_weekday (PList []) Runs.order_rows
           (line_labels Runs.weekday_chart) (line_values Runs.weekday_chart));
    try reflexivity.
  intros _. unfold values_convert.
  repeat first [apply List.Forall_nil | apply List.Forall_cons]; intros _; reflexivity.
Defined.

End PagesRun.
